(** * metagov.core.models: a shallow embedding and its verified properties

    The development follows [metagov/core/models.py].  Each model class
    becomes a record, each table a list of rows (or a finite map where
    the order of rows is never observed), and each method a function
    that threads the database explicitly and returns either a value or
    the exception that the Python code raises. *)

From Stdlib Require Import ZArith Bool Ascii String Lia.
From stdpp Require Import base option list strings gmap pretty.

Local Open Scope Z_scope.
Local Open Scope string_scope.

(** ** Python values, truthiness and exceptions *)

Module Py.

(** The exception classes that the module raises, catches or lets
    through.  [KeyboardInterrupt] stands for the classes that derive
    from [BaseException] only, which [except Exception] lets through. *)
Inductive exn_class :=
| ValueError
| KeyError
| IndexError
| TypeError
| AttributeError
| IntegrityError
| DataError
| ValidationError
| SchemaError
| DoesNotExist
| MultipleObjectsReturned
| PluginErrorInternal
| KeyboardInterrupt.

#[global] Instance exn_class_eq_dec : EqDecision exn_class.
Proof. solve_decision. Defined.

Record exn := Exn { exn_cls : exn_class; exn_msg : string }.

#[global] Instance exn_eq_dec : EqDecision exn.
Proof. solve_decision. Defined.

(** [isinstance(e, Exception)] *)
Definition is_Exception (e : exn) : bool :=
  match exn_cls e with
  | KeyboardInterrupt => false
  | _ => true
  end.

(** [isinstance(e, ValueError)] *)
Definition is_ValueError (e : exn) : bool :=
  bool_decide (exn_cls e = ValueError).

Inductive result (A : Type) :=
| Ok (a : A)
| Raise (e : exn).
Arguments Ok {A} a.
Arguments Raise {A} e.

#[global] Instance result_eq_dec {A} `{EqDecision A} : EqDecision (result A).
Proof. solve_decision. Defined.

Definition bind {A B} (r : result A) (k : A -> result B) : result B :=
  match r with
  | Ok a => k a
  | Raise e => Raise e
  end.

(** The values that travel through parameters, results and the state
    store: [None], booleans, integers, strings, lists and dicts with
    string keys (a dict keeps its insertion order).  Floats are left
    out. *)
#[warnings="-register-all"]
Inductive value :=
| VNone
| VBool (b : bool)
| VInt (n : Z)
| VStr (s : string)
| VList (l : list value)
| VDict (d : list (string * value)).

(** [bool(v)] *)
Definition truthy (v : value) : bool :=
  match v with
  | VNone => false
  | VBool b => b
  | VInt n => negb (n =? 0)%Z
  | VStr s => negb (String.eqb s "")
  | VList l => match l with [] => false | _ :: _ => true end
  | VDict d => match d with [] => false | _ :: _ => true end
  end.

(** [v is None] *)
Definition is_None (v : value) : bool :=
  match v with
  | VNone => true
  | _ => false
  end.

(** [a or b] *)
Definition py_or (a b : value) : value := if truthy a then a else b.

(** [bool(s)] for a string *)
Definition str_truthy (s : string) : bool := negb (String.eqb s "").

(** [bool(o)] for an optional string ([None] or a [str]) *)
Definition opt_str_truthy (o : option string) : bool :=
  match o with
  | Some s => str_truthy s
  | None => false
  end.

(** [bool(n)] for [None] or an [int], as in [not self.pk] *)
Definition pk_truthy (pk : option Z) : bool :=
  match pk with
  | Some n => negb (n =? 0)%Z
  | None => false
  end.

(** [str(o)] inside an f-string, for an optional string *)
Definition str_of_opt (o : option string) : string :=
  match o with
  | Some s => s
  | None => "None"
  end.

End Py.
Import Py.

Notation "'try!' x ':=' r 'in' k" := (Py.bind r (fun x => k))
  (at level 10, x name, r at level 100, k at level 200).

(** ** Community *)

Record Community := {
  community_pk : Z;
  slug : string;
  readable_name : string
}.

(** [Community.__str__] *)
Definition Community_str (c : Community) : string :=
  if str_truthy (readable_name c)
  then readable_name c +:+ " (" +:+ slug c +:+ ")"
  else slug c.

(** ** The database

    One record per model class, one table per model.  Rows whose order
    a query can observe ([filter(...)[0]], [get], iteration) are kept in
    lists, in the order in which the database returns them; the tables
    that are only read by primary key are finite maps. *)

(** [Plugin] rows. *)
Record Plugin := {
  plugin_pk : Z;
  plugin_name : string;
  plugin_community : Community;
  plugin_config : value;
  plugin_community_platform_id : option string;
  plugin_state : option Z
}.

(** [GovernanceProcess] instances and rows; [gp_pk] is [None] until the
    first save. *)
Record GovernanceProcess := {
  gp_pk : option Z;
  gp_name : string;
  gp_url : option string;
  gp_callback_url : option string;
  gp_status : string;
  gp_plugin : Z;
  gp_state : option Z;
  gp_errors : value;
  gp_outcome : value
}.

(** [MetagovID] instances; [linked_ids] lives in the table [db_links]. *)
Record MetagovID := {
  mg_pk : option Z;
  mg_community : Z;
  internal_id : Z;
  external_id : Z;
  primary : bool
}.

(** [LinkedAccount] instances. *)
Record LinkedAccount := {
  la_pk : option Z;
  la_metagov_id : Z;
  la_community : Community;
  la_community_platform_id : option string;
  la_platform_type : string;
  la_platform_identifier : string;
  la_custom_data : value;
  la_link_type : string;
  la_link_quality : string
}.

Record DB := {
  db_plugins : list Plugin;
  db_datastores : gmap Z (gmap string string);
  db_datastore_seq : Z;
  db_processes : gmap Z GovernanceProcess;
  db_process_seq : Z;
  db_metagov_ids : list MetagovID;
  db_metagov_seq : Z;
  db_links : list (Z * Z);
  db_linked_accounts : list LinkedAccount;
  db_linked_account_seq : Z
}.

(** A computation that reads and writes a state [S] and may raise. *)
Definition M (S A : Type) : Type := S -> S * result A.

Definition ret {S A} (a : A) : M S A := fun s => (s, Ok a).
Definition raise {S A} (e : exn) : M S A := fun s => (s, Raise e).
Definition bindM {S A B} (m : M S A) (k : A -> M S B) : M S B :=
  fun s => match m s with
           | (s', Ok a) => k a s'
           | (s', Raise e) => (s', Raise e)
           end.
Definition lift {S A} (r : result A) : M S A := fun s => (s, r).

Notation "'do!' x ':=' m 'in' k" := (bindM m (fun x => k))
  (at level 10, x name, m at level 100, k at level 200).

(** [QuerySet.get]: exactly one row, or [DoesNotExist], or
    [MultipleObjectsReturned]. *)
Definition queryset_get {A} (model : string) (rows : list A) : result A :=
  match rows with
  | [] => Raise (Exn DoesNotExist (model +:+ " matching query does not exist."))
  | [x] => Ok x
  | _ :: _ :: _ =>
      Raise (Exn MultipleObjectsReturned
               ("get() returned more than one " +:+ model +:+ " -- it returned "
                +:+ pretty (length rows) +:+ "!"))
  end.

(** [d[k]] on a dict: the value, or [KeyError]. *)
Definition getitem {A} (d : gmap string A) (k : string) : result A :=
  match d !! k with
  | Some a => Ok a
  | None => Raise (Exn KeyError k)
  end.

(** ** The plugin registry and the libraries around the module

    [metagov.core.plugin_manager] fills [plugin_registry] with the
    plugin classes; each class carries the metadata of its actions and
    of its governance processes.  [jsonschema], [jsonpickle] and
    [Parameters] are not part of this module, so the embedding takes
    them as the fields of an environment. *)

(** The metadata that [_action_registry] keeps for an action. *)
Record ActionMeta := {
  function_name : string;
  input_schema : value;
  output_schema : value
}.

(** A handler bound to a plugin instance: it receives the keyword
    arguments, may touch the database, and returns or raises. *)
Definition action_function : Type :=
  Plugin -> list (string * value) -> DB -> DB * result value.

(** A governance process class: its [input_schema] and its [start]
    method, which may change the instance and the database before it
    returns or raises. *)
Record ProcessCls := {
  process_input_schema : value;
  process_start :
    GovernanceProcess -> value -> DB -> (DB * GovernanceProcess) * result unit
}.

Record PluginCls := {
  cls_name : string;
  cls_proxy : bool;
  _action_registry : gmap string ActionMeta;
  _process_registry : list (string * ProcessCls);
  cls_methods : string -> option action_function
}.

Record Env := {
  plugin_registry : gmap string PluginCls;
  (** [jsonschema.validate(instance, schema)] *)
  jsonschema_validate : value -> value -> result unit;
  (** [Parameters(values=..., schema=...)] *)
  Parameters : list (string * value) -> value -> result value;
  (** [jsonpickle.encode] and [jsonpickle.decode] *)
  jsonpickle_encode : value -> string;
  jsonpickle_decode : string -> result value
}.

(** ** Community.perform_action *)

(** [PluginManager.get_queryset] *)
Definition PluginManager_get_queryset (cls : PluginCls) (db : DB) : list Plugin :=
  if cls_proxy cls
  then filter (fun r => plugin_name r = cls_name cls) (db_plugins db)
  else db_plugins db.

(** [Community.get_plugin] *)
Definition get_plugin (env : Env) (self : Community) (name : string)
    (community_platform_id : option string) (id : option Z) (db : DB)
  : result Plugin :=
  match plugin_registry env !! name with
  | None => Raise (Exn ValueError ("Plugin '" +:+ name +:+ "' not found"))
  | Some cls =>
      let qs :=
        filter (fun r => plugin_name r = name
                         /\ community_pk (plugin_community r) = community_pk self)
               (PluginManager_get_queryset cls db) in
      match id with
      | Some i => queryset_get "Plugin" (filter (fun r => plugin_pk r = i) qs)
      | None =>
          if opt_str_truthy community_platform_id
          then queryset_get "Plugin"
                 (filter (fun r => plugin_community_platform_id r = community_platform_id) qs)
          else queryset_get "Plugin" qs
      end
  end.

(** [getattr(plugin, name)] for a handler of the plugin's class *)
Definition getattr (cls : PluginCls) (name : string) : result action_function :=
  match cls_methods cls name with
  | Some f => Ok f
  | None => Raise (Exn AttributeError name)
  end.

(** Unpacking a value with [**] at a call: the keyword arguments are the
    items of a dict; anything else is a [TypeError]. *)
Definition kwargs_of (v : value) : result (list (string * value)) :=
  match v with
  | VDict d => Ok d
  | _ => Raise (Exn TypeError "argument after ** must be a mapping")
  end.

(** One record per invocation of a handler, in order. *)
Record Call := {
  call_function : string;
  call_plugin : Plugin;
  call_kwargs : list (string * value)
}.

(** The call of the handler on the unpacked keyword arguments, recorded
    in the trace. *)
Definition invoke (fname : string) (f : action_function) (plugin : Plugin)
    (kwargs : list (string * value)) : M (DB * list Call) value :=
  fun s =>
    let '(db', r) := f plugin kwargs (fst s) in
    ((db', (snd s ++ [Build_Call fname plugin kwargs])%list), r).

Definition perform_action (env : Env) (self : Community)
    (name action_id : string) (parameters : value)
    (jsonschema_validation : bool) (community_platform_id : option string)
  : M (DB * list Call) value :=
  do! cls := lift (getitem (plugin_registry env) name) in
  do! meta := lift (getitem (_action_registry cls) action_id) in
  do! plugin := (fun s => (s, get_plugin env self name community_platform_id None (fst s))) in
  do! _ := (if jsonschema_validation && truthy (input_schema meta) && truthy parameters
            then lift (jsonschema_validate env parameters (input_schema meta))
            else ret tt) in
  do! f := lift (getattr cls (function_name meta)) in
  do! kwargs := lift (kwargs_of (py_or parameters (VDict []))) in
  do! result := invoke (function_name meta) f plugin kwargs in
  do! _ := (if jsonschema_validation && truthy (output_schema meta) && truthy result
            then lift (jsonschema_validate env result (output_schema meta))
            else ret tt) in
  ret result.

(** ** Writing to the tables *)

Definition set_datastores (f : gmap Z (gmap string string) -> gmap Z (gmap string string))
    (seq : Z) (db : DB) : DB :=
  {| db_plugins := db_plugins db;
     db_datastores := f (db_datastores db);
     db_datastore_seq := seq;
     db_processes := db_processes db;
     db_process_seq := db_process_seq db;
     db_metagov_ids := db_metagov_ids db;
     db_metagov_seq := db_metagov_seq db;
     db_links := db_links db;
     db_linked_accounts := db_linked_accounts db;
     db_linked_account_seq := db_linked_account_seq db |}.

Definition set_processes (f : gmap Z GovernanceProcess -> gmap Z GovernanceProcess)
    (seq : Z) (db : DB) : DB :=
  {| db_plugins := db_plugins db;
     db_datastores := db_datastores db;
     db_datastore_seq := db_datastore_seq db;
     db_processes := f (db_processes db);
     db_process_seq := seq;
     db_metagov_ids := db_metagov_ids db;
     db_metagov_seq := db_metagov_seq db;
     db_links := db_links db;
     db_linked_accounts := db_linked_accounts db;
     db_linked_account_seq := db_linked_account_seq db |}.

Definition set_metagov_ids (rows : list MetagovID) (seq : Z) (db : DB) : DB :=
  {| db_plugins := db_plugins db;
     db_datastores := db_datastores db;
     db_datastore_seq := db_datastore_seq db;
     db_processes := db_processes db;
     db_process_seq := db_process_seq db;
     db_metagov_ids := rows;
     db_metagov_seq := seq;
     db_links := db_links db;
     db_linked_accounts := db_linked_accounts db;
     db_linked_account_seq := db_linked_account_seq db |}.

Definition set_linked_accounts (rows : list LinkedAccount) (seq : Z) (db : DB) : DB :=
  {| db_plugins := db_plugins db;
     db_datastores := db_datastores db;
     db_datastore_seq := db_datastore_seq db;
     db_processes := db_processes db;
     db_process_seq := db_process_seq db;
     db_metagov_ids := db_metagov_ids db;
     db_metagov_seq := db_metagov_seq db;
     db_links := db_links db;
     db_linked_accounts := rows;
     db_linked_account_seq := seq |}.

(** ** DataStore *)

Record DataStore := {
  ds_pk : option Z;
  datastore : gmap string string
}.

(** [Model.save] on a [DataStore]: an instance without a primary key is
    inserted under the next value of the sequence, an instance with one
    replaces (or creates) the row of that key. *)
Definition DataStore_save (self : DataStore) : M DB DataStore :=
  fun db =>
    match ds_pk self with
    | Some p =>
        (set_datastores <[p := datastore self]> (db_datastore_seq db) db, Ok self)
    | None =>
        let p := db_datastore_seq db in
        (set_datastores <[p := datastore self]> (p + 1) db,
         Ok {| ds_pk := Some p; datastore := datastore self |})
    end.

(** [DataStore.objects.create()]; the field default is an empty dict. *)
Definition DataStore_objects_create : M DB DataStore :=
  DataStore_save {| ds_pk := None; datastore := ∅ |}.

(** [DataStore.get] *)
Definition DataStore_get (env : Env) (self : DataStore) (key : string) : result value :=
  match datastore self !! key with
  | Some encoded => jsonpickle_decode env encoded
  | None => Ok VNone
  end.

(** [DataStore.set]; the instance is changed in place, so it is returned
    next to the result. *)
Definition DataStore_set (env : Env) (self : DataStore) (key : string) (v : value)
  : M DB (DataStore * bool) :=
  let self' := {| ds_pk := ds_pk self;
                  datastore := <[key := jsonpickle_encode env v]> (datastore self) |} in
  do! saved := DataStore_save self' in
  ret (saved, true).

(** [DataStore.remove] *)
Definition DataStore_remove (self : DataStore) (key : string)
  : M DB (DataStore * bool) :=
  let res := datastore self !! key in
  let self' := {| ds_pk := ds_pk self; datastore := delete key (datastore self) |} in
  do! saved := DataStore_save self' in
  ret (saved, opt_str_truthy res).

(** ** GovernanceProcess and Plugin.start_process *)

Definition set_gp_pk (pk : option Z) (g : GovernanceProcess) : GovernanceProcess :=
  {| gp_pk := pk; gp_name := gp_name g; gp_url := gp_url g;
     gp_callback_url := gp_callback_url g; gp_status := gp_status g;
     gp_plugin := gp_plugin g; gp_state := gp_state g;
     gp_errors := gp_errors g; gp_outcome := gp_outcome g |}.

Definition set_gp_state (st : option Z) (g : GovernanceProcess) : GovernanceProcess :=
  {| gp_pk := gp_pk g; gp_name := gp_name g; gp_url := gp_url g;
     gp_callback_url := gp_callback_url g; gp_status := gp_status g;
     gp_plugin := gp_plugin g; gp_state := st;
     gp_errors := gp_errors g; gp_outcome := gp_outcome g |}.

(** A character column holds at most [limit] characters. *)
Definition too_long (limit : nat) (s : string) : bool :=
  (limit <? String.length s)%nat.

Definition opt_too_long (limit : nat) (o : option string) : bool :=
  match o with
  | Some s => too_long limit s
  | None => false
  end.

Definition value_too_long (limit : string) : exn :=
  Exn DataError ("value too long for type character varying(" +:+ limit +:+ ")").

(** The constraints that the table of processes declares and the
    database checks on every write of a row: the lengths of the
    character columns [name], [url], [callback_url] and [status]; the
    foreign key [plugin], which is not null and has to name a stored
    plugin; the foreign key [state], which may be null and otherwise has
    to name a stored [DataStore]; and, [state] being a one-to-one field,
    that no other row of the table has the same [state]. *)
Definition GovernanceProcess_constraints (self : GovernanceProcess) (db : DB)
  : result unit :=
  if too_long 30 (gp_name self) then Raise (value_too_long "30")
  else if opt_too_long 150 (gp_url self) then Raise (value_too_long "150")
  else if opt_too_long 100 (gp_callback_url self) then Raise (value_too_long "100")
  else if too_long 15 (gp_status self) then Raise (value_too_long "15")
  else if negb (existsb (fun r => (plugin_pk r =? gp_plugin self)%Z) (db_plugins db))
  then Raise (Exn IntegrityError "FOREIGN KEY constraint failed")
  else
    match gp_state self with
    | None => Ok tt
    | Some s =>
        if negb (bool_decide (is_Some (db_datastores db !! s)))
        then Raise (Exn IntegrityError "FOREIGN KEY constraint failed")
        else if bool_decide
                  (map_Forall (fun k g => gp_pk self = Some k \/ gp_state g <> Some s)
                     (db_processes db))
        then Ok tt
        else Raise (Exn IntegrityError
                      "UNIQUE constraint failed: core_governanceprocess.state_id")
    end.

(** [Model.save] on a [GovernanceProcess].  A row that breaks a
    constraint of the table is refused with the error of the database,
    and nothing is written; so is the insert of a row under a key that is
    taken.  Otherwise an instance without a primary key is inserted under
    the next value of the sequence, and an instance with one replaces
    (or creates) the row of that key. *)
Definition GovernanceProcess_Model_save (self : GovernanceProcess)
  : M DB GovernanceProcess :=
  fun db =>
    match GovernanceProcess_constraints self db with
    | Raise e => (db, Raise e)
    | Ok _ =>
        match gp_pk self with
        | Some p => (set_processes <[p := self]> (db_process_seq db) db, Ok self)
        | None =>
            let p := db_process_seq db in
            if bool_decide (is_Some (db_processes db !! p))
            then (db, Raise (Exn IntegrityError
                               "UNIQUE constraint failed: core_governanceprocess.id"))
            else
              let self' := set_gp_pk (Some p) self in
              (set_processes <[p := self']> (p + 1) db, Ok self')
        end
    end.

(** [GovernanceProcess.save] *)
Definition GovernanceProcess_save (self : GovernanceProcess)
  : M DB GovernanceProcess :=
  do! self1 := (if negb (pk_truthy (gp_pk self))
                then do! st := DataStore_objects_create in
                     ret (set_gp_state (ds_pk st) self)
                else ret self) in
  GovernanceProcess_Model_save self1.

(** [Model.delete] on a [GovernanceProcess].  No model of the module has
    a foreign key to [GovernanceProcess], so the row is all that goes:
    the [CASCADE] of its field [state] runs from the [DataStore] to the
    process, and a deleted process leaves its [DataStore] row alone. *)
Definition GovernanceProcess_delete (self : GovernanceProcess)
  : M DB GovernanceProcess :=
  fun db =>
    match gp_pk self with
    | None =>
        (db, Raise (Exn ValueError
           "GovernanceProcess object can't be deleted because its id attribute is set to None."))
    | Some p =>
        (set_processes (delete p) (db_process_seq db) db, Ok (set_gp_pk None self))
    end.

(** [cls.objects.create(name=..., callback_url=..., plugin=self)]; the
    other fields take their defaults. *)
Definition GovernanceProcess_objects_create (name : string)
    (callback_url : option string) (plugin : Plugin) : M DB GovernanceProcess :=
  GovernanceProcess_save
    {| gp_pk := None; gp_name := name; gp_url := None;
       gp_callback_url := callback_url; gp_status := "created";
       gp_plugin := plugin_pk plugin; gp_state := None;
       gp_errors := VDict []; gp_outcome := VDict [] |}.

(** [repr] of a string without control characters. *)
Fixpoint escape_quote (s : string) : string :=
  match s with
  | EmptyString => EmptyString
  | String c s' =>
      if bool_decide (c = "'"%char) || bool_decide (c = "\"%char)
      then String "\"%char (String c (escape_quote s'))
      else String c (escape_quote s')
  end.

Definition contains_char (c : Ascii.ascii) (s : string) : bool :=
  bool_decide (c ∈ list_ascii_of_string s).

Definition dquote : ascii := Eval cbv in ascii_of_nat 34.

Definition py_repr (s : string) : string :=
  if contains_char "'"%char s && negb (contains_char dquote s)
  then String dquote (s +:+ String dquote EmptyString)
  else "'" +:+ escape_quote s +:+ "'".

(** [str(list(d.keys()))] *)
Definition keys_repr {A} (d : list (string * A)) : string :=
  "[" +:+ String.concat ", " (map (fun kv => py_repr (fst kv)) d) +:+ "]".

(** [dict] lookup in an association list *)
Fixpoint assoc {A} (k : string) (d : list (string * A)) : option A :=
  match d with
  | [] => None
  | (k', a) :: d' => if String.eqb k k' then Some a else assoc k d'
  end.

(** [Plugin.__get_process_cls] *)
Definition get_process_cls (env : Env) (self : Plugin) (process_name : string)
  : result ProcessCls :=
  try! cls := getitem (plugin_registry env) (plugin_name self) in
  let processes := _process_registry cls in
  match assoc process_name processes with
  | None =>
      Raise (Exn ValueError
        ("No such process '" +:+ process_name +:+ "' for " +:+ plugin_name self
         +:+ " plugin. Available processes: " +:+ keys_repr processes))
  | Some pcls => Ok pcls
  end.

(** [Plugin.start_process] *)
Definition start_process (env : Env) (self : Plugin) (process_name : string)
    (callback_url : option string) (kwargs : list (string * value))
  : M DB GovernanceProcess :=
  do! cls := lift (get_process_cls env self process_name) in
  do! params := lift (Parameters env kwargs (process_input_schema cls)) in
  do! new_process := GovernanceProcess_objects_create process_name callback_url self in
  fun db =>
    match process_start cls new_process params db with
    | ((db', started), Ok _) => (db', Ok started)
    | ((db', failed), Raise e) =>
        if is_Exception e
        then (do! _ := GovernanceProcess_delete failed in raise e) db'
        else (db', Raise e)
    end.

(** ** Link types and link qualities *)

Inductive LinkType := OAUTH | MANUAL_ADMIN | EMAIL_MATCHING | LT_UNKNOWN.

Definition LinkType_value (t : LinkType) : string :=
  match t with
  | OAUTH => "oauth"
  | MANUAL_ADMIN => "manual admin"
  | EMAIL_MATCHING => "email matching"
  | LT_UNKNOWN => "unknown"
  end.

Inductive LinkQuality := STRONG_CONFIRM | WEAK_CONFIRM | UNCONFIRMED | UNKNOWN.

Definition LinkQuality_value (q : LinkQuality) : string :=
  match q with
  | STRONG_CONFIRM => "confirmed (strong)"
  | WEAK_CONFIRM => "confirmed (weak)"
  | UNCONFIRMED => "unconfirmed"
  | UNKNOWN => "unknown"
  end.

(** [l.index(x)]: the first position of [x], or [ValueError]. *)
Fixpoint list_index (x : string) (l : list string) : option nat :=
  match l with
  | [] => None
  | y :: l' => if String.eqb x y then Some O else S <$> list_index x l'
  end.

Definition index (l : list string) (x : string) : result nat :=
  match list_index x l with
  | Some i => Ok i
  | None => Raise (Exn ValueError (py_repr x +:+ " is not in list"))
  end.

Definition quality_order : list string :=
  [ LinkQuality_value UNKNOWN;
    LinkQuality_value UNCONFIRMED;
    LinkQuality_value WEAK_CONFIRM;
    LinkQuality_value STRONG_CONFIRM ].

(** [quality_is_greater] *)
Definition quality_is_greater (a b : string) : result bool :=
  try! ia := index quality_order a in
  try! ib := index quality_order b in
  Ok (ib <? ia)%nat.

(** ** MetagovID *)

Definition set_mg_pk (pk : option Z) (m : MetagovID) : MetagovID :=
  {| mg_pk := pk; mg_community := mg_community m; internal_id := internal_id m;
     external_id := external_id m; primary := primary m |}.

(** Whether the row [r] is on the other end of a link from the key [p]. *)
Definition linked_to (db : DB) (p : Z) (r : MetagovID) : bool :=
  match mg_pk r with
  | Some q => bool_decide ((p, q) ∈ db_links db)
  | None => false
  end.

(** [self.linked_ids.all()]; the relation cannot be used before the
    instance has a primary key. *)
Definition linked_ids_all (db : DB) (self : MetagovID) : result (list MetagovID) :=
  match mg_pk self with
  | None =>
      Raise (Exn ValueError
        "MetagovID needs to have a value for field 'id' before this many-to-many relationship can be used.")
  | Some p => Ok (filter (fun r => linked_to db p r = true) (db_metagov_ids db))
  end.

Definition no_primary_msg : string :=
  "At least one linked ID must have 'primary' attribute set to True.".
Definition many_primary_msg : string :=
  "More than one linked ID has 'primary' attribute set to True.".

(** [sum] of a list of booleans *)
Definition true_count (flags : list bool) : Z :=
  foldr (fun (b : bool) acc => (if b then 1 else 0) + acc) 0 flags.

(** Replace the rows of key [p] by [row]. *)
Definition update_row {A} (pk : A -> option Z) (p : Z) (row : A) (rows : list A) : list A :=
  map (fun r => if decide (pk r = Some p) then row else r) rows.

Definition has_row {A} (pk : A -> option Z) (p : Z) (rows : list A) : bool :=
  existsb (fun r => bool_decide (pk r = Some p)) rows.

(** [Model.save] on a [MetagovID]: the columns [internal_id] and
    [external_id] are declared unique, and the database refuses a row
    that repeats the value of another row. *)
Definition MetagovID_Model_save (self : MetagovID) : M DB MetagovID :=
  fun db =>
    let rows := db_metagov_ids db in
    let others := filter (fun r => mg_pk r <> mg_pk self) rows in
    if existsb (fun r => internal_id r =? internal_id self)%Z others
    then (db, Raise (Exn IntegrityError "UNIQUE constraint failed: core_metagovid.internal_id"))
    else if existsb (fun r => external_id r =? external_id self)%Z others
    then (db, Raise (Exn IntegrityError "UNIQUE constraint failed: core_metagovid.external_id"))
    else
      match mg_pk self with
      | Some p =>
          if has_row mg_pk p rows
          then (set_metagov_ids (update_row mg_pk p self rows) (db_metagov_seq db) db, Ok self)
          else (set_metagov_ids (rows ++ [self])%list (db_metagov_seq db) db, Ok self)
      | None =>
          let p := db_metagov_seq db in
          let self' := set_mg_pk (Some p) self in
          (set_metagov_ids (rows ++ [self'])%list (p + 1) db, Ok self')
      end.

(** [MetagovID.save] *)
Definition MetagovID_save (self : MetagovID) : M DB MetagovID :=
  fun db =>
    let check : result unit :=
      if pk_truthy (mg_pk self) then
        try! linked := linked_ids_all db self in
        match linked with
        | [] => Ok tt
        | _ :: _ =>
            let n := true_count (primary self :: map primary linked) in
            if (n =? 0)%Z then Raise (Exn IntegrityError no_primary_msg)
            else if (1 <? n)%Z then Raise (Exn IntegrityError many_primary_msg)
            else Ok tt
        end
      else Ok tt in
    match check with
    | Raise e => (db, Raise e)
    | Ok _ => MetagovID_Model_save self db
    end.

(** [MetagovID.is_primary] *)
Definition is_primary (db : DB) (self : MetagovID) : result bool :=
  if primary self then Ok true
  else
    try! linked := linked_ids_all db self in
    Ok (length linked =? 0)%nat.

(** The loop of [get_primary_id] over the linked ids. *)
Fixpoint first_primary (db : DB) (linked : list MetagovID) : result (option MetagovID) :=
  match linked with
  | [] => Ok None
  | linked_id :: rest =>
      try! p := is_primary db linked_id in
      if p then Ok (Some linked_id) else first_primary db rest
  end.

(** [MetagovID.get_primary_id] *)
Definition get_primary_id (db : DB) (self : MetagovID) : result MetagovID :=
  try! p := is_primary db self in
  if p then Ok self
  else
    try! linked := linked_ids_all db self in
    try! found := first_primary db linked in
    match found with
    | Some linked_id => Ok linked_id
    | None =>
        Raise (Exn ValueError
                 ("No primary ID associated with " +:+ pretty (external_id self)))
    end.

(** ** LinkedAccount *)

Definition set_la_pk (pk : option Z) (a : LinkedAccount) : LinkedAccount :=
  {| la_pk := pk; la_metagov_id := la_metagov_id a; la_community := la_community a;
     la_community_platform_id := la_community_platform_id a;
     la_platform_type := la_platform_type a;
     la_platform_identifier := la_platform_identifier a;
     la_custom_data := la_custom_data a; la_link_type := la_link_type a;
     la_link_quality := la_link_quality a |}.

(** The lookup of the four columns that [LinkedAccount.save] declares
    unique together; a foreign key is compared by the key of its row,
    and [None] matches the rows whose column is null. *)
Definition claims_tuple (community : Community) (platform_type platform_identifier : string)
    (community_platform_id : option string) (r : LinkedAccount) : Prop :=
  community_pk (la_community r) = community_pk community
  /\ la_platform_type r = platform_type
  /\ la_platform_identifier r = platform_identifier
  /\ la_community_platform_id r = community_platform_id.

#[global] Instance claims_tuple_dec c t i p r : Decision (claims_tuple c t i p r).
Proof. unfold claims_tuple. apply _. Defined.

Definition LinkedAccount_filter (community : Community)
    (platform_type platform_identifier : string)
    (community_platform_id : option string) (db : DB) : list LinkedAccount :=
  filter (claims_tuple community platform_type platform_identifier community_platform_id)
         (db_linked_accounts db).

(** [Model.save] on a [LinkedAccount]. *)
Definition LinkedAccount_Model_save (self : LinkedAccount) : M DB LinkedAccount :=
  fun db =>
    let rows := db_linked_accounts db in
    match la_pk self with
    | Some p =>
        if has_row la_pk p rows
        then (set_linked_accounts (update_row la_pk p self rows)
                (db_linked_account_seq db) db, Ok self)
        else (set_linked_accounts (rows ++ [self])%list
                (db_linked_account_seq db) db, Ok self)
    | None =>
        let p := db_linked_account_seq db in
        let self' := set_la_pk (Some p) self in
        (set_linked_accounts (rows ++ [self'])%list (p + 1) db, Ok self')
    end.

Definition duplicate_link_msg (self : LinkedAccount) : string :=
  "LinkedAccount with the following already exists: community "
  +:+ Community_str (la_community self) +:+ ";"
  +:+ "platform_type: " +:+ la_platform_type self
  +:+ "; platform_identifier: " +:+ la_platform_identifier self
  +:+ "community_platform_id: " +:+ str_of_opt (la_community_platform_id self).

(** [LinkedAccount.save] *)
Definition LinkedAccount_save (self : LinkedAccount) : M DB LinkedAccount :=
  fun db =>
    let result :=
      LinkedAccount_filter (la_community self) (la_platform_type self)
        (la_platform_identifier self) (la_community_platform_id self) db in
    let claimed :=
      match result with
      | [] => false
      | first :: _ =>
          negb (pk_truthy (la_pk self))
          || (pk_truthy (la_pk self) && bool_decide (la_pk first <> la_pk self))
      end in
    if claimed
    then (db, Raise (Exn IntegrityError (duplicate_link_msg self)))
    else LinkedAccount_Model_save self db.

(** ** metagov.core.identity *)

Module identity.

(** Modelled from the spec: [identity.strip_null_values_from_dict] is
    not under src/; by its name and its one call it drops the keys
    whose value is [None]. *)
Definition strip_null_values_from_dict (d : list (string * value))
  : list (string * value) :=
  filter (fun kv => is_None (snd kv) = false) d.

(** Modelled from the spec: [identity.retrieve_account] is not under
    src/.  The spec: exact-match lookup by the LinkedAccount
    uniqueness tuple; fails with NotFound if absent.  The caller
    catches the failure as a [ValueError]. *)
Definition retrieve_account (community : Community)
    (platform_type platform_identifier : string)
    (community_platform_id : option string) : M DB LinkedAccount :=
  fun db =>
    match LinkedAccount_filter community platform_type platform_identifier
            community_platform_id db with
    | account :: _ => (db, Ok account)
    | [] =>
        (db, Raise (Exn ValueError
           ("No LinkedAccount found in community " +:+ Community_str community
            +:+ " with platform " +:+ platform_type
            +:+ " and identifier " +:+ platform_identifier)))
    end.

(** The fields that the keyword arguments of an update carry. *)
Definition apply_update (kwargs : list (string * value)) (a : LinkedAccount)
  : LinkedAccount :=
  {| la_pk := la_pk a; la_metagov_id := la_metagov_id a;
     la_community := la_community a;
     la_community_platform_id := la_community_platform_id a;
     la_platform_type := la_platform_type a;
     la_platform_identifier := la_platform_identifier a;
     la_custom_data :=
       match assoc "custom_data" kwargs with
       | Some v => v
       | None => la_custom_data a
       end;
     la_link_type :=
       match assoc "link_type" kwargs with
       | Some (VStr t) => t
       | _ => la_link_type a
       end;
     la_link_quality :=
       match assoc "link_quality" kwargs with
       | Some (VStr q) => q
       | _ => la_link_quality a
       end |}.

(** Modelled from the spec: [identity.update_linked_account] is not
    under src/.  The spec: in-place update of customData, linkType
    and linkQuality on the existing LinkedAccount matched by its
    uniqueness tuple.  The fields that the call does not name keep
    their value; the row is written with [LinkedAccount.save]. *)
Definition update_linked_account (community : Community)
    (platform_type platform_identifier : string)
    (community_platform_id : option string) (kwargs : list (string * value))
  : M DB LinkedAccount :=
  do! account := retrieve_account community platform_type platform_identifier
                   community_platform_id in
  LinkedAccount_save (apply_update kwargs account).

Definition max_id (f : MetagovID -> Z) (rows : list MetagovID) : Z :=
  foldr (fun r acc => Z.max (f r) acc) 0 rows.

(** Modelled from the spec: [identity.create_id] is not under src/.
    The spec: mints a fresh MetagovId with a new unique externalId and
    internalId, primary = true, no links; returns the externalId.  The
    new ids are the successors of the largest ids in use; the caller
    takes the first element of the result. *)
Definition create_id (community : Community) : M DB (list Z) :=
  fun db =>
    let rows := db_metagov_ids db in
    let fresh :=
      {| mg_pk := None; mg_community := community_pk community;
         internal_id := max_id internal_id rows + 1;
         external_id := max_id external_id rows + 1;
         primary := true |} in
    (do! created := MetagovID_save fresh in ret [external_id created]) db.

(** Modelled from the spec: [identity.link_account] is not under src/.
    The spec: resolves the MetagovId by externalId; creates a new
    LinkedAccount bound to it; fails with DuplicateLink if the
    uniqueness tuple is already claimed by a different account.  The
    fields that the call does not name take the defaults of the
    model; the row is written with [LinkedAccount.save]. *)
Definition link_account (ext : Z) (community : Community)
    (platform_type platform_identifier : string) (kwargs : list (string * value))
  : M DB LinkedAccount :=
  fun db =>
    match queryset_get "MetagovID"
            (filter (fun r => external_id r = ext) (db_metagov_ids db)) with
    | Raise e => (db, Raise e)
    | Ok owner =>
        match mg_pk owner with
        | None => (db, Raise (Exn ValueError "MetagovID instance is not saved"))
        | Some owner_pk =>
            let account :=
              {| la_pk := None; la_metagov_id := owner_pk;
                 la_community := community;
                 la_community_platform_id :=
                   match assoc "community_platform_id" kwargs with
                   | Some (VStr c) => Some c
                   | _ => None
                   end;
                 la_platform_type := platform_type;
                 la_platform_identifier := platform_identifier;
                 la_custom_data := VDict [];
                 la_link_type := LinkType_value LT_UNKNOWN;
                 la_link_quality := LinkQuality_value UNKNOWN |} in
            LinkedAccount_save (apply_update kwargs account) db
        end
    end.

End identity.

(** ** Plugin.add_linked_account *)

Definition value_of_opt_str (o : option string) : value :=
  match o with
  | Some s => VStr s
  | None => VNone
  end.

(** The body of the [try] block. *)
Definition add_linked_account_try (self : Plugin) (platform_identifier : string)
    (link_quality : option string) (optional_params : list (string * value))
  : M DB LinkedAccount :=
  do! result := identity.retrieve_account (plugin_community self) (plugin_name self)
                  platform_identifier (plugin_community_platform_id self) in
  do! greater := (match link_quality with
                  | Some q =>
                      if str_truthy q
                      then lift (quality_is_greater q (la_link_quality result))
                      else ret false
                  | None => ret false
                  end) in
  if (greater : bool)
  then identity.update_linked_account (plugin_community self) (plugin_name self)
         platform_identifier (plugin_community_platform_id self) optional_params
  else ret result.

(** The body of the [except ValueError] block. *)
Definition add_linked_account_except (self : Plugin) (platform_identifier : string)
    (external_id : option Z) (optional_params : list (string * value))
  : M DB LinkedAccount :=
  do! ext := (if pk_truthy external_id
              then ret (default 0 external_id)
              else do! ids := identity.create_id (plugin_community self) in
                   match ids with
                   | first :: _ => ret first
                   | [] => raise (Exn IndexError "list index out of range")
                   end) in
  identity.link_account ext (plugin_community self) (plugin_name self)
    platform_identifier optional_params.

(** [Plugin.add_linked_account] *)
Definition add_linked_account (self : Plugin) (platform_identifier : string)
    (external_id : option Z) (custom_data : value)
    (link_type link_quality : option string) : M DB LinkedAccount :=
  let optional_params :=
    identity.strip_null_values_from_dict
      [ ("community_platform_id", value_of_opt_str (plugin_community_platform_id self));
        ("custom_data", custom_data);
        ("link_type", value_of_opt_str link_type);
        ("link_quality", value_of_opt_str link_quality) ] in
  fun db =>
    match add_linked_account_try self platform_identifier link_quality optional_params db with
    | (db', Ok result) => (db', Ok result)
    | (db', Raise error) =>
        if is_ValueError error
        then add_linked_account_except self platform_identifier external_id
               optional_params db'
        else (db', Raise error)
    end.

(** ** Community.disable_plugin *)

Definition set_plugins (rows : list Plugin) (db : DB) : DB :=
  {| db_plugins := rows;
     db_datastores := db_datastores db;
     db_datastore_seq := db_datastore_seq db;
     db_processes := db_processes db;
     db_process_seq := db_process_seq db;
     db_metagov_ids := db_metagov_ids db;
     db_metagov_seq := db_metagov_seq db;
     db_links := db_links db;
     db_linked_accounts := db_linked_accounts db;
     db_linked_account_seq := db_linked_account_seq db |}.

(** [Model.delete] on a [Plugin].  The foreign key [plugin] of
    [GovernanceProcess] is declared with [CASCADE], so the processes of
    the plugin go with it.  The [CASCADE] of the fields [state] runs
    from the [DataStore] to its owner: no [DataStore] row is deleted. *)
Definition Plugin_delete (self : Plugin) : M DB unit :=
  fun db =>
    (set_processes
       (filter (fun kv : Z * GovernanceProcess => gp_plugin (snd kv) <> plugin_pk self))
       (db_process_seq db)
       (set_plugins (filter (fun r => plugin_pk r <> plugin_pk self) (db_plugins db)) db),
     Ok tt).

(** [Community.disable_plugin] *)
Definition disable_plugin (env : Env) (self : Community) (name : string)
    (community_platform_id : option string) (id : option Z) : M DB unit :=
  do! plugin := (fun db => (db, get_plugin env self name community_platform_id id db)) in
  Plugin_delete plugin.

(** ** Plugin.get_processes and Plugin.get_process *)

(** The attributes of a process class that its manager reads:
    [model.name], [model.plugin_name] and [model._meta.proxy].  The
    registry sets them in [metagov.core.plugin_manager], which is not
    part of the module; the functions below take them from a function
    [model_of] on the process classes. *)
Record ProcessModel := {
  model_name : string;
  model_plugin_name : string;
  model_proxy : bool
}.

(** [GovernanceProcess] itself, whose manager filters nothing. *)
Definition GovernanceProcess_model : ProcessModel :=
  {| model_name := ""; model_plugin_name := ""; model_proxy := false |}.

(** [plugin__name]: the name of the plugin row that the foreign key
    [plugin] of the process points to. *)
Definition process_plugin_name (db : DB) (g : GovernanceProcess) : option string :=
  plugin_name <$> List.find (fun r => (plugin_pk r =? gp_plugin g)%Z) (db_plugins db).

(** [GovernanceProcessManager.get_queryset], as a test on a row. *)
Definition in_process_queryset (m : ProcessModel) (db : DB) (g : GovernanceProcess)
  : bool :=
  if model_proxy m
  then String.eqb (gp_name g) (model_name m)
       && bool_decide (process_plugin_name db g = Some (model_plugin_name m))
  else true.

(** [cls.objects.all()], in the order in which the table lists its rows. *)
Definition process_objects_all (m : ProcessModel) (db : DB) : list GovernanceProcess :=
  filter (fun g => in_process_queryset m db g = true)
         (map snd (map_to_list (db_processes db))).

(** [cls.objects.get(pk=id)] *)
Definition process_objects_get (m : ProcessModel) (id : Z) (db : DB)
  : result GovernanceProcess :=
  match db_processes db !! id with
  | Some g =>
      if in_process_queryset m db g then Ok g
      else Raise (Exn DoesNotExist "GovernanceProcess matching query does not exist.")
  | None => Raise (Exn DoesNotExist "GovernanceProcess matching query does not exist.")
  end.

(** [Plugin.get_processes] *)
Definition get_processes (env : Env) (model_of : ProcessCls -> ProcessModel)
    (self : Plugin) (process_name : string) (db : DB)
  : result (list GovernanceProcess) :=
  try! cls := get_process_cls env self process_name in
  Ok (process_objects_all (model_of cls) db).

(** [Plugin.get_process] *)
Definition get_process (env : Env) (model_of : ProcessCls -> ProcessModel)
    (self : Plugin) (id : Z) (db : DB) : result GovernanceProcess :=
  try! process := process_objects_get GovernanceProcess_model id db in
  try! cls := get_process_cls env self (gp_name process) in
  process_objects_get (model_of cls) id db.

(** ** What the start logic receives *)

(** The process instance that [start_process] creates on the database
    [db] and hands to the start logic. *)
Definition created_process (self : Plugin) (process_name : string)
    (callback_url : option string) (db : DB) : GovernanceProcess :=
  {| gp_pk := Some (db_process_seq db); gp_name := process_name; gp_url := None;
     gp_callback_url := callback_url; gp_status := "created";
     gp_plugin := plugin_pk self; gp_state := Some (db_datastore_seq db);
     gp_errors := VDict []; gp_outcome := VDict [] |}.

(** The database once the rows of that instance and of its state store
    are in. *)
Definition created_db (self : Plugin) (process_name : string)
    (callback_url : option string) (db : DB) : DB :=
  set_processes
    <[db_process_seq db := created_process self process_name callback_url db]>
    (db_process_seq db + 1)
    (set_datastores <[db_datastore_seq db := ∅]> (db_datastore_seq db + 1) db).

(** ** The primary keys of a table *)

(** No two rows of the table of linked accounts share a primary key. *)
Definition unique_keys (rows : list LinkedAccount) : Prop :=
  forall i j a b,
    rows !! i = Some a -> rows !! j = Some b -> la_pk a = la_pk b -> i = j.

(** ** The order of link qualities and the uniqueness of accounts, in
    the words of the spec *)

(** unknown < unconfirmed < weak-confirm < strong-confirm *)
Definition rank (q : LinkQuality) : nat :=
  match q with
  | UNKNOWN => 0
  | UNCONFIRMED => 1
  | WEAK_CONFIRM => 2
  | STRONG_CONFIRM => 3
  end.

(** The row [b] claims the tuple of the account [a]. *)
Definition same_tuple (a b : LinkedAccount) : Prop :=
  claims_tuple (la_community a) (la_platform_type a) (la_platform_identifier a)
    (la_community_platform_id a) b.

(** At most one row per tuple. *)
Definition unique_tuples (rows : list LinkedAccount) : Prop :=
  forall i j a b,
    rows !! i = Some a -> rows !! j = Some b -> same_tuple a b -> i = j.


(** ** The link-group of the spec

    The spec states its invariant on the connected link-group of a
    node: the nodes that can be reached from it over [linked_ids].  The
    code has no such notion; the definitions below follow the words of
    the spec and serve to compare them with what [MetagovID.save]
    checks. *)

(** The keys that a link leads to from the key [p]. *)
Definition neighbours (db : DB) (p : Z) : list Z :=
  omap (fun l => if decide (fst l = p) then Some (snd l) else None) (db_links db).

(** [seen], followed by the keys of [new] that it does not hold yet. *)
Definition add_new (seen new : list Z) : list Z :=
  foldl (fun acc q => if decide (q ∈ acc) then acc else (acc ++ [q])%list) seen new.

(** One more step along the links. *)
Definition expand (db : DB) (seen : list Z) : list Z :=
  add_new seen (concat (map (neighbours db) seen)).

Fixpoint reach (db : DB) (rounds : nat) (seen : list Z) : list Z :=
  match rounds with
  | O => seen
  | S n => reach db n (expand db seen)
  end.

(** The keys of the connected link-group of the key [p]. *)
Definition link_group (db : DB) (p : Z) : list Z :=
  reach db (length (db_metagov_ids db)) [p].

(** Whether the row [r] belongs to the link-group of [p]. *)
Definition in_link_group (db : DB) (p : Z) (r : MetagovID) : bool :=
  match mg_pk r with
  | Some q => bool_decide (q ∈ link_group db p)
  | None => false
  end.

(** The rows of the link-group of [p] that [is_primary] accepts. *)
Definition group_primaries (db : DB) (p : Z) : list MetagovID :=
  filter (fun r => in_link_group db p r = true /\ is_primary db r = Ok true)
         (db_metagov_ids db).

(** ** JSON text

    A printer and a parser of JSON text for the values of [Py.value]:
    an executable codec to put in the place of [jsonpickle]. *)

Module Json.

(** The characters of a string. *)
Definition chars : string -> list ascii := list_ascii_of_string.

(** The characters that a string literal escapes. *)
Definition is_special (c : ascii) : bool :=
  Ascii.eqb c dquote || Ascii.eqb c "\"%char.

Fixpoint escape (s : list ascii) : list ascii :=
  match s with
  | [] => []
  | c :: s' =>
      if is_special c then "\"%char :: c :: escape s' else c :: escape s'
  end.

(** A string literal. *)
Definition quote (s : string) : list ascii :=
  dquote :: (escape (chars s) ++ [dquote])%list.

(** The parts, with the separator between them. *)
Fixpoint join (sep : list ascii) (parts : list (list ascii)) : list ascii :=
  match parts with
  | [] => []
  | p :: ps =>
      match ps with
      | [] => p
      | _ :: _ => (p ++ sep ++ join sep ps)%list
      end
  end.

(** The text of a value: [null], [true], [false], decimal integers,
    string literals, and lists and dicts separated by a comma and a
    space, with a colon and a space after each key. *)
Fixpoint encode_chars (v : value) : list ascii :=
  match v with
  | VNone => chars "null"
  | VBool true => chars "true"
  | VBool false => chars "false"
  | VInt n => chars (pretty n)
  | VStr s => quote s
  | VList l => "["%char :: (join (chars ", ") (map encode_chars l) ++ ["]"%char])%list
  | VDict d =>
      "{"%char ::
        (join (chars ", ")
           (map (fun kv => (quote (fst kv) ++ chars ": " ++ encode_chars (snd kv))%list) d)
         ++ ["}"%char])%list
  end.

Definition encode (v : value) : string := string_of_list_ascii (encode_chars v).

Definition is_space (c : ascii) : bool :=
  Ascii.eqb c " "%char || Ascii.eqb c "010"%char
  || Ascii.eqb c "009"%char || Ascii.eqb c "013"%char.

Fixpoint skip_ws (s : list ascii) : list ascii :=
  match s with
  | c :: s' => if is_space c then skip_ws s' else s
  | [] => []
  end.

Definition digit (c : ascii) : option Z :=
  let n := Z.of_nat (nat_of_ascii c) in
  if (48 <=? n)%Z && (n <=? 57)%Z then Some (n - 48)%Z else None.

Definition is_digit (c : ascii) : bool :=
  match digit c with
  | Some _ => true
  | None => false
  end.

Fixpoint parse_digits (acc : Z) (s : list ascii) : Z * list ascii :=
  match s with
  | c :: s' =>
      match digit c with
      | Some d => parse_digits (10 * acc + d) s'
      | None => (acc, s)
      end
  | [] => (acc, [])
  end.

(** The characters of a string literal after its opening quote. *)
Fixpoint parse_chars (s : list ascii) : option (string * list ascii) :=
  match s with
  | [] => None
  | c :: s' =>
      if Ascii.eqb c dquote then Some (EmptyString, s')
      else if Ascii.eqb c "\"%char then
        match s' with
        | e :: s'' =>
            match parse_chars s'' with
            | Some (str, rest) => Some (String e str, rest)
            | None => None
            end
        | [] => None
        end
      else
        match parse_chars s' with
        | Some (str, rest) => Some (String c str, rest)
        | None => None
        end
  end.

Definition is_number_start (c : ascii) : bool :=
  Ascii.eqb c "-"%char || is_digit c.

Definition parse_number (s : list ascii) : option (value * list ascii) :=
  match s with
  | c :: s' =>
      if Ascii.eqb c "-"%char then
        match s' with
        | d :: _ =>
            if is_digit d
            then let '(n, rest) := parse_digits 0 s' in Some (VInt (- n), rest)
            else None
        | [] => None
        end
      else if is_digit c
      then let '(n, rest) := parse_digits 0 s in Some (VInt n, rest)
      else None
  | [] => None
  end.

Fixpoint strip_prefix (p s : list ascii) : option (list ascii) :=
  match p, s with
  | [], _ => Some s
  | a :: p', b :: s' => if Ascii.eqb a b then strip_prefix p' s' else None
  | _ :: _, [] => None
  end.

(** [null], [true] and [false]. *)
Definition parse_keyword (s : list ascii) : option (value * list ascii) :=
  match strip_prefix (chars "null") s with
  | Some rest => Some (VNone, rest)
  | None =>
      match strip_prefix (chars "true") s with
      | Some rest => Some (VBool true, rest)
      | None =>
          match strip_prefix (chars "false") s with
          | Some rest => Some (VBool false, rest)
          | None => None
          end
      end
  end.

(** The parser descends by the first character that is not white
    space; [fuel] bounds the depth of the calls. *)
Fixpoint parse_value (fuel : nat) (s : list ascii) : option (value * list ascii) :=
  match fuel with
  | O => None
  | S fuel' =>
      match skip_ws s with
      | [] => None
      | c :: rest =>
          if is_number_start c then parse_number (c :: rest)
          else if Ascii.eqb c dquote then
            match parse_chars rest with Some (str, rest') => Some (VStr str, rest') | None => None end
          else if Ascii.eqb c "["%char then
            match skip_ws rest with
            | [] => None
            | c' :: rest' =>
                if Ascii.eqb c' "]"%char then Some (VList [], rest')
                else match parse_elements fuel' rest with Some (l, rest'') => Some (VList l, rest'') | None => None end
            end
          else if Ascii.eqb c "{"%char then
            match skip_ws rest with
            | [] => None
            | c' :: rest' =>
                if Ascii.eqb c' "}"%char then Some (VDict [], rest')
                else match parse_members fuel' rest with Some (d, rest'') => Some (VDict d, rest'') | None => None end
            end
          else parse_keyword (c :: rest)
      end
  end
with parse_elements (fuel : nat) (s : list ascii) : option (list value * list ascii) :=
  match fuel with
  | O => None
  | S fuel' =>
      match parse_value fuel' s with
      | None => None
      | Some (v, rest) =>
          match skip_ws rest with
          | [] => None
          | c :: rest' =>
              if Ascii.eqb c ","%char then
                match parse_elements fuel' rest' with
                | Some (l, rest'') => Some (v :: l, rest'')
                | None => None
                end
              else if Ascii.eqb c "]"%char then Some ([v], rest')
              else None
          end
      end
  end
with parse_members (fuel : nat) (s : list ascii)
  : option (list (string * value) * list ascii) :=
  match fuel with
  | O => None
  | S fuel' =>
      match skip_ws s with
      | [] => None
      | q :: s' =>
          if Ascii.eqb q dquote then
            match parse_chars s' with
            | None => None
            | Some (k, rest) =>
                match skip_ws rest with
                | [] => None
                | c :: rest' =>
                    if Ascii.eqb c ":"%char then
                      match parse_value fuel' rest' with
                      | None => None
                      | Some (v, rest'') =>
                          match skip_ws rest'' with
                          | [] => None
                          | c' :: rest3 =>
                              if Ascii.eqb c' ","%char then
                                match parse_members fuel' rest3 with
                                | Some (d, rest4) => Some ((k, v) :: d, rest4)
                                | None => None
                                end
                              else if Ascii.eqb c' "}"%char then Some ([(k, v)], rest3)
                              else None
                          end
                      end
                    else None
                end
            end
          else None
      end
  end.

(** The whole text is one value; the length of the text bounds the
    depth of the calls. *)
Definition decode (text : string) : result value :=
  let s := chars text in
  match parse_value (S (length s)) s with
  | Some (v, rest) =>
      match skip_ws rest with
      | [] => Ok v
      | _ :: _ => Raise (Exn ValueError "Extra data")
      end
  | None => Raise (Exn ValueError "Expecting value")
  end.

Fixpoint total (l : list nat) : nat :=
  match l with
  | [] => O
  | n :: l' => (n + total l')%nat
  end.

(** The number of calls that the parser needs for a value. *)
Fixpoint size (v : value) : nat :=
  match v with
  | VList l => S (total (map (fun x => S (size x)) l))
  | VDict d => S (total (map (fun kv => S (size (snd kv))) d))
  | _ => 1
  end.

(** The character after a number must not continue it. *)
Definition no_digit_head (rest : list ascii) : Prop :=
  match rest with
  | c :: _ => is_digit c = false
  | [] => True
  end.

Definition value_start (c : ascii) : bool :=
  is_number_start c || Ascii.eqb c dquote || Ascii.eqb c "[" || Ascii.eqb c "{"
  || Ascii.eqb c "n" || Ascii.eqb c "t" || Ascii.eqb c "f".

(** What the round trip asks of one value. *)
Definition parses_back (v : value) : Prop :=
  forall fuel rest,
    (size v <= fuel)%nat -> no_digit_head rest ->
    parse_value fuel (encode_chars v ++ rest) = Some (v, rest).

Definition element_size (v : value) : nat := S (size v).

Definition member_size (kv : string * value) : nat := S (size (snd kv)).

Definition encode_member (kv : string * value) : list ascii :=
  (quote (fst kv) ++ chars ": " ++ encode_chars (snd kv))%list.

End Json.

(** ** Concrete libraries and a concrete database

    The instances below give the fields of [Env] executable contents:
    the [required] keyword of JSON Schema and the codec [Json].  They
    feed the examples that run the functions above on explicit inputs. *)

Module Sample.

(** [jsonschema.validate] restricted to the keyword [required]: an
    object that lacks a required property is rejected, everything
    else is accepted. *)
Definition validate_required (instance schema : value) : result unit :=
  match schema, instance with
  | VDict sch, VDict inst =>
      match assoc "required" sch with
      | Some (VList names) =>
          match
            List.find (fun n => match n with
                                | VStr k => negb (bool_decide (is_Some (assoc k inst)))
                                | _ => false
                                end) names
          with
          | Some (VStr k) =>
              Raise (Exn ValidationError (py_repr k +:+ " is a required property"))
          | _ => Ok tt
          end
      | _ => Ok tt
      end
  | _, _ => Ok tt
  end.

(** *** A community with one plugin *)

Definition acme : Community :=
  {| community_pk := 1; slug := "acme"; readable_name := "Acme" |}.

Definition poll_plugin : Plugin :=
  {| plugin_pk := 1; plugin_name := "poll"; plugin_community := acme;
     plugin_config := VDict [("apiKey", VStr "x")];
     plugin_community_platform_id := None; plugin_state := Some 1 |}.

(** An action that answers with the id of a new poll. *)
Definition create_poll : action_function :=
  fun _ _ db => (db, Ok (VDict [("id", VInt 7)])).

(** An action that answers with an empty dict. *)
Definition ping : action_function :=
  fun _ _ db => (db, Ok (VDict [])).

Definition create_poll_meta : ActionMeta :=
  {| function_name := "create_poll";
     input_schema := VDict [("required", VList [VStr "title"])];
     output_schema := VNone |}.

Definition ping_meta : ActionMeta :=
  {| function_name := "ping";
     input_schema := VDict [("required", VList [VStr "title"])];
     output_schema := VDict [("required", VList [VStr "id"])] |}.

Definition start_error : exn := Exn PluginErrorInternal "could not reach the platform".

(** A process whose [start] raises before it does anything. *)
Definition vote : ProcessCls :=
  {| process_input_schema := VNone;
     process_start := fun self _ db => ((db, self), Raise start_error) |}.

Definition poll_cls : PluginCls :=
  {| cls_name := "poll";
     cls_proxy := true;
     _action_registry := {[ "create-poll" := create_poll_meta; "ping" := ping_meta ]};
     _process_registry := [("vote", vote)];
     cls_methods := fun n =>
       if String.eqb n "create_poll" then Some create_poll
       else if String.eqb n "ping" then Some ping
       else None |}.

Definition env : Env :=
  {| plugin_registry := {[ "poll" := poll_cls ]};
     jsonschema_validate := validate_required;
     Parameters := fun values schema =>
       try! _ := validate_required (VDict values) schema in Ok (VDict values);
     jsonpickle_encode := Json.encode;
     jsonpickle_decode := Json.decode |}.

Definition db0 : DB :=
  {| db_plugins := [poll_plugin];
     db_datastores := {[ 1 := ∅ ]};
     db_datastore_seq := 2;
     db_processes := ∅;
     db_process_seq := 1;
     db_metagov_ids := [];
     db_metagov_seq := 1;
     db_links := [];
     db_linked_accounts := [];
     db_linked_account_seq := 1 |}.

(** *** Three identities in a chain

    [alice] is linked to [bob] and [bob] to [carol]; the links are
    symmetric, and [alice] is the primary of the group. *)

Definition alice : MetagovID :=
  {| mg_pk := Some 1; mg_community := 1; internal_id := 101; external_id := 201;
     primary := true |}.
Definition bob : MetagovID :=
  {| mg_pk := Some 2; mg_community := 1; internal_id := 102; external_id := 202;
     primary := false |}.
Definition carol : MetagovID :=
  {| mg_pk := Some 3; mg_community := 1; internal_id := 103; external_id := 203;
     primary := false |}.

(** [carol] with the flag [primary] raised, before it is saved. *)
Definition carol_primary : MetagovID :=
  {| mg_pk := Some 3; mg_community := 1; internal_id := 103; external_id := 203;
     primary := true |}.

(** A slack account of [alice], of unconfirmed quality. *)
Definition slack_account : LinkedAccount :=
  {| la_pk := Some 1; la_metagov_id := 1; la_community := acme;
     la_community_platform_id := None; la_platform_type := "slack";
     la_platform_identifier := "U123"; la_custom_data := VDict [];
     la_link_type := LinkType_value LT_UNKNOWN;
     la_link_quality := LinkQuality_value UNCONFIRMED |}.

Definition slack_plugin : Plugin :=
  {| plugin_pk := 2; plugin_name := "slack"; plugin_community := acme;
     plugin_config := VDict []; plugin_community_platform_id := None;
     plugin_state := Some 3 |}.

Definition db_ids : DB :=
  {| db_plugins := [poll_plugin; slack_plugin];
     db_datastores := {[ 1 := ∅; 3 := ∅ ]};
     db_datastore_seq := 4;
     db_processes := ∅;
     db_process_seq := 1;
     db_metagov_ids := [alice; bob; carol];
     db_metagov_seq := 4;
     db_links := [(1, 2); (2, 1); (2, 3); (3, 2)];
     db_linked_accounts := [slack_account];
     db_linked_account_seq := 2 |}.

(** The process instance of the first attempt on [db0], and the
    database once its two rows are in. *)
Definition vote_attempt : GovernanceProcess :=
  {| gp_pk := Some 1; gp_name := "vote"; gp_url := None;
     gp_callback_url := None; gp_status := "created"; gp_plugin := 1;
     gp_state := Some 2; gp_errors := VDict []; gp_outcome := VDict [] |}.

Definition db1 : DB :=
  {| db_plugins := [poll_plugin];
     db_datastores := <[ 2 := ∅ ]> {[ 1 := ∅ ]};
     db_datastore_seq := 3;
     db_processes := <[ 1 := vote_attempt ]> ∅;
     db_process_seq := 2;
     db_metagov_ids := [];
     db_metagov_seq := 1;
     db_links := [];
     db_linked_accounts := [];
     db_linked_account_seq := 1 |}.

End Sample.

(** ** More actions, processes and rows for the examples *)

Module Cases.

(** An action that writes a note into the first state store and answers
    without the [id] that its output schema requires. *)
Definition add_note : action_function :=
  fun _ _ db =>
    (set_datastores <[1 := {["note" := "x"]}]> (db_datastore_seq db) db,
     Ok (VDict [("ok", VBool true)])).

Definition add_note_meta : ActionMeta :=
  {| function_name := "add_note";
     input_schema := VNone;
     output_schema := VDict [("required", VList [VStr "id"])] |}.

Definition set_gp_status (status : string) (g : GovernanceProcess) : GovernanceProcess :=
  {| gp_pk := gp_pk g; gp_name := gp_name g; gp_url := gp_url g;
     gp_callback_url := gp_callback_url g; gp_status := status;
     gp_plugin := gp_plugin g; gp_state := gp_state g;
     gp_errors := gp_errors g; gp_outcome := gp_outcome g |}.

(** A process whose [start] sets the status to [pending] and saves. *)
Definition survey : ProcessCls :=
  {| process_input_schema := VDict [("required", VList [VStr "title"])];
     process_start := fun self _ db =>
       match GovernanceProcess_save (set_gp_status "pending" self) db with
       | (db', Ok saved) => ((db', saved), Ok tt)
       | (db', Raise e) => ((db', self), Raise e)
       end |}.

Definition interrupt : exn := Exn KeyboardInterrupt "interrupted".

(** A process whose [start] is interrupted from the keyboard. *)
Definition interrupted : ProcessCls :=
  {| process_input_schema := VNone;
     process_start := fun self _ db => ((db, self), Raise interrupt) |}.

Definition notes_cls : PluginCls :=
  {| cls_name := "poll";
     cls_proxy := true;
     _action_registry := {[ "add-note" := add_note_meta ]};
     _process_registry := [("survey", survey); ("interrupted", interrupted)];
     cls_methods := fun n =>
       if String.eqb n "add_note" then Some add_note else None |}.

Definition env : Env :=
  {| plugin_registry := {[ "poll" := notes_cls ]};
     jsonschema_validate := Sample.validate_required;
     Parameters := fun values schema =>
       try! _ := Sample.validate_required (VDict values) schema in Ok (VDict values);
     jsonpickle_encode := Json.encode;
     jsonpickle_decode := Json.decode |}.

(** The database of [Sample.db0] after [add_note]. *)
Definition db_noted : DB :=
  set_datastores <[1 := {["note" := "x"]}]> 2 Sample.db0.

(** The process of a [survey] that has started on [Sample.db0]. *)
Definition survey_started : GovernanceProcess :=
  {| gp_pk := Some 1; gp_name := "survey"; gp_url := None;
     gp_callback_url := None; gp_status := "pending"; gp_plugin := 1;
     gp_state := Some 2; gp_errors := VDict []; gp_outcome := VDict [] |}.

(** [Sample.alice] as a new instance with the flag lowered. *)
Definition alice_secondary : MetagovID :=
  {| mg_pk := Some 1; mg_community := 1; internal_id := 101; external_id := 201;
     primary := false |}.

(** A new identity that repeats the external id of [Sample.bob]. *)
Definition bob_again : MetagovID :=
  {| mg_pk := None; mg_community := 1; internal_id := 104; external_id := 202;
     primary := true |}.

(** The slack account of [Sample] with new custom data. *)
Definition slack_account_edited : LinkedAccount :=
  {| la_pk := Some 1; la_metagov_id := 1; la_community := Sample.acme;
     la_community_platform_id := None; la_platform_type := "slack";
     la_platform_identifier := "U123";
     la_custom_data := VDict [("team", VStr "T1")];
     la_link_type := LinkType_value OAUTH;
     la_link_quality := LinkQuality_value UNCONFIRMED |}.

(** The poll plugin of a second community. *)
Definition other_community : Community :=
  {| community_pk := 2; slug := "globex"; readable_name := "" |}.

Definition other_poll_plugin : Plugin :=
  {| plugin_pk := 5; plugin_name := "poll"; plugin_community := other_community;
     plugin_config := VDict []; plugin_community_platform_id := None;
     plugin_state := Some 9 |}.

(** Every process class of the examples is a proxy for the plugin
    [poll] and the process [vote]. *)
Definition vote_model (_ : ProcessCls) : ProcessModel :=
  {| model_name := "vote"; model_plugin_name := "poll"; model_proxy := true |}.

End Cases.

(** * Verified properties *)

(** ** Action dispatch *)

Section Dispatch.

Context (env : Env) (self : Community) (name action_id : string).
Context (community_platform_id : option string).
Context (cls : PluginCls) (meta : ActionMeta).
Hypothesis registered : plugin_registry env !! name = Some cls.
Hypothesis declared : _action_registry cls !! action_id = Some meta.

(** The first two lookups of [perform_action] succeed. *)
Lemma perform_action_lookups parameters validation s :
  perform_action env self name action_id parameters validation
    community_platform_id s
  = (do! plugin := (fun s => (s, get_plugin env self name community_platform_id None (fst s))) in
     do! _ := (if validation && truthy (input_schema meta) && truthy parameters
               then lift (jsonschema_validate env parameters (input_schema meta))
               else ret tt) in
     do! f := lift (getattr cls (function_name meta)) in
     do! kwargs := lift (kwargs_of (py_or parameters (VDict []))) in
     do! result := invoke (function_name meta) f plugin kwargs in
     do! _ := (if validation && truthy (output_schema meta) && truthy result
               then lift (jsonschema_validate env result (output_schema meta))
               else ret tt) in
     ret result) s.
Proof.
  unfold perform_action, bindM at 1 2, lift at 1 2, getitem.
  rewrite registered, declared. reflexivity.
Qed.

(** C2, as the code has it: when validation is on, the declared input
    schema is not empty and the parameters are not empty, parameters
    that fail the schema stop the dispatch before the handler: the
    database and the trace of calls are untouched, and once the plugin
    instance is found the error is the one of the validator. *)
Theorem perform_action_invalid_parameters parameters db calls e :
  truthy (input_schema meta) = true ->
  truthy parameters = true ->
  jsonschema_validate env parameters (input_schema meta) = Raise e ->
  fst (perform_action env self name action_id parameters true
         community_platform_id (db, calls)) = (db, calls)
  /\ (forall plugin,
        get_plugin env self name community_platform_id None db = Ok plugin ->
        snd (perform_action env self name action_id parameters true
               community_platform_id (db, calls)) = Raise e).
Proof.
  intros Hschema Hparams Hfail.
  assert (perform_action env self name action_id parameters true
            community_platform_id (db, calls)
          = ((db, calls),
             match get_plugin env self name community_platform_id None db with
             | Ok _ => Raise e
             | Raise e' => Raise e'
             end)) as ->.
  { rewrite perform_action_lookups.
    unfold bindM at 1. cbn [fst].
    destruct (get_plugin env self name community_platform_id None db); [|reflexivity].
    unfold bindM at 1. rewrite Hschema, Hparams. cbn [andb].
    unfold lift. rewrite Hfail. reflexivity. }
  split; [reflexivity|]. intros plugin ->. reflexivity.
Qed.

(** C9: empty or absent parameters are never validated, whatever the
    input schema and the validator, and the handler runs on no
    keyword arguments; and a falsy result of the handler is returned
    as it is, whatever the output schema and the validator. *)
Theorem perform_action_skips_validation parameters validation db calls plugin f :
  get_plugin env self name community_platform_id None db = Ok plugin ->
  cls_methods cls (function_name meta) = Some f ->
  (truthy parameters = false ->
     fst (perform_action env self name action_id parameters validation
            community_platform_id (db, calls))
     = (fst (f plugin [] db),
        (calls ++ [Build_Call (function_name meta) plugin []])%list))
  /\ (forall kwargs db' result,
        validation && truthy (input_schema meta) && truthy parameters = false
        \/ jsonschema_validate env parameters (input_schema meta) = Ok tt ->
        kwargs_of (py_or parameters (VDict [])) = Ok kwargs ->
        f plugin kwargs db = (db', Ok result) ->
        truthy result = false ->
        perform_action env self name action_id parameters validation
          community_platform_id (db, calls)
        = ((db', (calls ++ [Build_Call (function_name meta) plugin kwargs])%list),
           Ok result)).
Proof.
  intros Hplugin Hmethod. split.
  - intros Hfalsy. rewrite perform_action_lookups.
    unfold bindM at 1. cbn [fst]. rewrite Hplugin.
    unfold bindM at 1. rewrite Hfalsy, andb_false_r.
    unfold ret at 1, bindM at 1, lift at 1, getattr. rewrite Hmethod.
    unfold bindM at 1, lift at 1, py_or. rewrite Hfalsy. cbn [kwargs_of].
    unfold bindM at 1, invoke. cbn [fst snd].
    destruct (f plugin [] db) as [db' [result|e]]; cbn [fst]; [|reflexivity].
    unfold bindM.
    destruct (validation && truthy (output_schema meta) && truthy result);
      [|reflexivity].
    unfold lift.
    destruct (jsonschema_validate env result (output_schema meta)); reflexivity.
  - intros kwargs db' result Hinput Hkwargs Hcall Hfalsy.
    rewrite perform_action_lookups.
    unfold bindM at 1. cbn [fst]. rewrite Hplugin.
    assert ((if validation && truthy (input_schema meta) && truthy parameters
             then lift (jsonschema_validate env parameters (input_schema meta))
             else ret tt) (db, calls) = ((db, calls), Ok tt)) as Hvalid.
    { destruct Hinput as [-> | ->]; [reflexivity|].
      destruct (validation && truthy (input_schema meta) && truthy parameters);
        reflexivity. }
    unfold bindM at 1. rewrite Hvalid.
    unfold bindM at 1, lift at 1, getattr. rewrite Hmethod.
    unfold bindM at 1, lift at 1. rewrite Hkwargs.
    unfold bindM at 1, invoke. cbn [fst snd]. rewrite Hcall.
    unfold bindM. rewrite Hfalsy, andb_false_r. reflexivity.
Qed.

End Dispatch.

(** C2 as the spec words it fails on empty parameters: the empty dict
    lacks the required property [title], validation is on, and the
    handler runs all the same. *)
Lemma perform_action_empty_parameters_reach_handler :
  jsonschema_validate Sample.env (VDict []) (input_schema Sample.create_poll_meta)
  = Raise (Exn ValidationError "'title' is a required property")
  /\ perform_action Sample.env Sample.acme "poll" "create-poll" (VDict []) true None
       (Sample.db0, [])
     = ((Sample.db0, [Build_Call "create_poll" Sample.poll_plugin []]),
        Ok (VDict [("id", VInt 7)])).
Proof. split; vm_compute; reflexivity. Qed.

(** The poll plugin of [Sample]: a parameter [colour] where [title] is
    required stops the dispatch of [create-poll] before the handler. *)
Lemma perform_action_invalid_parameters_witness :
  fst (perform_action Sample.env Sample.acme "poll" "create-poll"
         (VDict [("colour", VStr "red")]) true None (Sample.db0, []))
  = (Sample.db0, [])
  /\ (forall plugin,
        get_plugin Sample.env Sample.acme "poll" None None Sample.db0 = Ok plugin ->
        snd (perform_action Sample.env Sample.acme "poll" "create-poll"
               (VDict [("colour", VStr "red")]) true None (Sample.db0, []))
        = Raise (Exn ValidationError "'title' is a required property")).
Proof.
  apply (perform_action_invalid_parameters Sample.env Sample.acme "poll" "create-poll"
           None Sample.poll_cls Sample.create_poll_meta);
    vm_compute; reflexivity.
Defined.

(** The poll plugin of [Sample]: [ping] with an empty dict runs the
    handler, and its empty result comes back past the output schema. *)
Lemma perform_action_skips_validation_witness :
  (truthy (VDict []) = false ->
     fst (perform_action Sample.env Sample.acme "poll" "ping" (VDict []) true None
            (Sample.db0, []))
     = (fst (Sample.ping Sample.poll_plugin [] Sample.db0),
        ([] ++ [Build_Call "ping" Sample.poll_plugin []])%list))
  /\ (forall kwargs db' result,
        true && truthy (input_schema Sample.ping_meta) && truthy (VDict []) = false
        \/ jsonschema_validate Sample.env (VDict []) (input_schema Sample.ping_meta) = Ok tt ->
        kwargs_of (py_or (VDict []) (VDict [])) = Ok kwargs ->
        Sample.ping Sample.poll_plugin kwargs Sample.db0 = (db', Ok result) ->
        truthy result = false ->
        perform_action Sample.env Sample.acme "poll" "ping" (VDict []) true None
          (Sample.db0, [])
        = ((db', ([] ++ [Build_Call "ping" Sample.poll_plugin kwargs])%list), Ok result)).
Proof.
  apply (perform_action_skips_validation Sample.env Sample.acme "poll" "ping"
           None Sample.poll_cls Sample.ping_meta);
    vm_compute; reflexivity.
Defined.

(** ** The JSON codec carries every value through *)

Module JsonFacts.
Import Json.

Lemma value_nested_ind (P : value -> Prop) :
  P VNone -> (forall b, P (VBool b)) -> (forall n, P (VInt n)) ->
  (forall s, P (VStr s)) ->
  (forall l, Forall P l -> P (VList l)) ->
  (forall d, Forall (fun kv => P (snd kv)) d -> P (VDict d)) ->
  forall v, P v.
Proof.
  intros HNone HBool HInt HStr HList HDict. fix IH 1.
  intros [| b | n | s | l | d];
    [exact HNone | apply HBool | apply HInt | apply HStr | | ].
  - apply HList. induction l as [|x l IHl]; constructor; [apply IH | exact IHl].
  - apply HDict. induction d as [|[k x] d IHd]; constructor; [apply IH | exact IHd].
Qed.

Lemma chars_app a b : chars (a +:+ b) = (chars a ++ chars b)%list.
Proof. induction a as [|c a IH]; [reflexivity|]. cbn. rewrite <- IH. reflexivity. Qed.

Lemma digit_pretty_N_char m : (m < 10)%N -> digit (pretty_N_char m) = Some (Z.of_N m).
Proof.
  intros Hm.
  assert (m = 0 \/ m = 1 \/ m = 2 \/ m = 3 \/ m = 4 \/ m = 5 \/ m = 6 \/ m = 7
          \/ m = 8 \/ m = 9)%N as Hcases by lia.
  repeat (destruct Hcases as [-> | Hcases]; [reflexivity|]). subst. reflexivity.
Qed.

Lemma is_digit_pretty_N_char m : (m < 10)%N -> is_digit (pretty_N_char m) = true.
Proof. intros Hm. unfold is_digit. rewrite digit_pretty_N_char by exact Hm. reflexivity. Qed.

Lemma parse_digits_pretty_N_go rest x :
  exists k, (0 <= k)%Z /\ forall s acc,
    parse_digits acc (chars (pretty_N_go x s) ++ rest)
    = parse_digits (acc * 10 ^ k + Z.of_N x) (chars s ++ rest).
Proof.
  induction (N.lt_wf_0 x) as [x _ IH].
  destruct (decide (x = 0)%N) as [-> | Hx].
  - exists 0. split; [lia|]. intros s acc. rewrite pretty_N_go_0. f_equal. lia.
  - destruct (IH (x `div` 10)%N) as (k & Hk & Hgo); [apply N.div_lt; lia|].
    exists (k + 1). split; [lia|]. intros s acc.
    rewrite pretty_N_go_step by lia. rewrite Hgo.
    cbn [chars list_ascii_of_string app parse_digits].
    change (list_ascii_of_string s) with (chars s).
    rewrite digit_pretty_N_char by (apply N.mod_lt; lia).
    f_equal. rewrite Z.pow_add_r, Z.pow_1_r by lia.
    pose proof (N.div_mod x 10 ltac:(lia)) as Hdm.
    apply (f_equal Z.of_N) in Hdm. rewrite N2Z.inj_add, N2Z.inj_mul in Hdm.
    change (Z.of_N 10) with 10 in Hdm. rewrite Hdm. ring.
Qed.

Lemma pretty_N_go_head x s :
  (0 < x)%N ->
  exists c tl, pretty_N_go x s = String c tl /\ is_digit c = true.
Proof.
  revert s. induction (N.lt_wf_0 x) as [x _ IH]. intros s Hx.
  rewrite pretty_N_go_step by exact Hx.
  destruct (decide (x `div` 10 = 0)%N) as [-> | Hdiv].
  - rewrite pretty_N_go_0. eexists _, _. split; [reflexivity|].
    apply is_digit_pretty_N_char, N.mod_lt. lia.
  - apply IH; [apply N.div_lt; lia | apply N.neq_0_lt_0, Hdiv].
Qed.

Lemma parse_digits_done acc rest :
  no_digit_head rest -> parse_digits acc rest = (acc, rest).
Proof.
  destruct rest as [|c rest]; [reflexivity|]. cbn. unfold is_digit.
  destruct (digit c); [discriminate | reflexivity].
Qed.

Lemma digit_not_minus c : is_digit c = true -> Ascii.eqb c "-" = false.
Proof.
  intros Hd. destruct (Ascii.eqb_spec c "-") as [-> | _]; [discriminate | reflexivity].
Qed.

Lemma pretty_positive_chars p rest :
  no_digit_head rest ->
  exists c tl,
    chars (pretty (N.pos p)) = c :: tl /\ is_digit c = true
    /\ parse_digits 0 (chars (pretty (N.pos p)) ++ rest) = (Z.pos p, rest).
Proof.
  intros Hrest. unfold pretty, pretty_N.
  destruct (decide (N.pos p = 0)%N) as [|_]; [discriminate|].
  destruct (pretty_N_go_head (N.pos p) "" ltac:(lia)) as (c & tl & Hhead & Hdigit).
  exists c, (chars tl). split; [rewrite Hhead; reflexivity|]. split; [exact Hdigit|].
  destruct (parse_digits_pretty_N_go rest (N.pos p)) as (k & _ & Hgo).
  rewrite Hgo. cbn [chars list_ascii_of_string app].
  rewrite parse_digits_done by exact Hrest. reflexivity.
Qed.

Lemma parse_number_pretty n rest :
  no_digit_head rest ->
  parse_number (chars (pretty n) ++ rest) = Some (VInt n, rest).
Proof.
  intros Hrest. destruct n as [|p|p].
  - change (parse_number (chars (pretty 0) ++ rest))
      with (let '(n, r) := parse_digits 0 rest in Some (VInt n, r)).
    rewrite parse_digits_done by exact Hrest. reflexivity.
  - change (pretty (Z.pos p)) with (pretty (N.pos p)).
    destruct (pretty_positive_chars p rest Hrest) as (c & tl & Hhead & Hdigit & Hparse).
    revert Hparse. rewrite Hhead. cbn [app]. intros Hparse. unfold parse_number.
    rewrite (digit_not_minus c Hdigit), Hdigit, Hparse. reflexivity.
  - change (pretty (Z.neg p)) with ("-" +:+ pretty (N.pos p)).
    destruct (pretty_positive_chars p rest Hrest) as (c & tl & Hhead & Hdigit & Hparse).
    rewrite chars_app. change (chars "-") with ["-"%char]. cbn [app].
    unfold parse_number. rewrite Ascii.eqb_refl.
    revert Hparse. rewrite Hhead. cbn [app]. intros Hparse.
    rewrite Hdigit, Hparse. reflexivity.
Qed.

Lemma number_head (n : Z) :
  exists c tl, chars (pretty n) = c :: tl /\ is_number_start c = true.
Proof.
  destruct n as [|p|p].
  - eexists _, _. split; reflexivity.
  - change (pretty (Z.pos p)) with (pretty (N.pos p)).
    destruct (pretty_positive_chars p [] I) as (c & tl & Hhead & Hdigit & _).
    exists c, tl. split; [exact Hhead|]. unfold is_number_start.
    rewrite Hdigit. apply orb_true_r.
  - change (pretty (Z.neg p)) with ("-" +:+ pretty (N.pos p)).
    rewrite chars_app. eexists _, _. split; reflexivity.
Qed.

Lemma parse_chars_escape s rest :
  parse_chars (escape (chars s) ++ dquote :: rest) = Some (s, rest).
Proof.
  induction s as [|c s IH]; [reflexivity|].
  change (chars (String c s)) with (c :: chars s). cbn [escape].
  unfold is_special.
  destruct (Ascii.eqb_spec c dquote) as [-> | Hq].
  - cbn [orb app parse_chars]. rewrite IH. reflexivity.
  - cbn [orb]. destruct (Ascii.eqb_spec c "\") as [-> | Hb].
    + cbn [app parse_chars]. rewrite IH. reflexivity.
    + cbn [app parse_chars].
      rewrite (proj2 (Ascii.eqb_neq _ _) Hq), (proj2 (Ascii.eqb_neq _ _) Hb), IH.
      reflexivity.
Qed.

Lemma value_start_facts c :
  value_start c = true ->
  is_space c = false /\ Ascii.eqb c "]" = false /\ Ascii.eqb c "}" = false.
Proof.
  destruct c as [[] [] [] [] [] [] [] []]; vm_compute; intros H;
    try discriminate H; repeat split; reflexivity.
Qed.

Lemma number_start_facts c :
  is_number_start c = true ->
  is_space c = false /\ value_start c = true.
Proof.
  destruct c as [[] [] [] [] [] [] [] []]; vm_compute; intros H;
    try discriminate H; repeat split; reflexivity.
Qed.

Lemma encode_head v :
  exists c tl, encode_chars v = c :: tl /\ value_start c = true.
Proof.
  destruct v as [| [] | n | s | l | d]; try (eexists _, _; split; reflexivity).
  destruct (number_head n) as (c & tl & Hhead & Hstart).
  exists c, tl. split; [exact Hhead|]. apply number_start_facts, Hstart.
Qed.

Lemma parse_value_number fuel c s :
  is_number_start c = true -> parse_value (S fuel) (c :: s) = parse_number (c :: s).
Proof.
  intros Hstart. destruct (number_start_facts c Hstart) as [Hspace _].
  cbn [parse_value skip_ws]. rewrite Hspace, Hstart. reflexivity.
Qed.

Lemma parse_value_string fuel s :
  parse_value (S fuel) (dquote :: s)
  = match parse_chars s with Some (str, rest) => Some (VStr str, rest) | None => None end.
Proof. reflexivity. Qed.

Lemma parse_value_list fuel s :
  parse_value (S fuel) ("["%char :: s)
  = match skip_ws s with
    | [] => None
    | c :: rest =>
        if Ascii.eqb c "]" then Some (VList [], rest)
        else match parse_elements fuel s with Some (l, rest') => Some (VList l, rest') | None => None end
    end.
Proof. reflexivity. Qed.

Lemma parse_value_dict fuel s :
  parse_value (S fuel) ("{"%char :: s)
  = match skip_ws s with
    | [] => None
    | c :: rest =>
        if Ascii.eqb c "}" then Some (VDict [], rest)
        else match parse_members fuel s with Some (d, rest') => Some (VDict d, rest') | None => None end
    end.
Proof. reflexivity. Qed.

Lemma parse_value_space fuel s : parse_value fuel (" "%char :: s) = parse_value fuel s.
Proof. destruct fuel; reflexivity. Qed.

Lemma parse_elements_S fuel s :
  parse_elements (S fuel) s
  = match parse_value fuel s with
    | None => None
    | Some (v, rest) =>
        match skip_ws rest with
        | [] => None
        | c :: rest' =>
            if Ascii.eqb c "," then
              match parse_elements fuel rest' with
              | Some (l, rest'') => Some (v :: l, rest'')
              | None => None
              end
            else if Ascii.eqb c "]" then Some ([v], rest')
            else None
        end
    end.
Proof. reflexivity. Qed.

Lemma parse_elements_space fuel s :
  parse_elements fuel (" "%char :: s) = parse_elements fuel s.
Proof.
  destruct fuel; [reflexivity|]. rewrite !parse_elements_S, parse_value_space.
  reflexivity.
Qed.

Lemma parse_members_quote fuel s :
  parse_members (S fuel) (dquote :: s)
  = match parse_chars s with
    | None => None
    | Some (k, rest) =>
        match skip_ws rest with
        | [] => None
        | c :: rest' =>
            if Ascii.eqb c ":" then
              match parse_value fuel rest' with
              | None => None
              | Some (v, rest'') =>
                  match skip_ws rest'' with
                  | [] => None
                  | c' :: rest3 =>
                      if Ascii.eqb c' "," then
                        match parse_members fuel rest3 with
                        | Some (d, rest4) => Some ((k, v) :: d, rest4)
                        | None => None
                        end
                      else if Ascii.eqb c' "}" then Some ([(k, v)], rest3)
                      else None
                  end
              end
            else None
        end
    end.
Proof. reflexivity. Qed.

Lemma parse_members_space fuel s :
  parse_members fuel (" "%char :: s) = parse_members fuel s.
Proof. destruct fuel; reflexivity. Qed.

Lemma join_cons sep p q ps :
  join sep (p :: q :: ps) = (p ++ sep ++ join sep (q :: ps))%list.
Proof. reflexivity. Qed.

Lemma parse_elements_comma fuel v s rest :
  parse_value fuel s = Some (v, ","%char :: " "%char :: rest) ->
  parse_elements (S fuel) s
  = match parse_elements fuel rest with Some (l, rest') => Some (v :: l, rest') | None => None end.
Proof.
  intros Hv. rewrite parse_elements_S, Hv, <- (parse_elements_space fuel rest).
  reflexivity.
Qed.

Lemma parse_elements_close fuel v s rest :
  parse_value fuel s = Some (v, "]"%char :: rest) ->
  parse_elements (S fuel) s = Some ([v], rest).
Proof. intros Hv. rewrite parse_elements_S, Hv. reflexivity. Qed.

Lemma parse_members_comma fuel k v s s' rest :
  parse_chars s = Some (k, ":"%char :: " "%char :: s') ->
  parse_value fuel s' = Some (v, ","%char :: " "%char :: rest) ->
  parse_members (S fuel) (dquote :: s)
  = match parse_members fuel rest with Some (d, rest') => Some ((k, v) :: d, rest') | None => None end.
Proof.
  intros Hk Hv. rewrite parse_members_quote, Hk.
  rewrite <- (parse_value_space fuel s') in Hv.
  rewrite <- (parse_members_space fuel rest).
  change (skip_ws (":"%char :: " "%char :: s')) with (":"%char :: " "%char :: s').
  change (Ascii.eqb ":" ":") with true. cbv iota. rewrite Hv. reflexivity.
Qed.

Lemma parse_members_close fuel k v s s' rest :
  parse_chars s = Some (k, ":"%char :: " "%char :: s') ->
  parse_value fuel s' = Some (v, "}"%char :: rest) ->
  parse_members (S fuel) (dquote :: s) = Some ([(k, v)], rest).
Proof.
  intros Hk Hv. rewrite parse_members_quote, Hk.
  rewrite <- (parse_value_space fuel s') in Hv.
  change (skip_ws (":"%char :: " "%char :: s')) with (":"%char :: " "%char :: s').
  change (Ascii.eqb ":" ":") with true. cbv iota. rewrite Hv. reflexivity.
Qed.

Lemma parse_elements_encode l :
  Forall parses_back l ->
  forall v fuel rest,
    parses_back v ->
    (total (map element_size (v :: l)) <= fuel)%nat ->
    parse_elements fuel
      (join (chars ", ") (map encode_chars (v :: l)) ++ "]"%char :: rest)
    = Some (v :: l, rest).
Proof.
  induction 1 as [|v' l Hv' _ IH]; intros v fuel rest Hv Hfuel;
    cbn [map total] in Hfuel; unfold element_size in Hfuel;
    (destruct fuel as [|fuel]; [lia|]).
  - apply parse_elements_close. cbn [map join]. apply Hv; [lia | reflexivity].
  - rewrite (parse_elements_comma fuel v _
               (join (chars ", ") (map encode_chars (v' :: l)) ++ "]"%char :: rest)).
    + rewrite IH; [reflexivity | exact Hv' |].
      cbn [map total]. unfold element_size. lia.
    + cbn [map]. rewrite join_cons, <- !app_assoc.
      apply Hv; [lia | reflexivity].
Qed.

Lemma quote_app k rest :
  (quote k ++ rest)%list = dquote :: (escape (chars k) ++ dquote :: rest)%list.
Proof. unfold quote. cbn [app]. rewrite <- app_assoc. reflexivity. Qed.

Lemma parse_members_encode d :
  Forall (fun kv => parses_back (snd kv)) d ->
  forall kv fuel rest,
    parses_back (snd kv) ->
    (total (map member_size (kv :: d)) <= fuel)%nat ->
    parse_members fuel
      (join (chars ", ") (map encode_member (kv :: d)) ++ "}"%char :: rest)
    = Some (kv :: d, rest).
Proof.
  induction 1 as [|kv' d Hkv' _ IH]; intros [k v] fuel rest Hv Hfuel;
    cbn [map total] in Hfuel; unfold member_size in Hfuel; cbn [snd] in Hv, Hfuel;
    (destruct fuel as [|fuel]; [lia|]).
  - cbn [map join]. unfold encode_member. cbn [fst snd].
    rewrite <- !app_assoc, quote_app.
    apply (parse_members_close fuel k v _
             (encode_chars v ++ "}"%char :: rest) rest).
    + apply parse_chars_escape.
    + apply Hv; [lia | reflexivity].
  - cbn [map]. rewrite join_cons. unfold encode_member at 1. cbn [fst snd].
    rewrite <- !app_assoc, quote_app.
    rewrite (parse_members_comma fuel k v _
               (encode_chars v ++ chars ", "
                ++ join (chars ", ") (encode_member kv' :: map encode_member d)
                ++ "}"%char :: rest)
               (join (chars ", ") (encode_member kv' :: map encode_member d)
                ++ "}"%char :: rest)).
    + change (encode_member kv' :: map encode_member d)
        with (map encode_member (kv' :: d)).
      rewrite IH; [reflexivity | exact Hkv' |].
      cbn [map total]. unfold member_size. lia.
    + apply parse_chars_escape.
    + apply Hv; [lia | reflexivity].
Qed.

Lemma join_head sep p ps rest c tl :
  p = c :: tl -> exists tl', (join sep (p :: ps) ++ rest)%list = c :: tl'.
Proof. intros ->. destruct ps; cbn; eauto. Qed.

Lemma parse_value_list_nonempty fuel s c tl :
  s = c :: tl -> value_start c = true ->
  parse_value (S fuel) ("["%char :: s)
  = match parse_elements fuel s with Some (l, rest) => Some (VList l, rest) | None => None end.
Proof.
  intros -> Hstart. destruct (value_start_facts c Hstart) as (Hspace & Hclose & _).
  rewrite parse_value_list. cbn [skip_ws]. rewrite Hspace, Hclose. reflexivity.
Qed.

Lemma parse_value_dict_nonempty fuel s c tl :
  s = c :: tl -> value_start c = true ->
  parse_value (S fuel) ("{"%char :: s)
  = match parse_members fuel s with Some (d, rest) => Some (VDict d, rest) | None => None end.
Proof.
  intros -> Hstart. destruct (value_start_facts c Hstart) as (Hspace & _ & Hclose).
  rewrite parse_value_dict. cbn [skip_ws]. rewrite Hspace, Hclose. reflexivity.
Qed.

Lemma encode_chars_list l :
  encode_chars (VList l)
  = "["%char :: (join (chars ", ") (map encode_chars l) ++ ["]"%char])%list.
Proof. reflexivity. Qed.

Lemma encode_chars_dict d :
  encode_chars (VDict d)
  = "{"%char :: (join (chars ", ") (map encode_member d) ++ ["}"%char])%list.
Proof. reflexivity. Qed.

Theorem parse_value_encode v : parses_back v.
Proof.
  induction v as [| b | n | s | l IH | d IH] using value_nested_ind;
    intros fuel rest Hfuel Hrest;
    (destruct fuel as [|fuel]; [cbn in Hfuel; lia|]).
  - reflexivity.
  - destruct b; reflexivity.
  - destruct (number_head n) as (c & tl & Hhead & Hstart).
    cbn [encode_chars]. rewrite Hhead. cbn [app].
    rewrite parse_value_number by exact Hstart.
    change (c :: tl ++ rest)%list with ((c :: tl) ++ rest)%list. rewrite <- Hhead.
    apply parse_number_pretty, Hrest.
  - cbn [encode_chars]. rewrite quote_app, parse_value_string, parse_chars_escape.
    reflexivity.
  - rewrite encode_chars_list. cbn [app]. rewrite <- app_assoc. cbn [app].
    destruct IH as [|v l Hv Hl]; [reflexivity|].
    destruct (encode_head v) as (c & tl & Hhead & Hstart).
    assert (exists tl',
              (join (chars ", ") (map encode_chars (v :: l)) ++ "]"%char :: rest)%list
              = c :: tl') as [tl' Hjoin]
      by (apply (join_head _ _ _ _ c tl), Hhead).
    rewrite (parse_value_list_nonempty fuel _ c tl' Hjoin Hstart).
    rewrite parse_elements_encode; [reflexivity | exact Hl | exact Hv |].
    cbn [size] in Hfuel. unfold element_size. lia.
  - rewrite encode_chars_dict. cbn [app]. rewrite <- app_assoc. cbn [app].
    destruct IH as [|[k v] d Hv Hd]; [reflexivity|].
    assert (exists tl',
              (join (chars ", ") (map encode_member ((k, v) :: d)) ++ "}"%char :: rest)%list
              = dquote :: tl') as [tl' Hjoin].
    { apply (join_head _ _ _ _ dquote
               (escape (chars k) ++ dquote :: chars ": " ++ encode_chars v)%list).
      unfold encode_member. cbn [fst snd]. apply quote_app. }
    rewrite (parse_value_dict_nonempty fuel _ dquote tl' Hjoin eq_refl).
    rewrite parse_members_encode; [reflexivity | exact Hd | exact Hv |].
    cbn [size] in Hfuel. unfold member_size. lia.
Qed.

Lemma length_join_elements l :
  Forall (fun v => size v <= length (encode_chars v))%nat l ->
  (total (map element_size l) <= length (join (chars ", ") (map encode_chars l)) + 1)%nat.
Proof.
  induction 1 as [|v l Hv Hl IH]; [cbn; lia|].
  cbn [map total]. unfold element_size at 1.
  destruct l as [|v' l]; [cbn [map total join]; lia|].
  cbn [map]. rewrite join_cons, !length_app. cbn [map] in IH.
  change (length (chars ", ")) with 2%nat. lia.
Qed.

Lemma length_join_members d :
  Forall (fun kv => size (snd kv) <= length (encode_chars (snd kv)))%nat d ->
  (total (map member_size d) <= length (join (chars ", ") (map encode_member d)) + 1)%nat.
Proof.
  induction 1 as [|kv d Hkv Hd IH]; [cbn; lia|].
  cbn [map total]. unfold member_size at 1.
  assert (size (snd kv) <= length (encode_member kv))%nat as Hlen.
  { unfold encode_member. rewrite !length_app. lia. }
  destruct d as [|kv' d]; [cbn [map total join]; lia|].
  cbn [map]. rewrite join_cons, !length_app. cbn [map] in IH.
  change (length (chars ", ")) with 2%nat. lia.
Qed.

Lemma size_le_length v : (size v <= length (encode_chars v))%nat.
Proof.
  induction v as [| b | n | s | l IH | d IH] using value_nested_ind.
  - cbn. lia.
  - destruct b; cbn; lia.
  - destruct (number_head n) as (c & tl & Hhead & _).
    cbn [size encode_chars]. rewrite Hhead. cbn [length]. lia.
  - cbn. lia.
  - rewrite encode_chars_list. cbn [size length]. rewrite length_app. cbn [length].
    pose proof (length_join_elements l IH) as Hlen. unfold element_size in Hlen. lia.
  - rewrite encode_chars_dict. cbn [size length]. rewrite length_app. cbn [length].
    pose proof (length_join_members d IH) as Hlen.
    unfold member_size in Hlen. lia.
Qed.

Theorem decode_encode v : decode (encode v) = Ok v.
Proof.
  unfold decode, encode, chars. rewrite list_ascii_of_string_of_list_ascii.
  pose proof (parse_value_encode v (S (length (encode_chars v))) []) as Hparse.
  rewrite app_nil_r in Hparse. rewrite Hparse; [reflexivity | | exact I].
  pose proof (size_le_length v). lia.
Qed.

End JsonFacts.

(** ** The state store *)

Section StateStore.

Context (env : Env).

(** [set] always succeeds, and [get] on the instance that [set] has
    changed decodes what [set] has encoded. *)
Lemma DataStore_get_after_set self key v db :
  exists self' db',
    DataStore_set env self key v db = (db', Ok (self', true))
    /\ datastore self' = <[key := jsonpickle_encode env v]> (datastore self)
    /\ DataStore_get env self' key
       = jsonpickle_decode env (jsonpickle_encode env v).
Proof.
  unfold DataStore_set, bindM, DataStore_save, ret, DataStore_get.
  destruct (ds_pk self); cbn [ds_pk datastore];
    eexists _, _; (split; [reflexivity|]); cbn [datastore];
    rewrite lookup_insert_eq; split; reflexivity.
Qed.

(** What the store adds to the codec is nothing: [get] after [set] is
    the decoding of the encoding.  So the round trip of a value is that
    of the codec; for the codec [Json] of the examples it holds for
    every key and every value of [Py.value]. *)
Theorem DataStore_set_get_json self key v db :
  jsonpickle_encode env = Json.encode ->
  jsonpickle_decode env = Json.decode ->
  exists self' db',
    DataStore_set env self key v db = (db', Ok (self', true))
    /\ DataStore_get env self' key = Ok v.
Proof.
  intros Hencode Hdecode.
  destruct (DataStore_get_after_set self key v db) as (self' & db' & Hset & _ & Hget).
  exists self', db'. split; [exact Hset|].
  rewrite Hget, Hencode, Hdecode. apply JsonFacts.decode_encode.
Qed.

End StateStore.

(** ** Starting a governance process *)

Section StartProcess.

Context (env : Env) (self : Plugin) (process_name : string).
Context (callback_url : option string) (kwargs : list (string * value)).

(** A creation that the database accepts inserts a fresh [DataStore] row
    and the process row that points to it. *)
Lemma GovernanceProcess_objects_create_Ok db db1 created :
  GovernanceProcess_objects_create process_name callback_url self db
  = (db1, Ok created) ->
  db1 = created_db self process_name callback_url db
  /\ created = created_process self process_name callback_url db.
Proof.
  unfold GovernanceProcess_objects_create, GovernanceProcess_save, bindM at 1.
  cbn [gp_pk pk_truthy negb].
  unfold DataStore_objects_create, DataStore_save, bindM, ret. cbn [ds_pk].
  unfold GovernanceProcess_Model_save.
  destruct (GovernanceProcess_constraints _ _); [|intros [=]].
  cbn [gp_pk set_gp_state].
  destruct (bool_decide _); intros [= <- <-]. split; reflexivity.
Qed.

(** C1, as the code has it: when the start logic raises an
    [Exception] and leaves the primary key of the instance alone,
    [start_process] raises the same exception, no process row is left
    under the primary key of the attempt, and the table of state
    stores is exactly as the start logic left it: the delete of the
    process does not reach the [DataStore] row made for it. *)
Theorem start_process_rollback db cls params db1 created db2 failed e :
  get_process_cls env self process_name = Ok cls ->
  Parameters env kwargs (process_input_schema cls) = Ok params ->
  GovernanceProcess_objects_create process_name callback_url self db
    = (db1, Ok created) ->
  process_start cls created params db1 = ((db2, failed), Raise e) ->
  is_Exception e = true ->
  gp_pk failed = gp_pk created ->
  exists db3,
    start_process env self process_name callback_url kwargs db = (db3, Raise e)
    /\ db_processes db3 !! db_process_seq db = None
    /\ db_processes db3 = delete (db_process_seq db) (db_processes db2)
    /\ db_datastores db3 = db_datastores db2
    /\ gp_pk created = Some (db_process_seq db)
    /\ gp_state created = Some (db_datastore_seq db)
    /\ db_datastores db1 !! db_datastore_seq db = Some ∅.
Proof.
  intros Hcls Hparams Hcreate Hstart Hexn Hpk.
  destruct (GovernanceProcess_objects_create_Ok db db1 created Hcreate) as [Hdb1 Hcreated].
  assert (Hkey : gp_pk failed = Some (db_process_seq db))
    by (rewrite Hpk, Hcreated; reflexivity).
  eexists. split.
  - unfold start_process, bindM at 1, lift at 1. rewrite Hcls.
    unfold bindM at 1, lift at 1. rewrite Hparams.
    unfold bindM at 1. rewrite Hcreate, Hstart, Hexn.
    unfold bindM, GovernanceProcess_delete, raise. rewrite Hkey. reflexivity.
  - rewrite Hdb1, Hcreated.
    cbn [db_processes db_datastores set_processes set_datastores gp_pk gp_state
         created_db created_process].
    rewrite !lookup_delete_eq, lookup_insert_eq. repeat split; reflexivity.
Qed.

End StartProcess.

(** C1 as the spec words it fails on the state store: a start that
    raises at once leaves the [DataStore] row that was created for the
    attempt, and no process row refers to it. *)
Lemma start_process_failure_leaves_datastore :
  snd (start_process Sample.env Sample.poll_plugin "vote" None [] Sample.db0)
  = Raise Sample.start_error
  /\ db_processes (fst (start_process Sample.env Sample.poll_plugin "vote" None []
                          Sample.db0)) = ∅
  /\ db_datastores Sample.db0 !! 2 = None
  /\ db_datastores (fst (start_process Sample.env Sample.poll_plugin "vote" None []
                           Sample.db0)) !! 2 = Some ∅.
Proof. repeat split; vm_compute; reflexivity. Qed.

(** The failing [vote] process of [Sample] on the database [Sample.db0]. *)
Lemma start_process_rollback_witness :
  exists db3,
    start_process Sample.env Sample.poll_plugin "vote" None [] Sample.db0
    = (db3, Raise Sample.start_error)
    /\ db_processes db3 !! db_process_seq Sample.db0 = None
    /\ db_processes db3 = delete (db_process_seq Sample.db0) (db_processes Sample.db1)
    /\ db_datastores db3 = db_datastores Sample.db1
    /\ gp_pk Sample.vote_attempt = Some (db_process_seq Sample.db0)
    /\ gp_state Sample.vote_attempt = Some (db_datastore_seq Sample.db0)
    /\ db_datastores Sample.db1 !! db_datastore_seq Sample.db0 = Some ∅.
Proof.
  apply (start_process_rollback Sample.env Sample.poll_plugin "vote" None []
           Sample.db0 Sample.vote (VDict []) Sample.db1 Sample.vote_attempt
           Sample.db1 Sample.vote_attempt Sample.start_error);
    reflexivity.
Defined.

(** ** MetagovID: the primary flag *)

Section Primary.

Context (db : DB).

Lemma true_count_nonneg flags : 0 <= true_count flags.
Proof.
  induction flags as [|b flags IH]; [reflexivity|].
  change (true_count (b :: flags)) with ((if b then 1 else 0) + true_count flags).
  destruct b; lia.
Qed.

Lemma linked_ids_all_persisted self p :
  mg_pk self = Some p ->
  linked_ids_all db self
  = Ok (filter (fun r => linked_to db p r = true) (db_metagov_ids db)).
Proof. unfold linked_ids_all. intros ->. reflexivity. Qed.

(** A row on the other end of a link has a primary key. *)
Lemma linked_row_persisted self linked r :
  linked_ids_all db self = Ok linked -> r ∈ linked -> is_Some (mg_pk r).
Proof.
  unfold linked_ids_all. destruct (mg_pk self) as [p|]; [|discriminate].
  intros [= <-] [Hlinked _]%list_elem_of_filter.
  unfold linked_to in Hlinked. destruct (mg_pk r); [eauto | discriminate].
Qed.

(** [is_primary] does not raise on a persisted node. *)
Lemma is_primary_persisted self :
  is_Some (mg_pk self) ->
  exists linked,
    linked_ids_all db self = Ok linked
    /\ is_primary db self = Ok (primary self || bool_decide (linked = [])).
Proof.
  intros [p Hp]. eexists. split; [apply (linked_ids_all_persisted _ p Hp)|].
  unfold is_primary. rewrite (linked_ids_all_persisted _ p Hp).
  destruct (primary self); [reflexivity|]. cbn [bind orb].
  destruct (filter _ _); reflexivity.
Qed.

(** The loop of [get_primary_id]: it stops at the first linked id
    that is primary, and falls through when there is none. *)
Lemma first_primary_spec linked :
  (forall r, r ∈ linked -> is_Some (mg_pk r)) ->
  (exists r, first_primary db linked = Ok (Some r)
             /\ r ∈ linked /\ is_primary db r = Ok true)
  \/ (first_primary db linked = Ok None
      /\ forall r, r ∈ linked -> is_primary db r = Ok false).
Proof.
  induction linked as [|r linked IH]; intros Hpk.
  - right. split; [reflexivity|]. intros r Hr. inversion Hr.
  - cbn [first_primary].
    destruct (is_primary_persisted r) as (l & _ & Hr); [apply Hpk; left|].
    rewrite Hr. cbn [bind].
    destruct (primary r || bool_decide (l = [])) eqn:Hflag.
    + left. exists r. split; [reflexivity|]. split; [left | exact Hr].
    + destruct IH as [(r' & Hfound & Hin & Hprim) | [Hnone Hall]].
      * intros r' Hr'. apply Hpk. right. exact Hr'.
      * left. exists r'. split; [exact Hfound|]. split; [right; exact Hin | exact Hprim].
      * right. split; [exact Hnone|].
        intros r' [-> | Hin]%elem_of_cons; [exact Hr | apply Hall, Hin].
Qed.

(** C6: on a persisted node, [is_primary] holds when the flag is set
    or there is no linked id; [get_primary_id] returns the node itself
    when [is_primary] holds, otherwise a linked id for which
    [is_primary] holds, and it raises, with the [ValueError] of its
    last line, exactly when neither the node nor any of its linked
    ids is primary. *)
Theorem get_primary_id_spec self :
  is_Some (mg_pk self) ->
  exists linked,
    linked_ids_all db self = Ok linked
    /\ is_primary db self = Ok (primary self || bool_decide (linked = []))
    /\ (is_primary db self = Ok true -> get_primary_id db self = Ok self)
    /\ (is_primary db self = Ok false ->
        forall r, get_primary_id db self = Ok r ->
                  r ∈ linked /\ is_primary db r = Ok true)
    /\ ((exists e, get_primary_id db self = Raise e)
        <-> is_primary db self = Ok false
            /\ forall r, r ∈ linked -> is_primary db r = Ok false)
    /\ (forall e, get_primary_id db self = Raise e ->
                  e = Exn ValueError
                        ("No primary ID associated with " +:+ pretty (external_id self))).
Proof.
  intros Hpk.
  destruct (is_primary_persisted self Hpk) as (linked & Hlinked & Hself).
  exists linked. split; [exact Hlinked|]. split; [exact Hself|].
  unfold get_primary_id. rewrite Hself, Hlinked. cbn [bind].
  destruct (primary self || bool_decide (linked = [])).
  - split; [reflexivity|]. split; [discriminate|]. split; [|discriminate].
    split; [intros [e [=]] | intros [[=] _]].
  - split; [discriminate|].
    destruct (first_primary_spec linked) as [(r & -> & Hin & Hprim) | [-> Hall]].
    { intros r. apply (linked_row_persisted self linked r Hlinked). }
    + cbn [bind]. split; [intros _ r' [= <-]; split; assumption|].
      split; [|discriminate].
      split; [intros [e [=]]|]. intros [_ Hall].
      rewrite (Hall r Hin) in Hprim. discriminate.
    + cbn [bind]. split; [intros _ r [=]|].
      split; [|intros e [= <-]; reflexivity].
      split; [intros _; split; [reflexivity | exact Hall] | intros _; eauto].
Qed.

End Primary.

(** [bob], in the chain of [Sample.db_ids]. *)
Lemma get_primary_id_spec_witness :
  exists linked,
    linked_ids_all Sample.db_ids Sample.bob = Ok linked
    /\ is_primary Sample.db_ids Sample.bob
       = Ok (primary Sample.bob || bool_decide (linked = []))
    /\ (is_primary Sample.db_ids Sample.bob = Ok true ->
        get_primary_id Sample.db_ids Sample.bob = Ok Sample.bob)
    /\ (is_primary Sample.db_ids Sample.bob = Ok false ->
        forall r, get_primary_id Sample.db_ids Sample.bob = Ok r ->
                  r ∈ linked /\ is_primary Sample.db_ids r = Ok true)
    /\ ((exists e, get_primary_id Sample.db_ids Sample.bob = Raise e)
        <-> is_primary Sample.db_ids Sample.bob = Ok false
            /\ forall r, r ∈ linked -> is_primary Sample.db_ids r = Ok false)
    /\ (forall e, get_primary_id Sample.db_ids Sample.bob = Raise e ->
                  e = Exn ValueError
                        ("No primary ID associated with "
                         +:+ pretty (external_id Sample.bob))).
Proof.
  apply (get_primary_id_spec Sample.db_ids Sample.bob). vm_compute. eauto.
Defined.

(** ** MetagovID.save *)

Lemma update_row_cons {A} (pk : A -> option Z) p row r rows :
  update_row pk p row (r :: rows)
  = (if decide (pk r = Some p) then row else r) :: update_row pk p row rows.
Proof. reflexivity. Qed.

Lemma update_row_lookup {A} (pk : A -> option Z) p row (rows : list A) i :
  update_row pk p row rows !! i
  = (fun r => if decide (pk r = Some p) then row else r) <$> rows !! i.
Proof.
  revert i. induction rows as [|r rows IH]; intros [|i]; try reflexivity.
  rewrite update_row_cons. cbn [lookup list_lookup]. apply IH.
Qed.

Lemma has_row_true {A} (pk : A -> option Z) p (rows : list A) :
  has_row pk p rows = true <-> exists r, r ∈ rows /\ pk r = Some p.
Proof.
  unfold has_row. rewrite existsb_exists. split.
  - intros (r & Hin & Hpk). exists r. split; [apply list_elem_of_In, Hin|].
    apply bool_decide_eq_true_1 in Hpk. exact Hpk.
  - intros (r & Hin & Hpk). exists r. split; [apply list_elem_of_In, Hin|].
    apply bool_decide_eq_true_2, Hpk.
Qed.


Section SavePrimary.

Context (db : DB).

(** What [MetagovID.save] does once the guard of its check is known. *)
Lemma MetagovID_save_checked self p linked :
  mg_pk self = Some p -> p <> 0 ->
  linked_ids_all db self = Ok linked -> linked <> [] ->
  MetagovID_save self db
  = let n := true_count (primary self :: map primary linked) in
    if (n =? 0)%Z then (db, Raise (Exn IntegrityError no_primary_msg))
    else if (1 <? n)%Z then (db, Raise (Exn IntegrityError many_primary_msg))
    else MetagovID_Model_save self db.
Proof.
  intros Hpk Hp Hlinked Hne. unfold MetagovID_save.
  rewrite Hlinked, Hpk. cbn [pk_truthy bind].
  destruct (Z.eqb_spec p 0) as [|_]; [contradiction|]. cbn [negb].
  destruct linked as [|r linked]; [contradiction|]. cbn zeta.
  destruct (_ =? 0)%Z; [reflexivity|]. destruct (1 <? _)%Z; reflexivity.
Qed.

(** The rows that a link from [p] reaches are the same after row [p]
    has been written, as long as [p] is not linked to itself. *)
Lemma linked_rows_after_update self p (links : list (Z * Z)) rows :
  mg_pk self = Some p -> (p, p) ∉ links ->
  let reaches := fun r : MetagovID =>
    match mg_pk r with
    | Some q => bool_decide ((p, q) ∈ links)
    | None => false
    end = true in
  filter reaches (update_row mg_pk p self rows) = filter reaches rows
  /\ filter reaches (rows ++ [self])%list = filter reaches rows.
Proof.
  intros Hpk Hself reaches.
  assert (forall r, mg_pk r = Some p -> ~ reaches r) as Hnot.
  { intros r Hr. unfold reaches. rewrite Hr.
    rewrite bool_decide_eq_false_2; [discriminate | exact Hself]. }
  split.
  - induction rows as [|r rows IH]; [reflexivity|].
    rewrite update_row_cons. destruct (decide (mg_pk r = Some p)) as [Hr|Hr].
    + rewrite (filter_cons_False _ self), (filter_cons_False _ r) by auto.
      exact IH.
    + rewrite !filter_cons, IH. reflexivity.
  - rewrite filter_app, (filter_cons_False _ self) by auto.
    rewrite filter_nil. apply app_nil_r.
Qed.

(** C5, as the code has it: on a node with a non-zero primary key and
    at least one linked id, [save] counts the flag of the instance
    and the stored flags of its linked ids.  With a count of one it
    goes on to write the row; with any other count it raises
    [IntegrityError] and writes nothing; so a save that succeeds had a
    count of one, and, when the node is not linked to itself, the
    saved node and its linked ids carry exactly one flag afterwards.
    Only the linked ids of the saved node are counted, not the
    members of its link-group that it is not linked to. *)
Theorem MetagovID_save_primary_check self p linked :
  mg_pk self = Some p -> p <> 0 ->
  linked_ids_all db self = Ok linked -> linked <> [] ->
  let n := true_count (primary self :: map primary linked) in
  (n = 1 -> MetagovID_save self db = MetagovID_Model_save self db)
  /\ (n <> 1 ->
      MetagovID_save self db
      = (db, Raise (Exn IntegrityError
                      (if (n =? 0)%Z then no_primary_msg else many_primary_msg))))
  /\ (forall db' saved, MetagovID_save self db = (db', Ok saved) -> n = 1)
  /\ (forall db' saved,
        (p, p) ∉ db_links db ->
        MetagovID_save self db = (db', Ok saved) ->
        exists linked',
          linked_ids_all db' saved = Ok linked'
          /\ true_count (primary saved :: map primary linked') = 1).
Proof.
  intros Hpk Hp Hlinked Hne n.
  pose proof (MetagovID_save_checked self p linked Hpk Hp Hlinked Hne) as Hsave.
  cbn zeta in Hsave. fold n in Hsave.
  pose proof (true_count_nonneg (primary self :: map primary linked)) as Hn.
  fold n in Hn.
  assert (forall db' saved, MetagovID_save self db = (db', Ok saved) -> n = 1) as Hone.
  { intros db' saved. rewrite Hsave.
    destruct (Z.eqb_spec n 0); [discriminate|].
    destruct (Z.ltb_spec 1 n); [discriminate|]. intros _. lia. }
  split; [|split; [|split; [exact Hone|]]].
  - intros Hn1. rewrite Hsave, Hn1. reflexivity.
  - intros Hn1. rewrite Hsave.
    destruct (Z.eqb_spec n 0); [reflexivity|].
    destruct (Z.ltb_spec 1 n); [reflexivity | lia].
  - intros db' saved Hloop Hok.
    pose proof (Hone _ _ Hok) as Hn1.
    rewrite Hsave, Hn1 in Hok. cbn [Z.eqb Z.ltb Z.compare Pos.compare] in Hok.
    rewrite (linked_ids_all_persisted db self p Hpk) in Hlinked.
    injection Hlinked as Hlinked.
    destruct (linked_rows_after_update self p (db_links db) (db_metagov_ids db)
                Hpk Hloop) as [Hupd Happ].
    unfold MetagovID_Model_save in Hok. rewrite Hpk in Hok.
    repeat match type of Hok with
           | (if ?c then _ else _) = _ => destruct c; [try discriminate|]
           end.
    + injection Hok as <- <-.
      rewrite (linked_ids_all_persisted _ self p Hpk).
      eexists. split; [reflexivity|].
      unfold linked_to. cbn [db_links db_metagov_ids set_metagov_ids].
      rewrite Hupd. unfold linked_to in Hlinked. rewrite Hlinked. exact Hn1.
    + injection Hok as <- <-.
      rewrite (linked_ids_all_persisted _ self p Hpk).
      eexists. split; [reflexivity|].
      unfold linked_to. cbn [db_links db_metagov_ids set_metagov_ids].
      rewrite Happ. unfold linked_to in Hlinked. rewrite Hlinked. exact Hn1.
Qed.

(** The messages of the database are not those of the check. *)
Lemma MetagovID_Model_save_message self db' msg :
  MetagovID_Model_save self db = (db', Raise (Exn IntegrityError msg)) ->
  msg <> no_primary_msg /\ msg <> many_primary_msg.
Proof.
  unfold MetagovID_Model_save.
  repeat match goal with
         | |- (if ?c then _ else _) = _ -> _ => destruct c
         | |- match ?c with _ => _ end = _ -> _ => destruct c
         end; intros [= <- <-] || intros [=]; split; discriminate.
Qed.

(** C10: on an instance without a primary key, and on a node without
    linked ids, [save] is the plain write of the row: the check on
    the primary flags does not run, and neither of its two errors can
    come out, whatever the flags are. *)
Theorem MetagovID_save_unchecked self :
  mg_pk self = None \/ linked_ids_all db self = Ok [] ->
  MetagovID_save self db = MetagovID_Model_save self db
  /\ (forall db' msg,
        MetagovID_save self db = (db', Raise (Exn IntegrityError msg)) ->
        msg <> no_primary_msg /\ msg <> many_primary_msg).
Proof.
  intros Hguard.
  assert (MetagovID_save self db = MetagovID_Model_save self db) as Heq.
  { unfold MetagovID_save. destruct Hguard as [-> | ->]; [reflexivity|].
    destruct (pk_truthy (mg_pk self)); reflexivity. }
  split; [exact Heq|]. intros db' msg. rewrite Heq.
  apply MetagovID_Model_save_message.
Qed.

End SavePrimary.

(** C5 as the spec words it fails on a chain of links: [alice] is the
    one primary of the group of [alice], [bob] and [carol]; [carol] is
    linked to [bob] only, so the save of [carol] with the flag raised
    passes the check, and the committed group has two primaries. *)
Lemma MetagovID_save_second_primary_in_group :
  link_group Sample.db_ids 3 = [3; 2; 1]
  /\ group_primaries Sample.db_ids 3 = [Sample.alice]
  /\ snd (MetagovID_save Sample.carol_primary Sample.db_ids) = Ok Sample.carol_primary
  /\ group_primaries (fst (MetagovID_save Sample.carol_primary Sample.db_ids)) 3
     = [Sample.alice; Sample.carol_primary].
Proof. repeat split; vm_compute; reflexivity. Qed.

(** [carol] with the flag raised, in the chain of [Sample.db_ids]. *)
Lemma MetagovID_save_primary_check_witness :
  let n := true_count (primary Sample.carol_primary :: map primary [Sample.bob]) in
  (n = 1 ->
   MetagovID_save Sample.carol_primary Sample.db_ids
   = MetagovID_Model_save Sample.carol_primary Sample.db_ids)
  /\ (n <> 1 ->
      MetagovID_save Sample.carol_primary Sample.db_ids
      = (Sample.db_ids,
         Raise (Exn IntegrityError
                  (if (n =? 0)%Z then no_primary_msg else many_primary_msg))))
  /\ (forall db' saved,
        MetagovID_save Sample.carol_primary Sample.db_ids = (db', Ok saved) -> n = 1)
  /\ (forall db' saved,
        (3, 3) ∉ db_links Sample.db_ids ->
        MetagovID_save Sample.carol_primary Sample.db_ids = (db', Ok saved) ->
        exists linked',
          linked_ids_all db' saved = Ok linked'
          /\ true_count (primary saved :: map primary linked') = 1).
Proof.
  apply (MetagovID_save_primary_check Sample.db_ids Sample.carol_primary 3 [Sample.bob]);
    [reflexivity | lia | reflexivity | discriminate].
Defined.

(** A new identity on the database [Sample.db0]. *)
Lemma MetagovID_save_unchecked_witness :
  MetagovID_save (set_mg_pk None Sample.carol_primary) Sample.db0
  = MetagovID_Model_save (set_mg_pk None Sample.carol_primary) Sample.db0
  /\ (forall db' msg,
        MetagovID_save (set_mg_pk None Sample.carol_primary) Sample.db0
        = (db', Raise (Exn IntegrityError msg)) ->
        msg <> no_primary_msg /\ msg <> many_primary_msg).
Proof.
  apply (MetagovID_save_unchecked Sample.db0 (set_mg_pk None Sample.carol_primary)).
  left. reflexivity.
Defined.

(** ** LinkedAccount.save *)

Section SaveAccount.

Context (db : DB).

Lemma LinkedAccount_filter_elem c t i p r :
  r ∈ LinkedAccount_filter c t i p db
  <-> claims_tuple c t i p r /\ r ∈ db_linked_accounts db.
Proof. apply list_elem_of_filter. Qed.

(** C7: a new account whose tuple is claimed by a row of the table is
    refused with [IntegrityError], and the database is left as it
    was; and a new account that is accepted keeps the table at one
    row per tuple. *)
Theorem LinkedAccount_save_duplicate self :
  la_pk self = None ->
  (forall other,
      other ∈ db_linked_accounts db -> same_tuple self other ->
      LinkedAccount_save self db
      = (db, Raise (Exn IntegrityError (duplicate_link_msg self))))
  /\ (forall db' saved,
        unique_tuples (db_linked_accounts db) ->
        LinkedAccount_save self db = (db', Ok saved) ->
        unique_tuples (db_linked_accounts db')).
Proof.
  intros Hnew. unfold LinkedAccount_save. rewrite Hnew. cbn [pk_truthy negb orb].
  destruct (LinkedAccount_filter _ _ _ _ db) as [|first rest] eqn:Hfilter.
  - split.
    + intros other Hin Hsame.
      assert (other ∈ LinkedAccount_filter (la_community self) (la_platform_type self)
                (la_platform_identifier self) (la_community_platform_id self) db) as Hother
        by (apply LinkedAccount_filter_elem; split; assumption).
      rewrite Hfilter in Hother. inversion Hother.
    + intros db' saved Huniq. unfold LinkedAccount_Model_save. rewrite Hnew.
      intros [= <- <-]. cbn [db_linked_accounts set_linked_accounts].
      assert (forall a, a ∈ db_linked_accounts db -> ~ same_tuple self a) as Hfree.
      { intros a Hin Hsame.
        assert (a ∈ LinkedAccount_filter (la_community self) (la_platform_type self)
                  (la_platform_identifier self) (la_community_platform_id self) db) as Ha
          by (apply LinkedAccount_filter_elem; split; assumption).
        rewrite Hfilter in Ha. inversion Ha. }
      set (saved := set_la_pk (Some (db_linked_account_seq db)) self).
      intros i j a b Ha Hb Hsame.
      apply lookup_app_Some in Ha as [Ha | [Hi Ha]];
        apply lookup_app_Some in Hb as [Hb | [Hj Hb]].
      * exact (Huniq i j a b Ha Hb Hsame).
      * apply list_lookup_singleton_Some in Hb as [Hj' <-].
        exfalso. apply (Hfree a); [eapply list_elem_of_lookup_2, Ha|].
        unfold same_tuple, claims_tuple in Hsame |- *. cbn in Hsame.
        destruct Hsame as (H1 & H2 & H3 & H4). repeat split; congruence.
      * apply list_lookup_singleton_Some in Ha as [Hi' <-].
        exfalso. apply (Hfree b); [eapply list_elem_of_lookup_2, Hb|].
        exact Hsame.
      * apply list_lookup_singleton_Some in Ha as [Hi' _].
        apply list_lookup_singleton_Some in Hb as [Hj' _]. lia.
  - split; [reflexivity | discriminate].
Qed.

End SaveAccount.

(** A second account for the slack handle of [Sample.db_ids]. *)
Lemma LinkedAccount_save_duplicate_witness :
  (forall other,
      other ∈ db_linked_accounts Sample.db_ids ->
      same_tuple (set_la_pk None Sample.slack_account) other ->
      LinkedAccount_save (set_la_pk None Sample.slack_account) Sample.db_ids
      = (Sample.db_ids,
         Raise (Exn IntegrityError
                  (duplicate_link_msg (set_la_pk None Sample.slack_account)))))
  /\ (forall db' saved,
        unique_tuples (db_linked_accounts Sample.db_ids) ->
        LinkedAccount_save (set_la_pk None Sample.slack_account) Sample.db_ids
        = (db', Ok saved) ->
        unique_tuples (db_linked_accounts db')).
Proof.
  apply (LinkedAccount_save_duplicate Sample.db_ids (set_la_pk None Sample.slack_account)).
  reflexivity.
Defined.

(** ** Plugin.add_linked_account *)

Lemma quality_is_greater_rank a b :
  quality_is_greater (LinkQuality_value a) (LinkQuality_value b)
  = Ok (rank b <? rank a)%nat.
Proof. destruct a, b; reflexivity. Qed.

Lemma LinkQuality_value_truthy a : str_truthy (LinkQuality_value a) = true.
Proof. destruct a; reflexivity. Qed.

Section AddLinkedAccount.

Context (db : DB) (self : Plugin) (platform_identifier : string).
Context (existing : LinkedAccount).

(** The account that the lookup of the plugin's tuple finds first. *)
Hypothesis found :
  head (LinkedAccount_filter (plugin_community self) (plugin_name self)
          platform_identifier (plugin_community_platform_id self) db)
  = Some existing.

Lemma retrieve_account_found :
  identity.retrieve_account (plugin_community self) (plugin_name self)
    platform_identifier (plugin_community_platform_id self) db
  = (db, Ok existing).
Proof.
  unfold identity.retrieve_account.
  destruct (LinkedAccount_filter _ _ _ _ db); [discriminate|].
  injection found as ->. reflexivity.
Qed.


(** C3: with a quality that is not above the stored one, the call
    changes nothing in the database and returns the account as it is
    stored. *)
Theorem add_linked_account_no_downgrade external_id custom_data link_type a b :
  la_link_quality existing = LinkQuality_value b ->
  (rank a <= rank b)%nat ->
  add_linked_account self platform_identifier external_id custom_data link_type
    (Some (LinkQuality_value a)) db
  = (db, Ok existing).
Proof.
  intros Hstored Hle.
  unfold add_linked_account, add_linked_account_try.
  unfold bindM at 1. rewrite retrieve_account_found.
  unfold bindM. rewrite LinkQuality_value_truthy, Hstored.
  unfold lift. rewrite quality_is_greater_rank.
  destruct (Nat.ltb_spec (rank b) (rank a)); [lia | reflexivity].
Qed.




End AddLinkedAccount.

(** An unconfirmed account is not touched by a call of unknown quality. *)
Lemma add_linked_account_no_downgrade_witness :
  add_linked_account Sample.slack_plugin "U123" None (VDict [("team", VStr "T1")])
    (Some (LinkType_value OAUTH)) (Some (LinkQuality_value UNKNOWN)) Sample.db_ids
  = (Sample.db_ids, Ok Sample.slack_account).
Proof.
  apply (add_linked_account_no_downgrade Sample.db_ids Sample.slack_plugin "U123"
           Sample.slack_account eq_refl None (VDict [("team", VStr "T1")])
           (Some (LinkType_value OAUTH)) UNKNOWN UNCONFIRMED);
    [reflexivity | cbn; lia].
Defined.


(** The upgrade of the sample account, computed: the one row of the
    table now holds the strong quality, the new custom data and the new
    link type. *)
Example add_linked_account_upgrade_computed :
  db_linked_accounts
    (fst (add_linked_account Sample.slack_plugin "U123" None
            (VDict [("team", VStr "T1")]) (Some (LinkType_value OAUTH))
            (Some (LinkQuality_value STRONG_CONFIRM)) Sample.db_ids))
  = [ {| la_pk := Some 1; la_metagov_id := 1; la_community := Sample.acme;
         la_community_platform_id := None; la_platform_type := "slack";
         la_platform_identifier := "U123";
         la_custom_data := VDict [("team", VStr "T1")];
         la_link_type := "oauth";
         la_link_quality := "confirmed (strong)" |} ].
Proof. vm_compute. reflexivity. Qed.

(** * Further properties of the module *)

(** ** Dispatch: lookups, validation and the effects of the handler *)

Section DispatchMore.

Context (env : Env) (self : Community) (name action_id : string).
Context (community_platform_id : option string).

(** X1: a plugin name that is not in the registry, or an action id that
    the plugin class does not declare, ends the dispatch with the
    [KeyError] of the failed lookup: the state is untouched and no
    handler is called, whatever the database holds. *)
Theorem perform_action_unregistered parameters validation s e :
  (try! cls := getitem (plugin_registry env) name in
   getitem (_action_registry cls) action_id) = Raise e ->
  perform_action env self name action_id parameters validation
    community_platform_id s = (s, Raise e)
  /\ exn_cls e = KeyError.
Proof.
  unfold perform_action, bindM at 1, lift at 1, getitem.
  destruct (plugin_registry env !! name) as [cls|]; cbn [bind].
  - unfold bindM at 1, lift at 1.
    destruct (_action_registry cls !! action_id); [discriminate|].
    intros [= <-]. split; reflexivity.
  - intros [= <-]. split; reflexivity.
Qed.

Context (cls : PluginCls) (meta : ActionMeta).
Hypothesis registered : plugin_registry env !! name = Some cls.
Hypothesis declared : _action_registry cls !! action_id = Some meta.

(** Once the lookups, the input check and the unpacking of the
    parameters are through, the dispatch is the call of the handler
    followed by the check of its result. *)
Lemma perform_action_invoked parameters validation db calls plugin f kwargs :
  get_plugin env self name community_platform_id None db = Ok plugin ->
  validation && truthy (input_schema meta) && truthy parameters = false
  \/ jsonschema_validate env parameters (input_schema meta) = Ok tt ->
  cls_methods cls (function_name meta) = Some f ->
  kwargs_of (py_or parameters (VDict [])) = Ok kwargs ->
  perform_action env self name action_id parameters validation
    community_platform_id (db, calls)
  = ((fst (f plugin kwargs db),
      (calls ++ [Build_Call (function_name meta) plugin kwargs])%list),
     match snd (f plugin kwargs db) with
     | Raise e => Raise e
     | Ok result =>
         if validation && truthy (output_schema meta) && truthy result
         then match jsonschema_validate env result (output_schema meta) with
              | Ok _ => Ok result
              | Raise e => Raise e
              end
         else Ok result
     end).
Proof.
  intros Hplugin Hinput Hmethod Hkwargs.
  rewrite (perform_action_lookups env self name action_id community_platform_id
             cls meta registered declared).
  unfold bindM at 1. cbn [fst]. rewrite Hplugin.
  assert ((if validation && truthy (input_schema meta) && truthy parameters
           then lift (jsonschema_validate env parameters (input_schema meta))
           else ret tt) (db, calls) = ((db, calls), Ok tt)) as Hvalid.
  { destruct Hinput as [-> | ->]; [reflexivity|].
    destruct (validation && truthy (input_schema meta) && truthy parameters);
      reflexivity. }
  unfold bindM at 1. rewrite Hvalid.
  unfold bindM at 1, lift at 1, getattr. rewrite Hmethod.
  unfold bindM at 1, lift at 1. rewrite Hkwargs.
  unfold bindM at 1, invoke. cbn [fst snd].
  destruct (f plugin kwargs db) as [db' [result|e]]; cbn [fst snd]; [|reflexivity].
  unfold bindM.
  destruct (validation && truthy (output_schema meta) && truthy result);
    [|reflexivity].
  unfold lift.
  destruct (jsonschema_validate env result (output_schema meta)); reflexivity.
Qed.

(** X2: with [jsonschema_validation] off, neither schema is consulted:
    the handler runs on the parameters and its outcome, value or
    exception, is the outcome of the dispatch. *)
Theorem perform_action_without_validation parameters db calls plugin f kwargs :
  get_plugin env self name community_platform_id None db = Ok plugin ->
  cls_methods cls (function_name meta) = Some f ->
  kwargs_of (py_or parameters (VDict [])) = Ok kwargs ->
  perform_action env self name action_id parameters false
    community_platform_id (db, calls)
  = ((fst (f plugin kwargs db),
      (calls ++ [Build_Call (function_name meta) plugin kwargs])%list),
     snd (f plugin kwargs db)).
Proof.
  intros Hplugin Hmethod Hkwargs.
  rewrite (perform_action_invoked parameters false db calls plugin f kwargs)
    by (assumption || (left; reflexivity)).
  cbn [andb]. destruct (snd (f plugin kwargs db)); reflexivity.
Qed.

(** X3: the dispatch never undoes what the handler did.  Once the
    handler has been called, the database is the one it left and the
    call is in the trace, also when the handler raises and also when
    its result fails the output schema; in those two cases the error
    is the outcome. *)
Theorem perform_action_keeps_handler_effects parameters validation db calls
    plugin f kwargs :
  get_plugin env self name community_platform_id None db = Ok plugin ->
  validation && truthy (input_schema meta) && truthy parameters = false
  \/ jsonschema_validate env parameters (input_schema meta) = Ok tt ->
  cls_methods cls (function_name meta) = Some f ->
  kwargs_of (py_or parameters (VDict [])) = Ok kwargs ->
  let out := perform_action env self name action_id parameters validation
               community_platform_id (db, calls) in
  fst out = (fst (f plugin kwargs db),
             (calls ++ [Build_Call (function_name meta) plugin kwargs])%list)
  /\ (forall e, snd (f plugin kwargs db) = Raise e -> snd out = Raise e)
  /\ (forall result e,
        snd (f plugin kwargs db) = Ok result ->
        validation && truthy (output_schema meta) && truthy result = true ->
        jsonschema_validate env result (output_schema meta) = Raise e ->
        snd out = Raise e).
Proof.
  intros Hplugin Hinput Hmethod Hkwargs out. subst out.
  rewrite (perform_action_invoked parameters validation db calls plugin f kwargs)
    by assumption.
  cbn [fst snd]. split; [reflexivity|]. split.
  - intros e ->. reflexivity.
  - intros result e -> -> ->. reflexivity.
Qed.

End DispatchMore.

(** The registry of [Cases] has no plugin [forum]. *)
Lemma perform_action_unregistered_witness :
  perform_action Cases.env Sample.acme "forum" "add-note" VNone true None
    (Sample.db0, [])
  = ((Sample.db0, []), Raise (Exn KeyError "forum"))
  /\ exn_cls (Exn KeyError "forum") = KeyError.
Proof.
  apply (perform_action_unregistered Cases.env Sample.acme "forum" "add-note" None
           VNone true (Sample.db0, [])).
  reflexivity.
Defined.

(** [add-note] with validation off: the note is written and the answer
    comes back, although it lacks the [id] of the output schema. *)
Lemma perform_action_without_validation_witness :
  perform_action Cases.env Sample.acme "poll" "add-note" VNone false None
    (Sample.db0, [])
  = ((fst (Cases.add_note Sample.poll_plugin [] Sample.db0),
      ([] ++ [Build_Call (function_name Cases.add_note_meta) Sample.poll_plugin []])%list),
     snd (Cases.add_note Sample.poll_plugin [] Sample.db0)).
Proof.
  apply (perform_action_without_validation Cases.env Sample.acme "poll" "add-note"
           None Cases.notes_cls Cases.add_note_meta);
    reflexivity.
Defined.

(** [add-note] with validation on: the answer is refused and the note
    stays written. *)
Lemma perform_action_keeps_handler_effects_witness :
  let out := perform_action Cases.env Sample.acme "poll" "add-note" VNone true None
               (Sample.db0, []) in
  fst out = (fst (Cases.add_note Sample.poll_plugin [] Sample.db0),
             ([] ++ [Build_Call (function_name Cases.add_note_meta)
                       Sample.poll_plugin []])%list)
  /\ (forall e, snd (Cases.add_note Sample.poll_plugin [] Sample.db0) = Raise e ->
                snd out = Raise e)
  /\ (forall result e,
        snd (Cases.add_note Sample.poll_plugin [] Sample.db0) = Ok result ->
        true && truthy (output_schema Cases.add_note_meta) && truthy result = true ->
        jsonschema_validate Cases.env result (output_schema Cases.add_note_meta)
        = Raise e ->
        snd out = Raise e).
Proof.
  apply (perform_action_keeps_handler_effects Cases.env Sample.acme "poll" "add-note"
           None Cases.notes_cls Cases.add_note_meta eq_refl eq_refl VNone true
           Sample.db0 [] Sample.poll_plugin Cases.add_note []);
    [reflexivity | left; reflexivity | reflexivity | reflexivity].
Defined.

(** ** Looking up and disabling a plugin *)

Lemma queryset_get_Ok {A} model (rows : list A) x :
  queryset_get model rows = Ok x -> rows = [x].
Proof. destruct rows as [|y [|z rows]]; cbn; congruence. Qed.

Lemma filter_swap {A} (P Q : A -> Prop) `{forall x, Decision (P x)}
    `{forall x, Decision (Q x)} (l : list A) :
  filter P (filter Q l) = filter Q (filter P l).
Proof.
  induction l as [|x l IH]; [reflexivity|].
  rewrite !filter_cons.
  destruct (decide (Q x)), (decide (P x)); rewrite ?filter_cons;
    repeat case_decide; try contradiction; rewrite ?IH; reflexivity.
Qed.

Section GetPlugin.

Context (env : Env) (self : Community) (name : string).
Context (community_platform_id : option string) (id : option Z).

(** The rows among which [get_plugin] expects exactly one. *)
Lemma get_plugin_candidates cls db :
  plugin_registry env !! name = Some cls ->
  exists (P : Plugin -> Prop) (dec : forall r, Decision (P r)),
    (forall rows, get_plugin env self name community_platform_id id
                    (set_plugins rows db)
                  = queryset_get "Plugin" (filter P rows))
    /\ (forall r, P r ->
          plugin_name r = name
          /\ community_pk (plugin_community r) = community_pk self
          /\ (cls_proxy cls = true -> plugin_name r = cls_name cls)
          /\ (forall i, id = Some i -> plugin_pk r = i)
          /\ (id = None -> opt_str_truthy community_platform_id = true ->
              plugin_community_platform_id r = community_platform_id)).
Proof.
  intros Hreg.
  set (base := fun r : Plugin =>
         (cls_proxy cls = true -> plugin_name r = cls_name cls)
         /\ plugin_name r = name
         /\ community_pk (plugin_community r) = community_pk self).
  assert (forall rows,
            filter (fun r => plugin_name r = name
                             /\ community_pk (plugin_community r) = community_pk self)
                   (PluginManager_get_queryset cls (set_plugins rows db))
            = filter base rows) as Hbase.
  { intros rows. unfold PluginManager_get_queryset, base. cbn [db_plugins set_plugins].
    destruct (cls_proxy cls).
    - rewrite list_filter_filter. apply list_filter_iff. intros r. intuition.
    - apply list_filter_iff. intros r. intuition discriminate. }
  destruct id as [i|].
  - exists (fun r => plugin_pk r = i /\ base r), _. split.
    + intros rows. unfold get_plugin. rewrite Hreg. cbn zeta. rewrite Hbase.
      rewrite list_filter_filter. reflexivity.
    + unfold base. intros r (Hi & Hproxy & Hname & Hcomm).
      repeat split; try assumption; [intros i' [= <-]; exact Hi | discriminate].
  - destruct (opt_str_truthy community_platform_id) eqn:Htruthy.
    + exists (fun r => plugin_community_platform_id r = community_platform_id /\ base r), _.
      split.
      * intros rows. unfold get_plugin. rewrite Hreg, Htruthy. cbn zeta.
        rewrite Hbase, list_filter_filter. reflexivity.
      * unfold base. intros r (Hc & Hproxy & Hname & Hcomm).
        repeat split; try assumption; [discriminate | intros _ _; exact Hc].
    + exists base, _. split.
      * intros rows. unfold get_plugin. rewrite Hreg, Htruthy. cbn zeta.
        rewrite Hbase. reflexivity.
      * unfold base. intros r (Hproxy & Hname & Hcomm).
        repeat split; try assumption; discriminate.
Qed.

Lemma set_plugins_id db : set_plugins (db_plugins db) db = db.
Proof. destruct db; reflexivity. Qed.

(** X4: a plugin that [get_plugin] returns is a row of the table, of the
    requested name and of the community; it is of the name of its
    class when the class is a proxy, it has the requested primary key
    when one is given, and otherwise the requested platform id when
    that is not empty; and the plugin is registered. *)
Theorem get_plugin_sound db plugin :
  get_plugin env self name community_platform_id id db = Ok plugin ->
  plugin ∈ db_plugins db
  /\ plugin_name plugin = name
  /\ community_pk (plugin_community plugin) = community_pk self
  /\ (exists cls, plugin_registry env !! name = Some cls
                  /\ (cls_proxy cls = true -> plugin_name plugin = cls_name cls))
  /\ (forall i, id = Some i -> plugin_pk plugin = i)
  /\ (id = None -> opt_str_truthy community_platform_id = true ->
      plugin_community_platform_id plugin = community_platform_id).
Proof.
  intros Hget.
  destruct (plugin_registry env !! name) as [cls|] eqn:Hreg;
    [|unfold get_plugin in Hget; rewrite Hreg in Hget; discriminate].
  destruct (get_plugin_candidates cls db Hreg) as (P & dec & Hrows & HP).
  rewrite <- (set_plugins_id db), Hrows in Hget.
  apply queryset_get_Ok in Hget.
  assert (plugin ∈ filter P (db_plugins db)) as Hin by (rewrite Hget; left).
  apply list_elem_of_filter in Hin as [Hp Hin].
  destruct (HP plugin Hp) as (Hname & Hcomm & Hproxy & Hid & Hcp).
  repeat split; try assumption. exists cls. split; [reflexivity | exact Hproxy].
Qed.

(** X5: disabling a plugin removes its row and every process that
    belongs to it, keeps the other plugins and the processes of the
    other plugins, and leaves the table of state stores as it was:
    the state stores of the plugin and of its processes stay behind. *)
Theorem disable_plugin_effect db plugin :
  get_plugin env self name community_platform_id id db = Ok plugin ->
  exists db',
    disable_plugin env self name community_platform_id id db = (db', Ok tt)
    /\ (forall r, r ∈ db_plugins db' <->
                  r ∈ db_plugins db /\ plugin_pk r <> plugin_pk plugin)
    /\ (forall k g, db_processes db' !! k = Some g <->
                    db_processes db !! k = Some g /\ gp_plugin g <> plugin_pk plugin)
    /\ db_datastores db' = db_datastores db.
Proof.
  intros Hget. eexists. split.
  - unfold disable_plugin, bindM. rewrite Hget. reflexivity.
  - cbn [db_plugins db_processes db_datastores set_processes set_plugins].
    split; [|split; [|reflexivity]].
    + intros r. rewrite list_elem_of_filter. tauto.
    + intros k g. rewrite map_lookup_filter_Some. cbn [snd]. tauto.
Qed.

(** X6: a plugin cannot be disabled twice: after the first call, the
    same call finds no row and raises [DoesNotExist], and the database
    is left as the first call left it. *)
Theorem disable_plugin_twice db plugin :
  get_plugin env self name community_platform_id id db = Ok plugin ->
  let db' := fst (disable_plugin env self name community_platform_id id db) in
  disable_plugin env self name community_platform_id id db'
  = (db', Raise (Exn DoesNotExist "Plugin matching query does not exist.")).
Proof.
  intros Hget db'.
  assert (db' = set_processes
                  (filter (fun kv : Z * GovernanceProcess =>
                             gp_plugin (snd kv) <> plugin_pk plugin))
                  (db_process_seq db)
                  (set_plugins (filter (fun r => plugin_pk r <> plugin_pk plugin)
                                  (db_plugins db)) db)) as Hdb'.
  { unfold db', disable_plugin, bindM. rewrite Hget. reflexivity. }
  destruct (plugin_registry env !! name) as [cls|] eqn:Hreg;
    [|unfold get_plugin in Hget; rewrite Hreg in Hget; discriminate].
  destruct (get_plugin_candidates cls db Hreg) as (P & dec & Hrows & HP).
  pose proof Hget as Hone.
  rewrite <- (set_plugins_id db), Hrows in Hone. apply queryset_get_Ok in Hone.
  assert (get_plugin env self name community_platform_id id db'
          = Raise (Exn DoesNotExist "Plugin matching query does not exist.")) as Hgone.
  { transitivity (get_plugin env self name community_platform_id id
                    (set_plugins (filter (fun r => plugin_pk r <> plugin_pk plugin)
                                    (db_plugins db)) db)).
    - rewrite Hdb'. unfold get_plugin, PluginManager_get_queryset. reflexivity.
    - rewrite Hrows, filter_swap, Hone.
      rewrite filter_cons_False by (intros Hne; apply Hne; reflexivity).
      reflexivity. }
  unfold disable_plugin, bindM. rewrite Hgone. reflexivity.
Qed.

End GetPlugin.

(** The poll plugin of [Sample.db_ids], looked up by its primary key. *)
Lemma get_plugin_sound_witness :
  Sample.poll_plugin ∈ db_plugins Sample.db_ids
  /\ plugin_name Sample.poll_plugin = "poll"
  /\ community_pk (plugin_community Sample.poll_plugin) = community_pk Sample.acme
  /\ (exists cls, plugin_registry Sample.env !! "poll" = Some cls
                  /\ (cls_proxy cls = true ->
                      plugin_name Sample.poll_plugin = cls_name cls))
  /\ (forall i, Some 1 = Some i -> plugin_pk Sample.poll_plugin = i)
  /\ (Some 1 = None -> opt_str_truthy None = true ->
      plugin_community_platform_id Sample.poll_plugin = None).
Proof.
  apply (get_plugin_sound Sample.env Sample.acme "poll" None (Some 1) Sample.db_ids).
  vm_compute. reflexivity.
Defined.

(** The poll plugin of [Sample.db1] goes, with the process that was
    created for it. *)
Lemma disable_plugin_effect_witness :
  exists db',
    disable_plugin Sample.env Sample.acme "poll" None None Sample.db1 = (db', Ok tt)
    /\ (forall r, r ∈ db_plugins db' <->
                  r ∈ db_plugins Sample.db1 /\ plugin_pk r <> plugin_pk Sample.poll_plugin)
    /\ (forall k g, db_processes db' !! k = Some g <->
                    db_processes Sample.db1 !! k = Some g
                    /\ gp_plugin g <> plugin_pk Sample.poll_plugin)
    /\ db_datastores db' = db_datastores Sample.db1.
Proof.
  apply (disable_plugin_effect Sample.env Sample.acme "poll" None None Sample.db1).
  vm_compute. reflexivity.
Defined.

Lemma disable_plugin_twice_witness :
  let db' := fst (disable_plugin Sample.env Sample.acme "poll" None None Sample.db1) in
  disable_plugin Sample.env Sample.acme "poll" None None db'
  = (db', Raise (Exn DoesNotExist "Plugin matching query does not exist.")).
Proof.
  apply (disable_plugin_twice Sample.env Sample.acme "poll" None None Sample.db1
           Sample.poll_plugin).
  vm_compute. reflexivity.
Defined.

(** ** The state store: removing, overwriting, and the other keys *)

Section StateStoreMore.

Context (env : Env).

(** X7: [remove] always succeeds and writes the store; afterwards [get]
    finds nothing under the key, the other keys read as before, and
    the answer is [True] exactly when the key held a non-empty text (a
    key that is absent, or that holds the empty text, answers
    [False]). *)
Theorem DataStore_remove_spec self key db :
  exists self' db',
    DataStore_remove self key db
    = (db', Ok (self', opt_str_truthy (datastore self !! key)))
    /\ DataStore_get env self' key = Ok VNone
    /\ (forall other, other <> key ->
          DataStore_get env self' other = DataStore_get env self other)
    /\ (exists p, ds_pk self' = Some p
                  /\ db_datastores db' !! p = Some (datastore self')).
Proof.
  unfold DataStore_remove, bindM, DataStore_save, ret, DataStore_get.
  destruct (ds_pk self) as [p|]; cbn [ds_pk datastore]; eexists _, _;
    (split; [reflexivity|]); cbn [ds_pk datastore];
    rewrite lookup_delete_eq; (split; [reflexivity|]); split.
  - intros other Hne. rewrite lookup_delete_ne by congruence. reflexivity.
  - exists p. split; [reflexivity|].
    cbn [db_datastores set_datastores]. apply lookup_insert_eq.
  - intros other Hne. rewrite lookup_delete_ne by congruence. reflexivity.
  - eexists. split; [reflexivity|].
    cbn [db_datastores set_datastores]. apply lookup_insert_eq.
Qed.

(** X8: [set] on one key leaves what [get] reads under every other key,
    keeps the primary key of a store that has one, and writes the
    whole mapping to the row of the store. *)
Theorem DataStore_set_frame self key v db :
  exists self' db',
    DataStore_set env self key v db = (db', Ok (self', true))
    /\ (forall other, other <> key ->
          DataStore_get env self' other = DataStore_get env self other)
    /\ (forall p, ds_pk self = Some p -> ds_pk self' = Some p)
    /\ (exists p, ds_pk self' = Some p
                  /\ db_datastores db' !! p = Some (datastore self')).
Proof.
  unfold DataStore_set, bindM, DataStore_save, ret, DataStore_get.
  destruct (ds_pk self) as [p|]; cbn [ds_pk datastore]; eexists _, _;
    (split; [reflexivity|]); cbn [ds_pk datastore]; split.
  - intros other Hne. rewrite lookup_insert_ne by congruence. reflexivity.
  - split; [intros q [= <-]; reflexivity|]. exists p. split; [reflexivity|].
    cbn [db_datastores set_datastores]. apply lookup_insert_eq.
  - intros other Hne. rewrite lookup_insert_ne by congruence. reflexivity.
  - split; [discriminate|]. eexists. split; [reflexivity|].
    cbn [db_datastores set_datastores]. apply lookup_insert_eq.
Qed.

(** X9: the last write wins: after two [set] on the same key, the store
    is the one that the second [set] alone would have made of the
    first store's mapping, and [get] decodes the second value. *)
Theorem DataStore_set_overwrite self key v1 v2 db self1 db1 :
  DataStore_set env self key v1 db = (db1, Ok (self1, true)) ->
  exists self2 db2,
    DataStore_set env self1 key v2 db1 = (db2, Ok (self2, true))
    /\ datastore self2 = <[key := jsonpickle_encode env v2]> (datastore self)
    /\ DataStore_get env self2 key
       = jsonpickle_decode env (jsonpickle_encode env v2).
Proof.
  unfold DataStore_set, bindM, DataStore_save, ret, DataStore_get.
  destruct (ds_pk self) as [p|]; cbn [ds_pk datastore]; intros [= <- <-];
    cbn [ds_pk datastore]; eexists _, _; (split; [reflexivity|]);
    cbn [datastore]; rewrite insert_insert_eq, lookup_insert_eq; split; reflexivity.
Qed.

End StateStoreMore.

(** Two writes to the key [k] of the first store of [Sample.db0]. *)
Lemma DataStore_set_overwrite_witness :
  exists self2 db2,
    DataStore_set Sample.env {| ds_pk := Some 1; datastore := <["k" := "1"]> ∅ |}
      "k" (VInt 3)
      (set_datastores <[1 := <["k" := "1"]> ∅]> 2 Sample.db0)
    = (db2, Ok (self2, true))
    /\ datastore self2 = <["k" := jsonpickle_encode Sample.env (VInt 3)]> ∅
    /\ DataStore_get Sample.env self2 "k"
       = jsonpickle_decode Sample.env (jsonpickle_encode Sample.env (VInt 3)).
Proof.
  apply (DataStore_set_overwrite Sample.env {| ds_pk := Some 1; datastore := ∅ |}
           "k" (VInt 1) (VInt 3) Sample.db0).
  reflexivity.
Defined.

(** ** GovernanceProcess.save and the steps of start_process *)

(** What a row that the database accepts satisfies. *)
Lemma GovernanceProcess_constraints_Ok self db u :
  GovernanceProcess_constraints self db = Ok u ->
  (String.length (gp_name self) <= 30)%nat
  /\ (String.length (gp_status self) <= 15)%nat
  /\ (exists q, q ∈ db_plugins db /\ plugin_pk q = gp_plugin self)
  /\ (forall s, gp_state self = Some s ->
        is_Some (db_datastores db !! s)
        /\ forall k g, db_processes db !! k = Some g -> gp_state g = Some s ->
                       gp_pk self = Some k).
Proof.
  unfold GovernanceProcess_constraints, too_long.
  destruct (Nat.ltb_spec 30 (String.length (gp_name self))) as [|Hname]; [discriminate|].
  destruct (opt_too_long 150 (gp_url self)); [discriminate|].
  destruct (opt_too_long 100 (gp_callback_url self)); [discriminate|].
  destruct (Nat.ltb_spec 15 (String.length (gp_status self))) as [|Hstatus];
    [discriminate|].
  destruct (existsb _ (db_plugins db)) eqn:Hplugin; cbn [negb]; [|discriminate].
  apply existsb_exists in Hplugin as (q & Hq%list_elem_of_In & Hpk%Z.eqb_eq).
  intros Hstate. split; [exact Hname|]. split; [exact Hstatus|].
  split; [exists q; split; assumption|].
  intros s Hs. rewrite Hs in Hstate.
  destruct (bool_decide (is_Some (db_datastores db !! s))) eqn:Hstore;
    cbn [negb] in Hstate; [|discriminate].
  apply bool_decide_eq_true in Hstore. split; [exact Hstore|].
  destruct (bool_decide (map_Forall _ (db_processes db))) eqn:Hone; [|discriminate].
  apply bool_decide_eq_true in Hone.
  intros k g Hk Hg. destruct (Hone k g Hk) as [Hown | Hother]; [exact Hown|].
  contradiction.
Qed.

(** What [Model.save] on a process writes, and what it leaves. *)
Lemma GovernanceProcess_Model_save_spec self db db' r :
  GovernanceProcess_Model_save self db = (db', r) ->
  db_plugins db' = db_plugins db
  /\ db_datastores db' = db_datastores db
  /\ db_datastore_seq db' = db_datastore_seq db
  /\ (forall saved, r = Ok saved ->
        set_gp_pk (gp_pk self) saved = self
        /\ (is_Some (gp_pk self) -> saved = self)
        /\ (exists p, gp_pk saved = Some p /\ db_processes db' !! p = Some saved)
        /\ exists u, GovernanceProcess_constraints self db = Ok u)
  /\ (forall e, r = Raise e -> db' = db).
Proof.
  unfold GovernanceProcess_Model_save.
  destruct (GovernanceProcess_constraints self db) as [u|e0] eqn:Hcheck.
  - destruct (gp_pk self) as [p|] eqn:Hpk.
    + intros [= <- <-]. cbn [db_plugins db_datastores db_datastore_seq set_processes].
      do 3 (split; [reflexivity|]). split; [|discriminate].
      intros saved [= <-]. split; [rewrite <- Hpk; destruct self; reflexivity|].
      split; [reflexivity|]. split; [|exists u; reflexivity].
      exists p. split; [exact Hpk|]. cbn [db_processes set_processes].
      apply lookup_insert_eq.
    + destruct (bool_decide (is_Some (db_processes db !! db_process_seq db))).
      * intros [= <- <-]. do 3 (split; [reflexivity|]). split; [discriminate|].
        reflexivity.
      * intros [= <- <-]. cbn [db_plugins db_datastores db_datastore_seq set_processes].
        do 3 (split; [reflexivity|]). split; [|discriminate].
        intros saved [= <-].
        split; [destruct self; cbn in *; rewrite Hpk; reflexivity|].
        split; [intros [? [=]]|]. split; [|exists u; reflexivity].
        exists (db_process_seq db). split; [reflexivity|].
        cbn [db_processes set_processes]. apply lookup_insert_eq.
  - intros [= <- <-]. do 3 (split; [reflexivity|]). split; [discriminate|].
    reflexivity.
Qed.

(** X10: [GovernanceProcess.save] creates the state store before it
    writes the row.  For an instance with a non-zero primary key it
    creates none: the table of state stores and its sequence are
    untouched, and a save that succeeds returns the instance as it was.
    For an instance whose primary key is [None] or zero it creates an
    empty state store under the next key of the sequence, also when the
    database then refuses the row, and a save that succeeds returns the
    instance pointing to that store.  A save that succeeds has stored
    the instance under its primary key, and the row keeps to the schema:
    its plugin is a stored plugin, and its name and status are within
    the limits of their columns.  A save that is refused leaves the
    table of processes as it was. *)
Theorem GovernanceProcess_save_store self db db' r :
  GovernanceProcess_save self db = (db', r) ->
  (pk_truthy (gp_pk self) = true ->
     db_datastores db' = db_datastores db
     /\ db_datastore_seq db' = db_datastore_seq db
     /\ forall saved, r = Ok saved -> saved = self)
  /\ (pk_truthy (gp_pk self) = false ->
      db_datastores db' = <[db_datastore_seq db := ∅]> (db_datastores db)
      /\ db_datastore_seq db' = db_datastore_seq db + 1
      /\ forall saved, r = Ok saved ->
           gp_state saved = Some (db_datastore_seq db)
           /\ set_gp_pk (gp_pk self) (set_gp_state (gp_state self) saved) = self)
  /\ (forall saved, r = Ok saved ->
        (exists p, gp_pk saved = Some p /\ db_processes db' !! p = Some saved)
        /\ (exists q, q ∈ db_plugins db' /\ plugin_pk q = gp_plugin saved)
        /\ (String.length (gp_name saved) <= 30)%nat
        /\ (String.length (gp_status saved) <= 15)%nat)
  /\ (forall e, r = Raise e ->
        db_processes db' = db_processes db
        /\ db_process_seq db' = db_process_seq db).
Proof.
  unfold GovernanceProcess_save, bindM at 1.
  destruct (pk_truthy (gp_pk self)) eqn:Htruthy; cbn [negb].
  - unfold ret. intros Hsave.
    destruct (GovernanceProcess_Model_save_spec self db db' r Hsave)
      as (Hplugins & Hstores & Hseq & Hok & Hraise).
    split; [|split; [discriminate|split]].
    + intros _. split; [exact Hstores|]. split; [exact Hseq|].
      intros saved Hr. destruct (Hok saved Hr) as (_ & Hsame & _).
      apply Hsame. destruct (gp_pk self); [eauto | discriminate].
    + intros saved Hr. destruct (Hok saved Hr) as (_ & Hsame & Hrow & u & Hcheck).
      assert (saved = self) as ->
        by (apply Hsame; destruct (gp_pk self); [eauto | discriminate]).
      destruct (GovernanceProcess_constraints_Ok self db u Hcheck)
        as (Hname & Hstatus & Hplugin & _).
      rewrite Hplugins. repeat split; assumption.
    + intros e Hr. rewrite (Hraise e Hr). split; reflexivity.
  - unfold bindM at 1, DataStore_objects_create, DataStore_save, ret.
    cbn [ds_pk datastore]. intros Hsave.
    match type of Hsave with
    | GovernanceProcess_Model_save ?g ?d = _ =>
        destruct (GovernanceProcess_Model_save_spec g d db' r Hsave)
          as (Hplugins & Hstores & Hseq & Hok & Hraise)
    end.
    cbn [db_plugins db_datastores db_datastore_seq set_datastores] in Hplugins, Hstores, Hseq.
    split; [discriminate|split; [|split]].
    + intros _. split; [exact Hstores|]. split; [exact Hseq|].
      intros saved Hr. destruct (Hok saved Hr) as (Hback & _).
      destruct self, saved. cbn in Hback |- *.
      injection Hback; intros; subst. split; reflexivity.
    + intros saved Hr. destruct (Hok saved Hr) as (Hback & _ & Hrow & u & Hcheck).
      apply GovernanceProcess_constraints_Ok in Hcheck
        as (Hname & Hstatus & Hplugin & _).
      rewrite Hplugins. split; [exact Hrow|].
      destruct self, saved. cbn in Hback, Hname, Hstatus, Hplugin |- *.
      injection Hback; intros; subst.
      repeat split; assumption.
    + intros e Hr. rewrite (Hraise e Hr). split; reflexivity.
Qed.

(** The first save of a [vote] process of the poll plugin on
    [Sample.db0]. *)
Lemma GovernanceProcess_save_store_witness :
  (pk_truthy None = true ->
     db_datastores Sample.db1 = db_datastores Sample.db0
     /\ db_datastore_seq Sample.db1 = db_datastore_seq Sample.db0
     /\ forall saved, Ok Sample.vote_attempt = Ok saved ->
          saved = set_gp_pk None (set_gp_state None Sample.vote_attempt))
  /\ (pk_truthy None = false ->
      db_datastores Sample.db1
      = <[db_datastore_seq Sample.db0 := ∅]> (db_datastores Sample.db0)
      /\ db_datastore_seq Sample.db1 = db_datastore_seq Sample.db0 + 1
      /\ forall saved, Ok Sample.vote_attempt = Ok saved ->
           gp_state saved = Some (db_datastore_seq Sample.db0)
           /\ set_gp_pk None (set_gp_state None saved)
              = set_gp_pk None (set_gp_state None Sample.vote_attempt))
  /\ (forall saved, Ok Sample.vote_attempt = Ok saved ->
        (exists p, gp_pk saved = Some p /\ db_processes Sample.db1 !! p = Some saved)
        /\ (exists q, q ∈ db_plugins Sample.db1 /\ plugin_pk q = gp_plugin saved)
        /\ (String.length (gp_name saved) <= 30)%nat
        /\ (String.length (gp_status saved) <= 15)%nat)
  /\ (forall e, Ok Sample.vote_attempt = Raise e ->
        db_processes Sample.db1 = db_processes Sample.db0
        /\ db_process_seq Sample.db1 = db_process_seq Sample.db0).
Proof.
  apply (GovernanceProcess_save_store
           (set_gp_pk None (set_gp_state None Sample.vote_attempt))
           Sample.db0 Sample.db1 (Ok Sample.vote_attempt)).
  reflexivity.
Defined.

(** A process whose plugin is not stored is refused by the foreign key;
    the state store that [save] has created for it stays. *)
Example GovernanceProcess_save_refused :
  GovernanceProcess_save (set_gp_pk None (set_gp_state None Sample.vote_attempt))
    (set_plugins [] Sample.db0)
  = (set_plugins [] (set_datastores <[2 := ∅]> 3 Sample.db0),
     Raise (Exn IntegrityError "FOREIGN KEY constraint failed")).
Proof. reflexivity. Qed.

Section StartProcessMore.

Context (env : Env) (self : Plugin) (process_name : string).
Context (callback_url : option string) (kwargs : list (string * value)).

(** X11: when the process name is unknown to the plugin, or the
    parameters are refused, [start_process] raises that error before
    anything is created: the database is returned as it was. *)
Theorem start_process_not_created db e :
  (try! cls := get_process_cls env self process_name in
   Parameters env kwargs (process_input_schema cls)) = Raise e ->
  start_process env self process_name callback_url kwargs db = (db, Raise e).
Proof.
  unfold start_process, bindM at 1, lift at 1.
  destruct (get_process_cls env self process_name) as [cls|e']; cbn [bind].
  - intros Hparams. unfold bindM at 1, lift at 1. rewrite Hparams. reflexivity.
  - intros [= <-]. reflexivity.
Qed.

Lemma start_process_created db cls params db1 created :
  get_process_cls env self process_name = Ok cls ->
  Parameters env kwargs (process_input_schema cls) = Ok params ->
  GovernanceProcess_objects_create process_name callback_url self db
  = (db1, Ok created) ->
  start_process env self process_name callback_url kwargs db
  = match process_start cls (created_process self process_name callback_url db) params
          (created_db self process_name callback_url db) with
    | ((db', started), Ok _) => (db', Ok started)
    | ((db', failed), Raise e) =>
        if is_Exception e
        then (do! _ := GovernanceProcess_delete failed in raise e) db'
        else (db', Raise e)
    end.
Proof.
  intros Hcls Hparams Hcreate.
  destruct (GovernanceProcess_objects_create_Ok self process_name callback_url
              db db1 created Hcreate) as [-> ->].
  unfold start_process, bindM at 1, lift at 1. rewrite Hcls.
  unfold bindM at 1, lift at 1. rewrite Hparams.
  unfold bindM at 1. rewrite Hcreate. reflexivity.
Qed.

(** X12: once the database has accepted the rows of the new process,
    the start logic runs on an instance that is already stored: its row
    is in the table in status [created], with no url, empty errors and
    outcome, and its state store exists and is empty.  When the start
    logic returns, [start_process] returns the instance and the database
    as the start logic left them. *)
Theorem start_process_success db cls params db1 created :
  get_process_cls env self process_name = Ok cls ->
  Parameters env kwargs (process_input_schema cls) = Ok params ->
  GovernanceProcess_objects_create process_name callback_url self db
  = (db1, Ok created) ->
  db1 = created_db self process_name callback_url db
  /\ created = created_process self process_name callback_url db
  /\ db_processes (created_db self process_name callback_url db) !! db_process_seq db
     = Some (created_process self process_name callback_url db)
  /\ db_datastores (created_db self process_name callback_url db)
       !! db_datastore_seq db = Some ∅
  /\ (forall db2 started,
        process_start cls (created_process self process_name callback_url db) params
          (created_db self process_name callback_url db)
        = ((db2, started), Ok tt) ->
        start_process env self process_name callback_url kwargs db
        = (db2, Ok started)).
Proof.
  intros Hcls Hparams Hcreate.
  destruct (GovernanceProcess_objects_create_Ok self process_name callback_url
              db db1 created Hcreate) as [Hdb1 Hcreated].
  split; [exact Hdb1|]. split; [exact Hcreated|]. split; [|split].
  - cbn [created_db db_processes set_processes]. apply lookup_insert_eq.
  - cbn [created_db db_datastores set_processes set_datastores].
    apply lookup_insert_eq.
  - intros db2 started Hstart.
    rewrite (start_process_created db cls params db1 created Hcls Hparams Hcreate),
      Hstart.
    reflexivity.
Qed.

(** X13: an exception of the start logic that is not an [Exception]
    (a [KeyboardInterrupt], say) is not caught: it goes through, and
    the process is not deleted, so the database is the one that the
    start logic left, with the row of the attempt if it left it. *)
Theorem start_process_interrupted db cls params db1 created db2 failed e :
  get_process_cls env self process_name = Ok cls ->
  Parameters env kwargs (process_input_schema cls) = Ok params ->
  GovernanceProcess_objects_create process_name callback_url self db
  = (db1, Ok created) ->
  process_start cls created params db1 = ((db2, failed), Raise e) ->
  is_Exception e = false ->
  start_process env self process_name callback_url kwargs db = (db2, Raise e).
Proof.
  intros Hcls Hparams Hcreate Hstart Hexn.
  rewrite (start_process_created db cls params db1 created Hcls Hparams Hcreate).
  destruct (GovernanceProcess_objects_create_Ok self process_name callback_url
              db db1 created Hcreate) as [Hdb1 Hcreated].
  rewrite <- Hdb1, <- Hcreated, Hstart, Hexn.
  reflexivity.
Qed.

(** X27: when the database refuses the row of the new process,
    [start_process] raises the error of the database.  The start logic
    does not run and nothing is rolled back: no process row is written,
    and the state store that was created for the attempt stays. *)
Theorem start_process_refused db cls params db1 e :
  get_process_cls env self process_name = Ok cls ->
  Parameters env kwargs (process_input_schema cls) = Ok params ->
  GovernanceProcess_objects_create process_name callback_url self db
  = (db1, Raise e) ->
  start_process env self process_name callback_url kwargs db = (db1, Raise e)
  /\ db_processes db1 = db_processes db
  /\ db_process_seq db1 = db_process_seq db
  /\ db_datastores db1 = <[db_datastore_seq db := ∅]> (db_datastores db)
  /\ db_datastore_seq db1 = db_datastore_seq db + 1.
Proof.
  intros Hcls Hparams Hcreate. split.
  - unfold start_process, bindM at 1, lift at 1. rewrite Hcls.
    unfold bindM at 1, lift at 1. rewrite Hparams.
    unfold bindM at 1. rewrite Hcreate. reflexivity.
  - unfold GovernanceProcess_objects_create, GovernanceProcess_save, bindM at 1
      in Hcreate.
    cbn [gp_pk pk_truthy negb] in Hcreate.
    unfold bindM at 1, DataStore_objects_create, DataStore_save, ret in Hcreate.
    cbn [ds_pk datastore] in Hcreate.
    apply GovernanceProcess_Model_save_spec in Hcreate as (_ & _ & _ & _ & Hraise).
    rewrite (Hraise e eq_refl). repeat split; reflexivity.
Qed.

End StartProcessMore.

(** The plugin of [Cases] has no process [vote]. *)
Lemma start_process_not_created_witness :
  start_process Cases.env Sample.poll_plugin "vote" None [] Sample.db0
  = (Sample.db0,
     Raise (Exn ValueError
              "No such process 'vote' for poll plugin. Available processes: ['survey', 'interrupted']")).
Proof.
  apply (start_process_not_created Cases.env Sample.poll_plugin "vote" None []
           Sample.db0).
  vm_compute. reflexivity.
Defined.

(** A [survey] with a title starts on [Sample.db0]. *)
Lemma start_process_success_witness :
  created_db Sample.poll_plugin "survey" None Sample.db0
  = created_db Sample.poll_plugin "survey" None Sample.db0
  /\ created_process Sample.poll_plugin "survey" None Sample.db0
     = created_process Sample.poll_plugin "survey" None Sample.db0
  /\ db_processes (created_db Sample.poll_plugin "survey" None Sample.db0)
       !! db_process_seq Sample.db0
     = Some (created_process Sample.poll_plugin "survey" None Sample.db0)
  /\ db_datastores (created_db Sample.poll_plugin "survey" None Sample.db0)
       !! db_datastore_seq Sample.db0 = Some ∅
  /\ (forall db2 started,
        process_start Cases.survey
          (created_process Sample.poll_plugin "survey" None Sample.db0)
          (VDict [("title", VStr "T")])
          (created_db Sample.poll_plugin "survey" None Sample.db0)
        = ((db2, started), Ok tt) ->
        start_process Cases.env Sample.poll_plugin "survey" None
          [("title", VStr "T")] Sample.db0
        = (db2, Ok started)).
Proof.
  apply (start_process_success Cases.env Sample.poll_plugin "survey" None
           [("title", VStr "T")] Sample.db0 Cases.survey (VDict [("title", VStr "T")])
           (created_db Sample.poll_plugin "survey" None Sample.db0)
           (created_process Sample.poll_plugin "survey" None Sample.db0));
    reflexivity.
Defined.

(** The interrupted process of [Cases] leaves its row in the table. *)
Lemma start_process_interrupted_witness :
  start_process Cases.env Sample.poll_plugin "interrupted" None [] Sample.db0
  = (created_db Sample.poll_plugin "interrupted" None Sample.db0,
     Raise Cases.interrupt).
Proof.
  apply (start_process_interrupted Cases.env Sample.poll_plugin "interrupted" None []
           Sample.db0 Cases.interrupted (VDict [])
           (created_db Sample.poll_plugin "interrupted" None Sample.db0)
           (created_process Sample.poll_plugin "interrupted" None Sample.db0)
           (created_db Sample.poll_plugin "interrupted" None Sample.db0)
           (created_process Sample.poll_plugin "interrupted" None Sample.db0)
           Cases.interrupt);
    reflexivity.
Defined.

(** A plugin whose row has been deleted cannot start a process, and
    the attempt leaves a state store behind. *)
Lemma start_process_refused_witness :
  start_process Cases.env Sample.poll_plugin "survey" None [("title", VStr "T")]
    (set_plugins [] Sample.db0)
  = (set_plugins [] (set_datastores <[2 := ∅]> 3 Sample.db0),
     Raise (Exn IntegrityError "FOREIGN KEY constraint failed"))
  /\ db_processes (set_plugins [] (set_datastores <[2 := ∅]> 3 Sample.db0))
     = db_processes (set_plugins [] Sample.db0)
  /\ db_process_seq (set_plugins [] (set_datastores <[2 := ∅]> 3 Sample.db0))
     = db_process_seq (set_plugins [] Sample.db0)
  /\ db_datastores (set_plugins [] (set_datastores <[2 := ∅]> 3 Sample.db0))
     = <[db_datastore_seq (set_plugins [] Sample.db0) := ∅]>
         (db_datastores (set_plugins [] Sample.db0))
  /\ db_datastore_seq (set_plugins [] (set_datastores <[2 := ∅]> 3 Sample.db0))
     = db_datastore_seq (set_plugins [] Sample.db0) + 1.
Proof.
  apply (start_process_refused Cases.env Sample.poll_plugin "survey" None
           [("title", VStr "T")] (set_plugins [] Sample.db0) Cases.survey
           (VDict [("title", VStr "T")]));
    reflexivity.
Defined.

(** ** The order of link qualities *)

Lemma list_index_None x l : list_index x l = None <-> x ∉ l.
Proof.
  induction l as [|y l IH]; cbn [list_index].
  - split; [intros _ H; inversion H | reflexivity].
  - destruct (String.eqb_spec x y) as [-> | Hne].
    + split; [discriminate | intros H; exfalso; apply H; left].
    + destruct (list_index x l) eqn:Hl; cbn.
      * split; [discriminate|]. intros Hnot. exfalso. apply Hnot. right.
        destruct (decide (x ∈ l)) as [Hin | Hout]; [exact Hin|].
        apply IH in Hout. discriminate.
      * split; [|reflexivity]. intros _ [-> | Hin]%elem_of_cons; [congruence|].
        revert Hin. apply IH. reflexivity.
Qed.

(** X14: on the four qualities, [quality_is_greater] is the strict total
    order unknown < unconfirmed < confirmed (weak) < confirmed
    (strong): it never raises, no quality is greater than itself, of
    two different qualities one is greater than the other and never
    both, and the relation is transitive. *)
Theorem quality_is_greater_strict_total_order a b c :
  let greater := fun x y =>
    quality_is_greater (LinkQuality_value x) (LinkQuality_value y) = Ok true in
  (exists g, quality_is_greater (LinkQuality_value a) (LinkQuality_value b) = Ok g)
  /\ ~ greater a a
  /\ (a <> b -> greater a b \/ greater b a)
  /\ (greater a b -> ~ greater b a)
  /\ (greater a b -> greater b c -> greater a c)
  /\ greater UNCONFIRMED UNKNOWN
  /\ greater WEAK_CONFIRM UNCONFIRMED
  /\ greater STRONG_CONFIRM WEAK_CONFIRM.
Proof.
  cbn zeta. repeat split; try reflexivity.
  - eexists. apply quality_is_greater_rank.
  - destruct a; discriminate.
  - intros Hne. destruct a, b; try contradiction; vm_compute; auto.
  - destruct a, b; vm_compute; congruence.
  - destruct a, b, c; vm_compute; congruence.
Qed.

(** X15: [quality_is_greater] raises exactly when one of its arguments
    is not among the four quality strings, and what it raises is a
    [ValueError]; an enum member passed in the place of its value is
    such an argument. *)
Theorem quality_is_greater_raises a b :
  ((exists e, quality_is_greater a b = Raise e)
   <-> a ∉ quality_order \/ b ∉ quality_order)
  /\ (forall e, quality_is_greater a b = Raise e -> exn_cls e = ValueError).
Proof.
  unfold quality_is_greater, index.
  destruct (list_index a quality_order) as [i|] eqn:Ha; cbn [bind].
  - assert (a ∈ quality_order) as Hin.
    { destruct (decide (a ∈ quality_order)) as [H|H]; [exact H|].
      apply list_index_None in H. congruence. }
    destruct (list_index b quality_order) as [j|] eqn:Hb; cbn [bind].
    + assert (b ∈ quality_order) as Hinb.
      { destruct (decide (b ∈ quality_order)) as [H|H]; [exact H|].
        apply list_index_None in H. congruence. }
      split; [|discriminate]. split; [intros [e [=]] | intros [H | H]; contradiction].
    + split; [|intros e [= <-]; reflexivity].
      split; [intros _; right; apply list_index_None, Hb | eauto].
  - split; [|intros e [= <-]; reflexivity].
    split; [intros _; left; apply list_index_None, Ha | eauto].
Qed.

(** ** MetagovID: unique ids, the primary flag, and the primary id *)

Section MetagovMore.

Context (db : DB).

(** X16: a new identity that repeats the [internal_id] or the
    [external_id] of a stored row is refused with [IntegrityError],
    and the database is left as it was. *)
Theorem MetagovID_save_unique_ids self row p :
  mg_pk self = None ->
  row ∈ db_metagov_ids db -> mg_pk row = Some p ->
  internal_id row = internal_id self \/ external_id row = external_id self ->
  exists column,
    MetagovID_save self db
    = (db, Raise (Exn IntegrityError ("UNIQUE constraint failed: " +:+ column)))
    /\ (column = "core_metagovid.internal_id" \/ column = "core_metagovid.external_id").
Proof.
  intros Hnew Hin Hpk Hdup. unfold MetagovID_save. rewrite Hnew. cbn [pk_truthy].
  unfold MetagovID_Model_save. rewrite Hnew.
  set (others := filter _ (db_metagov_ids db)).
  assert (In row others) as Hother.
  { apply list_elem_of_In, list_elem_of_filter. split; [congruence | exact Hin]. }
  destruct (existsb (fun r => (internal_id r =? internal_id self)%Z) others) eqn:Hint.
  - eexists. split; [reflexivity | left; reflexivity].
  - destruct (existsb (fun r => (external_id r =? external_id self)%Z) others) eqn:Hext.
    + eexists. split; [reflexivity | right; reflexivity].
    + exfalso. destruct Hdup as [Hdup | Hdup].
      * apply not_true_iff_false in Hint. apply Hint, existsb_exists.
        exists row. split; [exact Hother | apply Z.eqb_eq, Hdup].
      * apply not_true_iff_false in Hext. apply Hext, existsb_exists.
        exists row. split; [exact Hother | apply Z.eqb_eq, Hdup].
Qed.

(** X17: [save] cannot move the primary flag.  Take a node with a
    non-zero primary key and at least one linked id, whose stored flag
    and the stored flags of its linked ids count exactly one primary.
    Saving the node with its flag flipped, in either direction, is
    refused with [IntegrityError] and writes nothing. *)
Theorem MetagovID_save_flip_refused self p linked stored_flag :
  mg_pk self = Some p -> p <> 0 ->
  linked_ids_all db self = Ok linked -> linked <> [] ->
  true_count (stored_flag :: map primary linked) = 1 ->
  primary self = negb stored_flag ->
  MetagovID_save self db
  = (db, Raise (Exn IntegrityError
                  (if stored_flag then no_primary_msg else many_primary_msg))).
Proof.
  intros Hpk Hp Hlinked Hne Hcount Hflip.
  rewrite (MetagovID_save_checked db self p linked Hpk Hp Hlinked Hne). cbn zeta.
  change (true_count (primary self :: map primary linked))
    with ((if primary self then 1 else 0) + true_count (map primary linked)).
  change (true_count (stored_flag :: map primary linked))
    with ((if stored_flag then 1 else 0) + true_count (map primary linked)) in Hcount.
  rewrite Hflip. destruct stored_flag; cbn [negb].
  - replace (0 + true_count (map primary linked)) with 0 by lia. reflexivity.
  - replace (1 + true_count (map primary linked)) with 2 by lia. reflexivity.
Qed.

(** X18: the primary id is stable: what [get_primary_id] returns for a
    stored node is itself primary, and [get_primary_id] on it returns
    it again. *)
Theorem get_primary_id_idempotent self r :
  is_Some (mg_pk self) ->
  get_primary_id db self = Ok r ->
  is_primary db r = Ok true /\ get_primary_id db r = Ok r.
Proof.
  intros Hpk Hget.
  assert (is_primary db r = Ok true) as Hprim.
  { destruct (is_primary_persisted db self Hpk) as (linked & Hlinked & Hself).
    unfold get_primary_id in Hget. rewrite Hself, Hlinked in Hget. cbn [bind] in Hget.
    destruct (primary self || bool_decide (linked = [])) eqn:Hflag.
    - injection Hget as Heq. rewrite <- Heq. exact Hself.
    - destruct (first_primary_spec db linked) as [(r' & Hfound & _ & Hr') | [Hnone _]].
      { intros x. apply (linked_row_persisted db self linked x Hlinked). }
      + rewrite Hfound in Hget. cbn [bind] in Hget. injection Hget as Heq.
        rewrite <- Heq. exact Hr'.
      + rewrite Hnone in Hget. discriminate. }
  split; [exact Hprim|]. unfold get_primary_id. rewrite Hprim. reflexivity.
Qed.

(** X19: on an instance that has never been saved, the linked ids cannot
    be read: [get_primary_id] returns the instance when its flag is
    set, and otherwise raises the [ValueError] of the relation; it
    does not treat the instance as a node without links. *)
Theorem get_primary_id_unsaved self :
  mg_pk self = None ->
  get_primary_id db self
  = if primary self then Ok self
    else Raise (Exn ValueError
      "MetagovID needs to have a value for field 'id' before this many-to-many relationship can be used.").
Proof.
  intros Hpk. unfold get_primary_id, is_primary, linked_ids_all. rewrite Hpk.
  destruct (primary self); reflexivity.
Qed.

End MetagovMore.

(** A new identity with the external id of [Sample.bob]. *)
Lemma MetagovID_save_unique_ids_witness :
  exists column,
    MetagovID_save Cases.bob_again Sample.db_ids
    = (Sample.db_ids,
       Raise (Exn IntegrityError ("UNIQUE constraint failed: " +:+ column)))
    /\ (column = "core_metagovid.internal_id" \/ column = "core_metagovid.external_id").
Proof.
  apply (MetagovID_save_unique_ids Sample.db_ids Cases.bob_again Sample.bob 2);
    [reflexivity | | reflexivity | right; reflexivity].
  right. left.
Defined.

(** [Sample.alice], the primary of her group, cannot lower her flag. *)
Lemma MetagovID_save_flip_refused_witness :
  MetagovID_save Cases.alice_secondary Sample.db_ids
  = (Sample.db_ids, Raise (Exn IntegrityError no_primary_msg)).
Proof.
  apply (MetagovID_save_flip_refused Sample.db_ids Cases.alice_secondary 1
           [Sample.bob] true);
    [reflexivity | lia | reflexivity | discriminate | reflexivity | reflexivity].
Defined.

(** [Sample.bob] resolves to [Sample.alice], who resolves to herself. *)
Lemma get_primary_id_idempotent_witness :
  is_primary Sample.db_ids Sample.alice = Ok true
  /\ get_primary_id Sample.db_ids Sample.alice = Ok Sample.alice.
Proof.
  apply (get_primary_id_idempotent Sample.db_ids Sample.bob Sample.alice);
    [vm_compute; eauto | reflexivity].
Defined.

(** A new identity with the flag lowered. *)
Lemma get_primary_id_unsaved_witness :
  get_primary_id Sample.db0 (set_mg_pk None Sample.bob)
  = if primary (set_mg_pk None Sample.bob) then Ok (set_mg_pk None Sample.bob)
    else Raise (Exn ValueError
      "MetagovID needs to have a value for field 'id' before this many-to-many relationship can be used.").
Proof.
  apply (get_primary_id_unsaved Sample.db0 (set_mg_pk None Sample.bob)). reflexivity.
Defined.

(** ** LinkedAccount.save on an account that has a primary key *)

Lemma same_tuple_sym a b : same_tuple a b -> same_tuple b a.
Proof. unfold same_tuple, claims_tuple. intuition congruence. Qed.

Lemma same_tuple_trans a b c : same_tuple a b -> same_tuple b c -> same_tuple a c.
Proof. unfold same_tuple, claims_tuple. intuition congruence. Qed.

Section SaveAccountMore.

Context (db : DB) (self : LinkedAccount) (p : Z).
Hypothesis keyed : la_pk self = Some p.

(** Writing [self] over the row of its key keeps both kinds of
    uniqueness when every row that claims its tuple is that row. *)
Lemma update_row_unique rows :
  unique_tuples rows -> unique_keys rows ->
  (forall r, r ∈ rows -> same_tuple self r -> la_pk r = Some p) ->
  unique_tuples (update_row la_pk p self rows)
  /\ unique_keys (update_row la_pk p self rows).
Proof.
  intros Htuples Hkeys Hclaim. split.
  - intros i j a b Ha Hb Hsame. rewrite update_row_lookup in Ha, Hb.
    destruct (rows !! i) as [a0|] eqn:Hi; [|discriminate].
    destruct (rows !! j) as [b0|] eqn:Hj; [|discriminate].
    cbn in Ha, Hb. injection Ha as <-. injection Hb as <-.
    destruct (decide (la_pk a0 = Some p)) as [Hpa|Hpa],
             (decide (la_pk b0 = Some p)) as [Hpb|Hpb].
    + apply (Hkeys i j a0 b0 Hi Hj). congruence.
    + exfalso. apply Hpb, Hclaim; [eapply list_elem_of_lookup_2, Hj | exact Hsame].
    + exfalso. apply Hpa, Hclaim; [eapply list_elem_of_lookup_2, Hi|].
      apply same_tuple_sym, Hsame.
    + exact (Htuples i j a0 b0 Hi Hj Hsame).
  - intros i j a b Ha Hb Hsame. rewrite update_row_lookup in Ha, Hb.
    destruct (rows !! i) as [a0|] eqn:Hi; [|discriminate].
    destruct (rows !! j) as [b0|] eqn:Hj; [|discriminate].
    cbn in Ha, Hb. injection Ha as <-. injection Hb as <-.
    apply (Hkeys i j a0 b0 Hi Hj).
    destruct (decide (la_pk a0 = Some p)), (decide (la_pk b0 = Some p)); congruence.
Qed.

Lemma append_row_unique rows :
  unique_tuples rows -> unique_keys rows ->
  (forall r, r ∈ rows -> ~ same_tuple self r) ->
  (forall r, r ∈ rows -> la_pk r <> Some p) ->
  unique_tuples (rows ++ [self]) /\ unique_keys (rows ++ [self]).
Proof.
  intros Htuples Hkeys Hfree Hfresh. split.
  - intros i j a b Ha Hb Hsame.
    apply lookup_app_Some in Ha as [Ha | [Hi Ha]];
      apply lookup_app_Some in Hb as [Hb | [Hj Hb]].
    + exact (Htuples i j a b Ha Hb Hsame).
    + apply list_lookup_singleton_Some in Hb as [_ <-].
      exfalso. apply (Hfree a); [eapply list_elem_of_lookup_2, Ha|].
      apply same_tuple_sym, Hsame.
    + apply list_lookup_singleton_Some in Ha as [_ <-].
      exfalso. apply (Hfree b); [eapply list_elem_of_lookup_2, Hb | exact Hsame].
    + apply list_lookup_singleton_Some in Ha as [Hi' _].
      apply list_lookup_singleton_Some in Hb as [Hj' _]. lia.
  - intros i j a b Ha Hb Hsame.
    apply lookup_app_Some in Ha as [Ha | [Hi Ha]];
      apply lookup_app_Some in Hb as [Hb | [Hj Hb]].
    + exact (Hkeys i j a b Ha Hb Hsame).
    + apply list_lookup_singleton_Some in Hb as [_ <-].
      exfalso. apply (Hfresh a); [eapply list_elem_of_lookup_2, Ha | congruence].
    + apply list_lookup_singleton_Some in Ha as [_ <-].
      exfalso. apply (Hfresh b); [eapply list_elem_of_lookup_2, Hb | congruence].
    + apply list_lookup_singleton_Some in Ha as [Hi' _].
      apply list_lookup_singleton_Some in Hb as [Hj' _]. lia.
Qed.

(** X20: on a table with one row per tuple and one row per primary key,
    every save of an account that carries a primary key either is
    refused or leaves a table with one row per tuple and one row per
    primary key. *)
Theorem LinkedAccount_save_keeps_uniqueness db' saved :
  unique_tuples (db_linked_accounts db) ->
  unique_keys (db_linked_accounts db) ->
  LinkedAccount_save self db = (db', Ok saved) ->
  unique_tuples (db_linked_accounts db') /\ unique_keys (db_linked_accounts db').
Proof.
  intros Htuples Hkeys. unfold LinkedAccount_save.
  destruct (LinkedAccount_filter _ _ _ _ db) as [|first rest] eqn:Hfilter.
  - assert (forall r, r ∈ db_linked_accounts db -> ~ same_tuple self r) as Hfree.
    { intros r Hin Hsame.
      assert (r ∈ LinkedAccount_filter (la_community self) (la_platform_type self)
                (la_platform_identifier self) (la_community_platform_id self) db) as Hr
        by (apply LinkedAccount_filter_elem; split; assumption).
      rewrite Hfilter in Hr. inversion Hr. }
    unfold LinkedAccount_Model_save. rewrite keyed.
    destruct (has_row la_pk p (db_linked_accounts db)) eqn:Hrow;
      intros [= <- <-]; cbn [db_linked_accounts set_linked_accounts].
    + apply update_row_unique; [assumption..|].
      intros r Hin Hsame. destruct (Hfree r Hin Hsame).
    + apply append_row_unique; [assumption..|].
      intros r Hin Hpk. apply not_true_iff_false in Hrow. apply Hrow.
      apply has_row_true. eauto.
  - rewrite keyed.
    destruct (negb (pk_truthy (Some p))
              || pk_truthy (Some p) && bool_decide (la_pk first <> Some p)) eqn:Hclaimed;
      [discriminate|].
    apply orb_false_iff in Hclaimed as [Htruthy Hfirst].
    apply negb_false_iff in Htruthy. rewrite Htruthy in Hfirst. cbn [andb] in Hfirst.
    apply bool_decide_eq_false_1 in Hfirst.
    assert (la_pk first = Some p) as Hpk
      by (destruct (decide (la_pk first = Some p)); [assumption | contradiction]).
    assert (first ∈ LinkedAccount_filter (la_community self) (la_platform_type self)
              (la_platform_identifier self) (la_community_platform_id self) db) as Hin
      by (rewrite Hfilter; left).
    apply LinkedAccount_filter_elem in Hin as [Hclaims Hin].
    unfold LinkedAccount_Model_save. rewrite keyed.
    assert (has_row la_pk p (db_linked_accounts db) = true) as ->
      by (apply has_row_true; eauto).
    intros [= <- <-]; cbn [db_linked_accounts set_linked_accounts].
    apply update_row_unique; [assumption..|].
    intros r Hr Hsame.
    apply list_elem_of_lookup_1 in Hr as [i Hi].
    apply list_elem_of_lookup_1 in Hin as [j Hj].
    assert (i = j) as ->.
    { apply (Htuples i j r first Hi Hj).
      apply (same_tuple_trans r self first); [apply same_tuple_sym, Hsame | exact Hclaims]. }
    rewrite Hi in Hj. injection Hj as ->. exact Hpk.
Qed.



End SaveAccountMore.

Lemma unique_tuples_singleton a : unique_tuples [a].
Proof.
  intros i j x y Hi Hj _.
  apply list_lookup_singleton_Some in Hi as [-> _].
  apply list_lookup_singleton_Some in Hj as [-> _]. reflexivity.
Qed.

Lemma unique_keys_singleton a : unique_keys [a].
Proof.
  intros i j x y Hi Hj _.
  apply list_lookup_singleton_Some in Hi as [-> _].
  apply list_lookup_singleton_Some in Hj as [-> _]. reflexivity.
Qed.

(** The slack account of [Sample.db_ids], saved with new custom data. *)
Lemma LinkedAccount_save_keeps_uniqueness_witness :
  unique_tuples
    (db_linked_accounts (fst (LinkedAccount_save Cases.slack_account_edited Sample.db_ids)))
  /\ unique_keys
       (db_linked_accounts (fst (LinkedAccount_save Cases.slack_account_edited
                                   Sample.db_ids))).
Proof.
  apply (LinkedAccount_save_keeps_uniqueness Sample.db_ids Cases.slack_account_edited 1
           eq_refl _ Cases.slack_account_edited);
    [apply unique_tuples_singleton | apply unique_keys_singleton | reflexivity].
Defined.


(** That save, computed: the one row of the table is the edited
    account. *)
Example LinkedAccount_save_update_computed :
  db_linked_accounts (fst (LinkedAccount_save Cases.slack_account_edited Sample.db_ids))
  = [Cases.slack_account_edited]
  /\ snd (LinkedAccount_save Cases.slack_account_edited Sample.db_ids)
     = Ok Cases.slack_account_edited.
Proof. split; vm_compute; reflexivity. Qed.

(** ** Plugin.add_linked_account on an account that exists *)

Section AddLinkedAccountMore.

Context (db : DB) (self : Plugin) (platform_identifier : string).
Context (existing : LinkedAccount).
Hypothesis found :
  head (LinkedAccount_filter (plugin_community self) (plugin_name self)
          platform_identifier (plugin_community_platform_id self) db)
  = Some existing.

(** X22: without a link quality ([None], or the empty string) nothing
    is compared and nothing is written: the account is returned as it
    is stored, and the custom data and the link type of the call are
    dropped. *)
Theorem add_linked_account_without_quality external_id custom_data link_type
    link_quality :
  opt_str_truthy link_quality = false ->
  add_linked_account self platform_identifier external_id custom_data link_type
    link_quality db
  = (db, Ok existing).
Proof.
  intros Hfalsy. unfold add_linked_account, add_linked_account_try.
  unfold bindM at 1.
  rewrite (retrieve_account_found db self platform_identifier existing found).
  destruct link_quality as [q|]; cbn [opt_str_truthy] in Hfalsy;
    [rewrite Hfalsy|]; reflexivity.
Qed.




End AddLinkedAccountMore.

(** A call that brings custom data but no quality leaves the slack
    account of [Sample.db_ids] alone. *)
Lemma add_linked_account_without_quality_witness :
  add_linked_account Sample.slack_plugin "U123" None (VDict [("team", VStr "T1")])
    (Some (LinkType_value OAUTH)) None Sample.db_ids
  = (Sample.db_ids, Ok Sample.slack_account).
Proof.
  apply (add_linked_account_without_quality Sample.db_ids Sample.slack_plugin "U123"
           Sample.slack_account eq_refl).
  reflexivity.
Defined.


(** ** Looking up the processes of a plugin *)

Section GetProcess.

Context (env : Env) (model_of : ProcessCls -> ProcessModel).

(** X24: a process that [get_process] returns is the row of the
    requested primary key; its name is one of the processes of the
    plugin, and it passes the filter of the manager of that process
    class: for a proxy class, the row has the name of the class and
    belongs to a plugin of the plugin name of the class. *)
Theorem get_process_sound self id db g :
  get_process env model_of self id db = Ok g ->
  db_processes db !! id = Some g
  /\ exists cls,
       get_process_cls env self (gp_name g) = Ok cls
       /\ (model_proxy (model_of cls) = true ->
           gp_name g = model_name (model_of cls)
           /\ process_plugin_name db g = Some (model_plugin_name (model_of cls))).
Proof.
  unfold get_process, process_objects_get.
  destruct (db_processes db !! id) as [row|]; [|discriminate].
  cbn [in_process_queryset GovernanceProcess_model model_proxy bind].
  destruct (get_process_cls env self (gp_name row)) as [cls|] eqn:Hcls; [|discriminate].
  cbn [bind]. destruct (in_process_queryset (model_of cls) db row) eqn:Hin;
    [|discriminate].
  intros [= <-]. split; [reflexivity|]. exists cls. split; [exact Hcls|].
  intros Hproxy. unfold in_process_queryset in Hin. rewrite Hproxy in Hin.
  apply andb_true_iff in Hin as [Hname Hplugin].
  split; [apply String.eqb_eq, Hname | apply bool_decide_eq_true_1 in Hplugin; exact Hplugin].
Qed.

(** X25: [get_process] and [get_processes] use the plugin instance for
    its name only.  Two instances of the same plugin name, in the same
    community or not, get the same answers: a process is returned to
    an instance that it does not belong to. *)
Theorem get_process_any_instance self other id process_name db :
  plugin_name self = plugin_name other ->
  get_process env model_of self id db = get_process env model_of other id db
  /\ get_processes env model_of self process_name db
     = get_processes env model_of other process_name db.
Proof.
  intros Hname.
  assert (forall n, get_process_cls env self n = get_process_cls env other n) as Hcls.
  { intros n. unfold get_process_cls. rewrite Hname. reflexivity. }
  split.
  - unfold get_process.
    destruct (process_objects_get GovernanceProcess_model id db); [|reflexivity].
    cbn [bind]. rewrite Hcls. reflexivity.
  - unfold get_processes. rewrite Hcls. reflexivity.
Qed.

End GetProcess.

(** The process of [Sample.db1], which belongs to the poll plugin of
    [Sample.acme]. *)
Lemma get_process_sound_witness :
  db_processes Sample.db1 !! 1 = Some Sample.vote_attempt
  /\ exists cls,
       get_process_cls Sample.env Sample.poll_plugin (gp_name Sample.vote_attempt)
       = Ok cls
       /\ (model_proxy (Cases.vote_model cls) = true ->
           gp_name Sample.vote_attempt = model_name (Cases.vote_model cls)
           /\ process_plugin_name Sample.db1 Sample.vote_attempt
              = Some (model_plugin_name (Cases.vote_model cls))).
Proof.
  apply (get_process_sound Sample.env Cases.vote_model Sample.poll_plugin 1 Sample.db1).
  reflexivity.
Defined.

(** The poll plugin of another community reads that process as well. *)
Lemma get_process_any_instance_witness :
  get_process Sample.env Cases.vote_model Cases.other_poll_plugin 1 Sample.db1
  = get_process Sample.env Cases.vote_model Sample.poll_plugin 1 Sample.db1
  /\ get_processes Sample.env Cases.vote_model Cases.other_poll_plugin "vote" Sample.db1
     = get_processes Sample.env Cases.vote_model Sample.poll_plugin "vote" Sample.db1.
Proof.
  apply (get_process_any_instance Sample.env Cases.vote_model Cases.other_poll_plugin
           Sample.poll_plugin 1 "vote" Sample.db1).
  reflexivity.
Defined.

(** The result of both lookups on [Sample.db1]. *)
Example get_process_other_community :
  get_process Sample.env Cases.vote_model Cases.other_poll_plugin 1 Sample.db1
  = Ok Sample.vote_attempt
  /\ gp_plugin Sample.vote_attempt <> plugin_pk Cases.other_poll_plugin.
Proof. split; [reflexivity | discriminate]. Qed.

(** ** Parameters that are not a mapping *)

Section DispatchKwargs.

Context (env : Env) (self : Community) (name action_id : string).
Context (community_platform_id : option string).
Context (cls : PluginCls) (meta : ActionMeta).
Hypothesis registered : plugin_registry env !! name = Some cls.
Hypothesis declared : _action_registry cls !! action_id = Some meta.

(** X26: parameters that are not empty and not a dict (a list, a
    string, a number) cannot be unpacked into keyword arguments: once
    they are through the input check, the dispatch ends in
    [TypeError] and the handler is not called. *)
Theorem perform_action_not_a_mapping parameters validation db calls plugin f :
  get_plugin env self name community_platform_id None db = Ok plugin ->
  validation && truthy (input_schema meta) && truthy parameters = false
  \/ jsonschema_validate env parameters (input_schema meta) = Ok tt ->
  cls_methods cls (function_name meta) = Some f ->
  truthy parameters = true ->
  (forall d, parameters <> VDict d) ->
  perform_action env self name action_id parameters validation
    community_platform_id (db, calls)
  = ((db, calls), Raise (Exn TypeError "argument after ** must be a mapping")).
Proof.
  intros Hplugin Hinput Hmethod Htruthy Hshape.
  rewrite (perform_action_lookups env self name action_id community_platform_id
             cls meta registered declared).
  unfold bindM at 1. cbn [fst]. rewrite Hplugin.
  assert ((if validation && truthy (input_schema meta) && truthy parameters
           then lift (jsonschema_validate env parameters (input_schema meta))
           else ret tt) (db, calls) = ((db, calls), Ok tt)) as Hvalid.
  { destruct Hinput as [-> | ->]; [reflexivity|].
    destruct (validation && truthy (input_schema meta) && truthy parameters);
      reflexivity. }
  unfold bindM at 1. rewrite Hvalid.
  unfold bindM at 1, lift at 1, getattr. rewrite Hmethod.
  unfold bindM at 1, lift at 1, py_or. rewrite Htruthy.
  destruct parameters as [| b | n | s | l | d]; try reflexivity.
  destruct (Hshape d eq_refl).
Qed.

End DispatchKwargs.

(** [add-note] called with a list in the place of the parameters. *)
Lemma perform_action_not_a_mapping_witness :
  perform_action Cases.env Sample.acme "poll" "add-note" (VList [VInt 1]) true None
    (Sample.db0, [])
  = ((Sample.db0, []), Raise (Exn TypeError "argument after ** must be a mapping")).
Proof.
  apply (perform_action_not_a_mapping Cases.env Sample.acme "poll" "add-note" None
           Cases.notes_cls Cases.add_note_meta eq_refl eq_refl (VList [VInt 1]) true
           Sample.db0 [] Sample.poll_plugin Cases.add_note);
    [reflexivity | left; reflexivity | reflexivity | reflexivity | discriminate].
Defined.

(** ** The examples, run *)

(** [add-note] with validation on: the note is in the store, the call is
    in the trace, and the outcome is the error of the output schema. *)
Example perform_action_add_note :
  perform_action Cases.env Sample.acme "poll" "add-note" VNone true None
    (Sample.db0, [])
  = ((Cases.db_noted, [Build_Call "add_note" Sample.poll_plugin []]),
     Raise (Exn ValidationError "'id' is a required property")).
Proof. vm_compute. reflexivity. Qed.

(** A [survey] with a title is started and stays in the table, in
    status [pending]; without a title nothing is created. *)
Example start_process_survey :
  snd (start_process Cases.env Sample.poll_plugin "survey" None
         [("title", VStr "T")] Sample.db0)
  = Ok Cases.survey_started
  /\ db_processes (fst (start_process Cases.env Sample.poll_plugin "survey" None
                          [("title", VStr "T")] Sample.db0)) !! 1
     = Some Cases.survey_started
  /\ start_process Cases.env Sample.poll_plugin "survey" None [] Sample.db0
     = (Sample.db0, Raise (Exn ValidationError "'title' is a required property")).
Proof. repeat split; vm_compute; reflexivity. Qed.
